(** * s5.js: the Document ORM over a JavaScript store

    A shallow embedding of [index.js] (the classes [S5Client], [Document]
    and [S5], and [createCollection]) and the properties of its
    operations.

    Scope of the embedding.
    - JavaScript values are the primitives and references into a store of
      objects, so that two names for one object see each other's writes.
      Numbers are the integers; strings are byte strings.
    - An object is its own string-keyed properties; an array is an object
      with a [length] (the exotic behaviour of index keys and of [length]
      is written out).  Of the members an object inherits from
      [Object.prototype], and an array from [Array.prototype] (those of
      ECMAScript 2023), the names are known, so that [in] and an
      assignment to [__proto__] do what the runtime does; their values
      (built-in functions, the prototypes themselves) are not values of
      the embedding, and the properties of [get] and [set] keep to paths
      that look up own keys.
    - The file is an ES module: its code runs in strict mode.
    - [async]/[await] is sequential: every method awaits the single request
      it issues.  axios is the transport: a request is logged, the server's
      answer is parsed into fresh objects of the store, and the promise
      settles by the default [validateStatus] (2xx resolves).
    - A method runs in a monad of state and exceptions; an instance method
      has [this] in its state, so what it leaves in [this] is known also
      when it throws.
    - [JSON.stringify] is the runtime's; it is a parameter.
    - The server is not part of [index.js].  Where a property speaks of
      what the server reads (the query string, decoded), the decoder is
      given with the notions used to state the properties. *)

From stdpp Require Import gmap strings list pretty.
From Stdlib Require Import ZArith Ascii.

Set Warnings "-register-all".

Open Scope string_scope.
Open Scope Z_scope.

(** ** Values and the object store *)

Definition loc := positive.

Inductive value :=
| VUndef
| VNull
| VBool (b : bool)
| VNum (n : Z)
| VStr (s : string)
| VRef (l : loc).

#[global] Instance value_eq_dec : EqDecision value.
Proof. solve_decision. Defined.

(** [arr_len = Some n] for an array of length [n]; [None] for a plain
    object.  [props] holds the own enumerable properties (for an array:
    the elements under their index keys, and any other key set on it). *)
Record object := Obj { arr_len : option nat; props : gmap string value }.

Definition empty_object : object := Obj None ∅.

Abbreviation heap := (gmap loc object).

Definition alloc (o : object) (h : heap) : loc * heap :=
  let l := fresh (dom h) in (l, <[l := o]> h).

(** ToBoolean *)
Definition truthy (v : value) : bool :=
  match v with
  | VUndef | VNull => false
  | VBool b => b
  | VNum n => negb (n =? 0)
  | VStr s => negb (bool_decide (s = EmptyString))
  | VRef _ => true
  end.

(** [a || b] *)
Definition js_or (a b : value) : value := if truthy a then a else b.

Definition nullish (v : value) : bool :=
  match v with VUndef | VNull => true | _ => false end.

(** *** Array index keys *)

Definition digit (a : ascii) : option N :=
  let n := N_of_ascii a in
  if ((48 <=? n) && (n <=? 57))%N then Some (n - 48)%N else None.

Fixpoint parse_dec (acc : N) (s : string) : option N :=
  match s with
  | EmptyString => Some acc
  | String a r =>
      match digit a with
      | Some d => parse_dec (acc * 10 + d)%N r
      | None => None
      end
  end.

(** A key is an array index when it is the canonical decimal form of an
    integer below 2^32 - 1. *)
Definition array_index (k : string) : option nat :=
  match k with
  | EmptyString => None
  | _ =>
      match parse_dec 0%N k with
      | Some n =>
          if bool_decide (pretty n = k) && (n <? 4294967295)%N
          then Some (N.to_nat n) else None
      | None => None
      end
  end.

Definition index_key (i : nat) : string := pretty i.

(** *** Property access *)

(** [v[k]] on a value that is neither [undefined] nor [null]. *)
Definition get_own (h : heap) (v : value) (k : string) : value :=
  match v with
  | VRef l =>
      match h !! l with
      | Some o =>
          match arr_len o with
          | Some n =>
              if bool_decide (k = "length") then VNum (Z.of_nat n)
              else default VUndef (props o !! k)
          | None => default VUndef (props o !! k)
          end
      | None => VUndef
      end
  | VStr s =>
      if bool_decide (k = "length") then VNum (Z.of_nat (String.length s))
      else
        match array_index k with
        | Some i =>
            match String.get i s with
            | Some c => VStr (String c EmptyString)
            | None => VUndef
            end
        | None => VUndef
        end
  | _ => VUndef
  end.

(** [v?.[k]] *)
Definition opt_get (h : heap) (v : value) (k : string) : value :=
  if nullish v then VUndef else get_own h v k.

(** The own enumerable properties that a spread [{...v}] copies. *)
Fixpoint string_props (i : nat) (s : string) : gmap string value :=
  match s with
  | EmptyString => ∅
  | String c r =>
      <[index_key i := VStr (String c EmptyString)]> (string_props (S i) r)
  end.

Definition own_props (h : heap) (v : value) : gmap string value :=
  match v with
  | VRef l => match h !! l with Some o => props o | None => ∅ end
  | VStr s => string_props 0%nat s
  | _ => ∅
  end.

Definition is_array (h : heap) (v : value) : bool :=
  match v with
  | VRef l =>
      match h !! l with
      | Some o => bool_decide (is_Some (arr_len o))
      | None => false
      end
  | _ => false
  end.

(** The index slots of an array, in order; [None] is a hole. *)
Definition slots (o : object) : list (option value) :=
  match arr_len o with
  | Some n => (λ i, props o !! index_key i) <$> seq 0 n
  | None => []
  end.

Definition array_slots (h : heap) (v : value) : list (option value) :=
  match v with
  | VRef l => match h !! l with Some o => slots o | None => [] end
  | _ => []
  end.

Definition array_of (vs : list value) : object :=
  Obj (Some (length vs))
      (list_to_map (zip (index_key <$> seq 0 (length vs)) vs)).

(** ToString.  An array prints its elements joined by commas
    ([undefined], [null] and holes print nothing; an array met again
    inside itself prints nothing). *)
Fixpoint to_string_aux (fuel : nat) (h : heap) (seen : list loc) (v : value)
  : string :=
  match v with
  | VUndef => "undefined"
  | VNull => "null"
  | VBool true => "true"
  | VBool false => "false"
  | VNum n => pretty n
  | VStr s => s
  | VRef l =>
      match h !! l with
      | Some o =>
          match arr_len o, fuel with
          | None, _ => "[object Object]"
          | Some _, O => EmptyString
          | Some _, S f =>
              if bool_decide (l ∈ seen) then EmptyString
              else
                String.concat ","
                  ((λ e, match e with
                         | Some x =>
                             if nullish x then EmptyString
                             else to_string_aux f h (l :: seen) x
                         | None => EmptyString
                         end) <$> slots o)
          end
      | None => "[object Object]"
      end
  end.

Definition to_string (h : heap) (v : value) : string :=
  to_string_aux (S (size h)) h [] v.

(** ** Exceptions and the state-and-exception monad *)

Inductive error_class := ErrorC | TypeErrorC | RangeErrorC | AxiosErrorC.

#[global] Instance error_class_eq_dec : EqDecision error_class.
Proof. solve_decision. Defined.

(** [response.status] and [response.data] of an axios response. *)
Record http_response := Response { resp_status : Z; resp_data : value }.

(** A thrown error: its class, [error.message], and [error.response]
    (set by axios when the server answered). *)
Record exn := Exn {
  exn_class : error_class;
  message : string;
  response : option http_response
}.

Definition Error (msg : string) : exn := Exn ErrorC msg None.
Definition TypeError (msg : string) : exn := Exn TypeErrorC msg None.
Definition RangeError (msg : string) : exn := Exn RangeErrorC msg None.

Inductive outcome (A : Type) :=
| Ret (a : A)
| Throw (e : exn).
Arguments Ret {A} a.
Arguments Throw {A} e.

Definition M (S A : Type) : Type := S → outcome A * S.

#[global] Instance M_ret {S} : MRet (M S) := λ A a s, (Ret a, s).

#[global] Instance M_bind {S} : MBind (M S) := λ A B f m s,
  match m s with
  | (Ret a, s') => f a s'
  | (Throw e, s') => (Throw e, s')
  end.

Definition throw {S A} (e : exn) : M S A := λ s, (Throw e, s).

(** [try { m } catch (error) { handler error }] *)
Definition try_catch {S A} (m : M S A) (handler : exn → M S A) : M S A :=
  λ s, match m s with
       | (Ret a, s') => (Ret a, s')
       | (Throw e, s') => handler e s'
       end.

Definition get_state {S} : M S S := λ s, (Ret s, s).

(** ** Operations on the store *)

Definition new_object (o : object) : M heap value :=
  λ h, let '(l, h') := alloc o h in (Ret (VRef l), h').

(** [v.k] and [v[k]]: reading a property of [undefined] or [null] throws. *)
Definition member (v : value) (k : string) : M heap value :=
  λ h, if nullish v
       then (Throw (TypeError ("Cannot read properties of " +:+ to_string h v
                               +:+ " (reading '" +:+ k +:+ "')")), h)
       else (Ret (get_own h v k), h).

(** The string-keyed members every object inherits from
    [Object.prototype], and those an array inherits from [Array.prototype]
    besides.  Only their names are here: their values (built-in functions,
    the prototype itself) are outside the embedding, which has own
    properties only. *)
Definition inherited_keys : list string :=
  ["constructor"; "hasOwnProperty"; "isPrototypeOf"; "propertyIsEnumerable";
   "toLocaleString"; "toString"; "valueOf"; "__proto__";
   "__defineGetter__"; "__defineSetter__"; "__lookupGetter__";
   "__lookupSetter__"].

Definition array_inherited_keys : list string :=
  ["at"; "concat"; "copyWithin"; "entries"; "every"; "fill"; "filter";
   "find"; "findIndex"; "findLast"; "findLastIndex"; "flat"; "flatMap";
   "forEach"; "includes"; "indexOf"; "join"; "keys"; "lastIndexOf"; "map";
   "pop"; "push"; "reduce"; "reduceRight"; "reverse"; "shift"; "slice";
   "some"; "sort"; "splice"; "toReversed"; "toSorted"; "toSpliced";
   "unshift"; "values"; "with"].

(** The value of the own key [k] of [o] (an array has its [length]). *)
Definition own (o : object) (k : string) : option value :=
  match arr_len o with
  | Some n =>
      if bool_decide (k = "length") then Some (VNum (Z.of_nat n))
      else props o !! k
  | None => props o !! k
  end.

(** [k] is the name of a member that [o] inherits. *)
Definition inherited (o : object) (k : string) : bool :=
  bool_decide (k ∈ inherited_keys)
  || (bool_decide (is_Some (arr_len o))
      && bool_decide (k ∈ array_inherited_keys)).

(** [k in v]: an own key or the name of an inherited member; throws unless
    [v] is an object. *)
Definition has_property (k : string) (v : value) : M heap bool :=
  λ h, match v with
       | VRef l =>
           match h !! l with
           | Some o =>
               (Ret (bool_decide (is_Some (props o !! k))
                     || (bool_decide (is_Some (arr_len o))
                         && bool_decide (k = "length"))
                     || inherited o k), h)
           | None => (Ret false, h)
           end
       | _ => (Throw (TypeError ("Cannot use 'in' operator to search for '"
                                 +:+ k +:+ "' in " +:+ to_string h v)), h)
       end.

Definition keeps_below (n : nat) (kv : string * value) : bool :=
  match array_index kv.1 with
  | Some i => bool_decide (i < n)%nat
  | None => true
  end.

(** [o[k] = x] on an object.  On an array an index key at or past the end
    moves [length]; writing [length] truncates (a number that is a valid
    length; any other number is refused as an invalid length, and so is a
    value that is not a number: its conversion to a number is not
    modelled). *)
Definition write_prop (o : object) (k : string) (x : value) : option object :=
  match arr_len o with
  | None => Some (Obj None (<[k := x]> (props o)))
  | Some n =>
      if bool_decide (k = "length") then
        match x with
        | VNum z =>
            if (0 <=? z) && (z <? 4294967296) then
              Some (Obj (Some (Z.to_nat z))
                        (filter (λ kv, keeps_below (Z.to_nat z) kv = true)
                                (props o)))
            else None
        | _ => None
        end
      else
        match array_index k with
        | Some i => Some (Obj (Some (n `max` S i)%nat) (<[k := x]> (props o)))
        | None => Some (Obj (Some n) (<[k := x]> (props o)))
        end
  end.

(** [typeof v], for the primitives that have properties to look up. *)
Definition type_of (v : value) : string :=
  match v with
  | VBool _ => "boolean"
  | VNum _ => "number"
  | VStr _ => "string"
  | VUndef => "undefined"
  | VNull | VRef _ => "object"
  end.

(** A string has its [length] and its characters as own keys, and they
    are read-only. *)
Definition string_has (s : string) (k : string) : bool :=
  bool_decide (k = "length")
  || match array_index k with
     | Some i => bool_decide (i < String.length s)%nat
     | None => false
     end.

(** [v[k] = x] in strict mode (the file is an ES module): assigning to a
    property of a primitive throws.  On an object, [__proto__] that is not
    an own key goes to the setter inherited from [Object.prototype]: no
    own property is written (the prototype, which changes when [x] is an
    object or [null], is not part of the embedding; an object cannot be
    its own prototype). *)
Definition set_member (v : value) (k : string) (x : value) : M heap () :=
  λ h, match v with
       | VRef l =>
           match h !! l with
           | Some o =>
               if bool_decide (k = "__proto__")
                  && negb (bool_decide (is_Some (props o !! k)))
               then
                 if bool_decide (x = VRef l)
                 then (Throw (TypeError "Cyclic __proto__ value"), h)
                 else (Ret (), h)
               else
                 match write_prop o k x with
                 | Some o' => (Ret (), <[l := o']> h)
                 | None => (Throw (RangeError "Invalid array length"), h)
                 end
           | None => (Ret (), h)
           end
       | VUndef | VNull =>
           (Throw (TypeError ("Cannot set properties of " +:+ to_string h v
                              +:+ " (setting '" +:+ k +:+ "')")), h)
       | VStr s =>
           if string_has s k
           then (Throw (TypeError ("Cannot assign to read only property '"
                                   +:+ k +:+ "' of string '" +:+ s +:+ "'")),
                 h)
           else (Throw (TypeError ("Cannot create property '" +:+ k
                                   +:+ "' on string '" +:+ s +:+ "'")), h)
       | _ =>
           (Throw (TypeError ("Cannot create property '" +:+ k +:+ "' on "
                              +:+ type_of v +:+ " '" +:+ to_string h v
                              +:+ "'")), h)
       end.

(** [param = {}]: an omitted argument is a fresh empty object. *)
Definition default_object (v : value) : M heap value :=
  match v with
  | VUndef => new_object empty_object
  | _ => mret v
  end.

(** ** JSON bodies *)

Inductive json :=
| JNull
| JBool (b : bool)
| JNum (n : Z)
| JStr (s : string)
| JArr (items : list json)
| JObj (fields : list (string * json)).

(** One pass over a list that threads the store through. *)
Fixpoint thread {A B} (f : A → heap → B * heap) (xs : list A) (h : heap)
  : list B * heap :=
  match xs with
  | [] => ([], h)
  | x :: r =>
      let '(v, h1) := f x h in
      let '(vs, h2) := thread f r h1 in
      (v :: vs, h2)
  end.

(** [JSON.parse]: the body becomes fresh objects of the store; of a
    repeated key the last occurrence stays. *)
Fixpoint parse_json (j : json) (h : heap) : value * heap :=
  match j with
  | JNull => (VNull, h)
  | JBool b => (VBool b, h)
  | JNum n => (VNum n, h)
  | JStr s => (VStr s, h)
  | JArr items =>
      let '(vs, h1) := thread parse_json items h in
      let '(l, h2) := alloc (array_of vs) h1 in
      (VRef l, h2)
  | JObj fields =>
      let '(vs, h1) := thread (λ f, parse_json f.2) fields h in
      let m := foldl (λ (m : gmap string value) kv, <[kv.1 := kv.2]> m) ∅
                     (zip (fst <$> fields) vs) in
      let '(l, h2) := alloc (Obj None m) h1 in
      (VRef l, h2)
  end.

(** ** The transport: axios over a server *)

Inductive http_method := GET | POST | PUT | PATCH | DELETE.

#[global] Instance http_method_eq_dec : EqDecision http_method.
Proof. solve_decision. Defined.

(** A request as the client hands it to axios: the instance's base URL and
    headers, the method, the URL and the body (an object literal, by its
    fields). *)
Record request := Request {
  req_method : http_method;
  req_baseURL : value;
  req_url : string;
  req_headers : list (string * string);
  req_body : option (list (string * value))
}.

(** What goes out: the request and the store it is serialized from. *)
Record wire := Wire { wire_request : request; wire_store : heap }.

Record world := World { store : heap; sent : list wire }.

(** The server's answer to a request, or a failure of the transport. *)
Inductive net_result :=
| NetResponse (status : Z) (body : json)
| NetFailure (msg : string).

(** What the program runs on: the server behind the transport (it sees the
    earlier traffic and the new request), and the runtime's
    [JSON.stringify] (it returns the text, or throws). *)
Record runtime := Runtime {
  transport : list wire → wire → net_result;
  JSON_stringify : heap → value → outcome string
}.

(** [axios.create({ baseURL, headers })] *)
Record axios_instance := Axios {
  ax_baseURL : value;
  ax_headers : list (string * string)
}.

Definition on_store {A} (m : M heap A) : M world A :=
  λ w, let '(r, h) := m (store w) in (r, World h (sent w)).

(** The request an instance sends: its base URL and headers go with
    every request made through it. *)
Definition outgoing (ax : axios_instance) (m : http_method) (url : string)
    (body : option (list (string * value))) (h : heap) : wire :=
  Wire (Request m (ax_baseURL ax) url (ax_headers ax) body) h.

(** The default [validateStatus]. *)
Definition in_2xx (st : Z) : bool := (200 <=? st) && (st <? 300).

(** One request through an axios instance.  The promise resolves on a 2xx
    status and rejects otherwise (the default [validateStatus]); without
    an answer it rejects with no [response]. *)
Definition axios_request (rt : runtime) (ax : axios_instance)
    (m : http_method) (url : string) (body : option (list (string * value)))
  : M world http_response :=
  λ w,
    let wr := outgoing ax m url body (store w) in
    let log := (sent w ++ [wr])%list in
    match transport rt (sent w) wr with
    | NetFailure msg => (Throw (Exn AxiosErrorC msg None), World (store w) log)
    | NetResponse st b =>
        let '(v, h) := parse_json b (store w) in
        let resp := Response st v in
        if in_2xx st then (Ret resp, World h log)
        else (Throw (Exn AxiosErrorC
                       ("Request failed with status code " +:+ pretty st)
                       (Some resp)),
              World h log)
    end.

(** [error.response?.data?.error?.message || error.message], as the
    template literal prints it. *)
Definition failure_text (h : heap) (error : exn) : string :=
  let msg :=
    match response error with
    | Some r => opt_get h (opt_get h (resp_data r) "error") "message"
    | None => VUndef
    end in
  to_string h (js_or msg (VStr (message error))).

(** [throw new Error(`<label>: ${...}`)] *)
Definition rethrow {A} (label : string) (error : exn) : M world A :=
  λ w, (Throw (Error (label +:+ ": " +:+ failure_text (store w) error)), w).

(** ** URLSearchParams *)

Definition hex_digit (n : N) : ascii :=
  if (n <? 10)%N then ascii_of_N (48 + n) else ascii_of_N (55 + n).

Definition unreserved (a : ascii) : bool :=
  let n := N_of_ascii a in
  ((48 <=? n) && (n <=? 57) || (65 <=? n) && (n <=? 90)
   || (97 <=? n) && (n <=? 122)
   || (n =? 42) || (n =? 45) || (n =? 46) || (n =? 95))%N.

(** The application/x-www-form-urlencoded byte serializer. *)
Definition form_encode_byte (a : ascii) : string :=
  if unreserved a then String a EmptyString
  else if (N_of_ascii a =? 32)%N then "+"
  else String "%" (String (hex_digit (N_of_ascii a / 16))
                    (String (hex_digit (N_of_ascii a mod 16)) EmptyString)).

Fixpoint form_encode (s : string) : string :=
  match s with
  | EmptyString => EmptyString
  | String a r => form_encode_byte a +:+ form_encode r
  end.

Abbreviation URLSearchParams := (list (string * string)).

Definition append (params : URLSearchParams) (name value : string)
  : URLSearchParams := (params ++ [(name, value)])%list.

Definition params_toString (params : URLSearchParams) : string :=
  String.concat "&"
    ((λ p, form_encode p.1 +:+ "=" +:+ form_encode p.2) <$> params).

(** ** S5Client *)

Module S5Client.

Record t := Make {
  baseURL : value;
  apiKey : value;
  collection : value;
  axios : axios_instance
}.

(** [constructor(config = {})] *)
Definition new (config : value) : M heap t :=
  config ← default_object config;
  baseURL ← member config "baseURL";
  let baseURL := js_or baseURL (VStr "https://s5.host/api/v1") in
  apiKey ← member config "apiKey";
  collection ← member config "collection";
  if negb (truthy apiKey) then throw (Error "API key is required")
  else if negb (truthy collection)
       then throw (Error "Collection name is required")
  else
    h ← get_state;
    mret (Make baseURL apiKey collection
            (Axios baseURL
               [("Authorization", "Bearer " +:+ to_string h apiKey);
                ("Content-Type", "application/json")])).

End S5Client.

(** ** Document *)

(** [path.split(".")] *)
Fixpoint split_dot (path : string) : list string :=
  match path with
  | EmptyString => [EmptyString]
  | String a r =>
      if bool_decide (a = "."%char) then EmptyString :: split_dot r
      else
        match split_dot r with
        | k :: ks => String a k :: ks
        | [] => [String a EmptyString]
        end
  end.

(** [array.reduce(f, init)] with an effectful callback. *)
Fixpoint reduce {S A B} (f : A → B → M S A) (l : list B) (init : A) : M S A :=
  match l with
  | [] => mret init
  | x :: r => acc ← f init x; reduce f r acc
  end.

(** A value that is an object of the program, [null] or [undefined]. *)
Inductive nullable (A : Type) :=
| Null
| Undefined
| Of (a : A).
Arguments Null {A}.
Arguments Undefined {A}.
Arguments Of {A} a.

Module Document.

Record t := Make {
  data : value;
  client : option S5Client.t;
  id : value;
  collection : value;
  version : value;
  created_at : value;
  updated_at : value;
  ttl_at : value
}.

(** The class a static method is called on: [Document] itself, which has
    no static [client], or a class made by [createCollection]. *)
Inductive class :=
| Base
| CollectionDocument (collection : value) (client : S5Client.t).

(** [const { client } = this] in a static method. *)
Definition static_client (cls : class) : option S5Client.t :=
  match cls with
  | Base => None
  | CollectionDocument _ c => Some c
  end.

Definition createCollection (collection : value) (client : S5Client.t)
  : class := CollectionDocument collection client.

(** [client.axios] and [client.collection] *)
Definition axios_of (client : option S5Client.t) : M heap axios_instance :=
  match client with
  | Some c => mret (S5Client.axios c)
  | None =>
      throw (TypeError "Cannot read properties of undefined (reading 'axios')")
  end.

Definition collection_of (client : option S5Client.t) : M heap value :=
  match client with
  | Some c => mret (S5Client.collection c)
  | None =>
      throw (TypeError
               "Cannot read properties of undefined (reading 'collection')")
  end.

(** [constructor(data = {}, client)] *)
Definition new (data : value) (client : option S5Client.t) : M heap t :=
  data ← default_object data;
  inner ← member data "data";
  id ← member data "id";
  collection ← member data "collection";
  version ← member data "version";
  created_at ← member data "created_at";
  updated_at ← member data "updated_at";
  ttl_at ← member data "ttl_at";
  mret (Make (js_or inner data) client id collection version
             created_at updated_at ttl_at).

(** [new CollectionDocument(data)] *)
Definition new_in (cls : class) (data : value) : M heap t :=
  new data (static_client cls).

(** *** Dot paths *)

Definition getNestedValue (h : heap) (obj : value) (path : string) : value :=
  foldl (opt_get h) obj (split_dot path).

Definition descend (current : value) (key : string) : M heap value :=
  present ← has_property key current;
  (if negb present
   then fresh ← new_object empty_object; set_member current key fresh
   else mret ());;
  member current key.

Definition setNestedValue (obj : value) (path : string) (value : value)
  : M heap () :=
  let keys := split_dot path in
  let lastKey := default "undefined" (last keys) in
  let keys := removelast keys in
  target ← reduce descend keys obj;
  set_member target lastKey value.

(** *** Query parameters of [where] *)

(** [Array.isArray(x) ? x : [x]], as [forEach] visits it. *)
Definition each (h : heap) (x : value) : list value :=
  if is_array h x then omap (λ e, e) (array_slots h x) else [x].

Definition append_all (h : heap) (name : string) (x : value)
    (params : URLSearchParams) : URLSearchParams :=
  if truthy x
  then foldl (λ ps e, append ps name (to_string h e)) params (each h x)
  else params.

Definition append_if (h : heap) (name : string) (x : value)
    (params : URLSearchParams) : URLSearchParams :=
  if truthy x then append params name (to_string h x) else params.

Definition where_params (rt : runtime) (options : value)
  : M heap URLSearchParams :=
  h ← get_state;
  let params : URLSearchParams := [] in
  q ← member options "q";
  let params := append_all h "q" q params in
  order ← member options "order";
  let params := append_all h "order" order params in
  limit ← member options "limit";
  let params := append_if h "limit" limit params in
  page ← member options "page";
  let params := append_if h "page" page params in
  filter ← member options "filter";
  if truthy filter then
    match JSON_stringify rt h filter with
    | Ret s => mret (append params "filter" s)
    | Throw e => throw e
    end
  else mret params.

(** [rows.map(f)] *)
Fixpoint map_slots {A} (f : value → M heap A) (ss : list (option value))
  : M heap (list (option A)) :=
  match ss with
  | [] => mret []
  | None :: r => rs ← map_slots f r; mret (None :: rs)
  | Some v :: r => a ← f v; rs ← map_slots f r; mret (Some a :: rs)
  end.

Definition array_map {A} (rows : value) (f : value → M heap A)
  : M heap (list (option A)) :=
  λ h, if nullish rows
       then (Throw (TypeError ("Cannot read properties of "
                               +:+ to_string h rows +:+ " (reading 'map')")), h)
       else if is_array h rows then map_slots f (array_slots h rows) h
       else (Throw (TypeError "response.data.data.data.map is not a function"),
             h).

Record where_result := Result {
  documents : list (option t);
  pagination : option value
}.

(** [{ ...options, limit: 1 }] *)
Definition with_limit_1 (options : value) : M heap value :=
  h ← get_state;
  new_object (Obj None (<["limit" := VNum 1]> (own_props h options))).

(** [documents[0]] *)
Definition head_document (docs : list (option t)) : nullable t :=
  match docs with
  | Some d :: _ => Of d
  | _ => Undefined
  end.

Definition status_is (error : exn) (code : Z) : bool :=
  match response error with
  | Some r => resp_status r =? code
  | None => false
  end.

Section Static.
Variable rt : runtime.

Definition where_ (cls : class) (options : value) : M world where_result :=
  let client := static_client cls in
  options ← on_store (default_object options);
  params ← on_store (where_params rt options);
  try_catch
    (ax ← on_store (axios_of client);
     coll ← on_store (collection_of client);
     w ← get_state;
     response ← axios_request rt ax GET
       ("/" +:+ to_string (store w) coll +:+ "?" +:+ params_toString params)
       None;
     payload ← on_store (member (resp_data response) "data");
     rows ← on_store (member payload "data");
     documents ← on_store (array_map rows (λ doc, new doc client));
     pagination ← on_store (member payload "pagination");
     mret (Result documents
             (if truthy pagination then Some pagination else None)))
    (rethrow "Query failed").

Definition all (cls : class) : M world where_result := where_ cls VUndef.

Definition find (cls : class) (id : value) : M world (nullable t) :=
  let client := static_client cls in
  try_catch
    (ax ← on_store (axios_of client);
     coll ← on_store (collection_of client);
     w ← get_state;
     response ← axios_request rt ax GET
       ("/" +:+ to_string (store w) coll +:+ "/" +:+ to_string (store w) id)
       None;
     record ← on_store (member (resp_data response) "data");
     doc ← on_store (new record client);
     mret (Of doc))
    (λ error, if status_is error 404 then mret Null
              else rethrow "Find failed" error).

(** The static [create(data, options = {})]: the body is
    [{ data, ...options }]. *)
Definition create_static (cls : class) (data options : value) : M world t :=
  let client := static_client cls in
  options ← on_store (default_object options);
  try_catch
    (w ← get_state;
     let payload :=
       map_to_list (own_props (store w) options ∪ {["data" := data]}) in
     ax ← on_store (axios_of client);
     coll ← on_store (collection_of client);
     response ← axios_request rt ax POST
       ("/" +:+ to_string (store w) coll) (Some payload);
     record ← on_store (member (resp_data response) "data");
     on_store (new record client))
    (rethrow "Create failed").

Definition first (cls : class) (options : value) : M world (nullable t) :=
  options ← on_store (default_object options);
  limited ← on_store (with_limit_1 options);
  results ← where_ cls limited;
  mret (if bool_decide (0 < length (documents results))%nat
        then head_document (documents results) else Null).

Definition count (cls : class) (options : value) : M world nat :=
  options ← on_store (default_object options);
  limited ← on_store (with_limit_1 options);
  results ← where_ cls limited;
  mret (length (documents results)).

End Static.

(** *** Instance methods: the state is [this] and the world *)

Definition on_world {A} (m : M world A) : M (t * world) A :=
  λ s, let '(r, w) := m s.2 in (r, (s.1, w)).

Definition this : M (t * world) t := λ s, (Ret s.1, s).

(** [Object.assign(this, doc)]: every field of a Document is an own
    property, so every field of [this] is overwritten. *)
Definition assign (doc : t) : M (t * world) () := λ s, (Ret (), (doc, s.2)).

(** [this.data = v] *)
Definition with_data (v : value) (d : t) : t :=
  Make v (client d) (id d) (collection d) (version d)
       (created_at d) (updated_at d) (ttl_at d).

Definition set_data (v : value) : M (t * world) () :=
  λ s, (Ret (), (with_data v s.1, s.2)).

Definition attributes : M (t * world) value := self ← this; mret (data self).

Definition persisted : M (t * world) bool := self ← this; mret (truthy (id self)).

Definition get (key : string) : M (t * world) value :=
  λ s, (Ret (getNestedValue (store s.2) (data s.1) key), s).

Definition set (key : string) (value : value) : M (t * world) () :=
  self ← this;
  on_world (on_store (setNestedValue (data self) key value)).

(** [toJSON()]: a new object literal with the seven fields. *)
Definition toJSON : M (t * world) value :=
  self ← this;
  on_world (on_store (new_object (Obj None
    (<["ttl_at" := ttl_at self]>
       (<["updated_at" := updated_at self]>
          (<["created_at" := created_at self]>
             (<["version" := version self]>
                (<["data" := data self]>
                   (<["collection" := collection self]>
                      (<["id" := id self]> ∅)))))))))).

Section Instance.
Variable rt : runtime.

Definition create : M (t * world) t :=
  self ← this;
  let client := client self in
  try_catch
    (self ← this;
     let payload := [("data", data self); ("ttl_at", ttl_at self)] in
     ax ← on_world (on_store (axios_of client));
     coll ← on_world (on_store (collection_of client));
     s ← get_state;
     response ← on_world (axios_request rt ax POST
       ("/" +:+ to_string (store s.2) coll) (Some payload));
     record ← on_world (on_store (member (resp_data response) "data"));
     newDoc ← on_world (on_store (new record client));
     assign newDoc;;
     this)
    (λ error, on_world (rethrow "Create failed" error)).

(** [update(data = null)] *)
Definition update (changes : value) : M (t * world) t :=
  self ← this;
  let client := client self in
  (if truthy changes then
     s ← get_state;
     merged ← on_world (on_store (new_object
       (Obj None (own_props (store s.2) changes
                  ∪ own_props (store s.2) (data self)))));
     set_data merged
   else mret ());;
  try_catch
    (self ← this;
     let payload := [("data", data self); ("ttl_at", ttl_at self)] in
     ax ← on_world (on_store (axios_of client));
     coll ← on_world (on_store (collection_of client));
     s ← get_state;
     response ← on_world (axios_request rt ax PUT
       ("/" +:+ to_string (store s.2) coll +:+ "/"
        +:+ to_string (store s.2) (id self))
       (Some payload));
     record ← on_world (on_store (member (resp_data response) "data"));
     updatedDoc ← on_world (on_store (new record client));
     assign updatedDoc;;
     this)
    (λ error, on_world (rethrow "Update failed" error)).

Definition patch (changes : value) : M (t * world) t :=
  self ← this;
  let client := client self in
  try_catch
    (let payload := [("data", changes)] in
     ax ← on_world (on_store (axios_of client));
     coll ← on_world (on_store (collection_of client));
     s ← get_state;
     response ← on_world (axios_request rt ax PATCH
       ("/" +:+ to_string (store s.2) coll +:+ "/"
        +:+ to_string (store s.2) (id self) +:+ "/patch")
       (Some payload));
     record ← on_world (on_store (member (resp_data response) "data"));
     updatedDoc ← on_world (on_store (new record client));
     assign updatedDoc;;
     this)
    (λ error, on_world (rethrow "Patch failed" error)).

Definition save : M (t * world) t :=
  self ← this;
  if truthy (id self) then update VNull else create.

Definition destroy : M (t * world) bool :=
  self ← this;
  let client := client self in
  try_catch
    (ax ← on_world (on_store (axios_of client));
     coll ← on_world (on_store (collection_of client));
     s ← get_state;
     on_world (axios_request rt ax DELETE
       ("/" +:+ to_string (store s.2) coll +:+ "/"
        +:+ to_string (store s.2) (id self))
       None);;
     mret true)
    (λ error, on_world (rethrow "Delete failed" error)).

(** [reload] asks the class [Document] itself: [Document.find(this.id)]. *)
Definition reload : M (t * world) t :=
  self ← this;
  if negb (truthy (id self))
  then throw (Error "Cannot reload document without ID")
  else
    fresh ← on_world (find rt Base (id self));
    match fresh with
    | Of doc => assign doc
    | Null | Undefined => mret ()
    end;;
    this.

End Instance.

End Document.

(** ** S5: the entry point *)

Module S5.

Record t := Make { config : value }.

(** [constructor(config = {})] *)
Definition new (config : value) : M heap t :=
  config ← default_object config;
  mret (Make config).

(** [collection(name)] *)
Definition collection (self : t) (name : value) : M heap Document.class :=
  h ← get_state;
  merged ← new_object
    (Obj None (<["collection" := name]> (own_props h (config self))));
  client ← S5Client.new merged;
  mret (Document.createCollection name client).

End S5.

(** ** Notions used to state the properties *)

(** [f] leaves the object at [l] as it is. *)
Definition keeps (l : loc) {A B} (f : A → heap → B * heap) (x : A) : Prop :=
  ∀ h, is_Some (h !! l) → (f x h).2 !! l = h !! l.

(** What [create], [update] and [patch] do with the answer to their
    request (the three have the same code after the request), for an
    answer [answer] to a request sent from the store [h]. *)
Definition settled (label : string) (c : S5Client.t) (doc : Document.t)
    (h : heap) (log : list wire) (answer : net_result)
  : outcome Document.t * (Document.t * world) :=
  match answer with
  | NetFailure msg =>
      (Throw (Error (label +:+ ": " +:+ msg)), (doc, World h log))
  | NetResponse st body =>
      let parsed := parse_json body h in
      if in_2xx st then
        match member parsed.1 "data" parsed.2 with
        | (Ret record, h1) =>
            match Document.new record (Some c) h1 with
            | (Ret fresh, h2) => (Ret fresh, (fresh, World h2 log))
            | (Throw e, h2) =>
                (Throw (Error (label +:+ ": " +:+ message e)),
                 (doc, World h2 log))
            end
        | (Throw e, h1) =>
            (Throw (Error (label +:+ ": " +:+ message e)), (doc, World h1 log))
        end
      else
        (Throw (Error (label +:+ ": " +:+
                  failure_text parsed.2
                    (Exn AxiosErrorC
                       ("Request failed with status code " +:+ pretty st)
                       (Some (Response st parsed.1))))),
         (doc, World parsed.2 log))
  end.

(** [v] is a plain object of the store (not an array). *)
Definition plain_object (h : heap) (v : value) : Prop :=
  ∃ l o, v = VRef l ∧ h !! l = Some o ∧ arr_len o = None.

(** [v] is absent, or is an array holding exactly the strings [ss]. *)
Definition string_list (h : heap) (v : value) (ss : list string) : Prop :=
  (v = VUndef ∧ ss = [])
  ∨ (is_array h v = true ∧ array_slots h v = (λ s, Some (VStr s)) <$> ss).

(** [v] is absent and there is no parameter, or [v] is an object and the
    parameter is its JSON text. *)
Definition filter_param (rt : runtime) (h : heap) (v : value)
    (fs : URLSearchParams) : Prop :=
  (v = VUndef ∧ fs = [])
  ∨ (∃ l s, v = VRef l ∧ JSON_stringify rt h v = Ret s
            ∧ fs = [("filter", s)]).

(** The argument after [options = {}], and the store with it. *)
Definition defaulted (options : value) (h : heap) : value * heap :=
  match options with
  | VUndef => (VRef (fresh (dom h)), <[fresh (dom h) := empty_object]> h)
  | _ => (options, h)
  end.

(** Where [{ ...options, limit: 1 }] is put, and the store with it. *)
Definition limited (options : value) (h : heap) : loc * heap :=
  let '(o, h0) := defaulted options h in
  (fresh (dom h0),
   <[fresh (dom h0) := Obj None (<["limit" := VNum 1]> (own_props h0 o))]> h0).

(** The first Document of a result, [null] when there is none. *)
Definition first_of (docs : list (option Document.t)) : nullable Document.t :=
  match docs with
  | [] => Null
  | Some d :: _ => Of d
  | None :: _ => Undefined
  end.

(** The value of a key of a JSON object: the last occurrence counts. *)
Fixpoint json_field (fields : list (string * json)) (k : string)
  : option json :=
  match fields with
  | [] => None
  | f :: r =>
      match json_field r k with
      | Some j => Some j
      | None => if bool_decide (f.1 = k) then Some f.2 else None
      end
  end.

(** Two lists related element by element. *)
Fixpoint all2 {A B} (R : A → B → Prop) (xs : list A) (ys : list B) : Prop :=
  match xs, ys with
  | [], [] => True
  | x :: xs, y :: ys => R x y ∧ all2 R xs ys
  | _, _ => False
  end.

(** [v] is, in the store [h], the parsed form of [j]. *)
Fixpoint represents (h : heap) (j : json) (v : value) : Prop :=
  match j with
  | JNull => v = VNull
  | JBool b => v = VBool b
  | JNum n => v = VNum n
  | JStr s => v = VStr s
  | JArr items =>
      ∃ l vs, v = VRef l ∧ h !! l = Some (array_of vs)
              ∧ all2 (represents h) items vs
  | JObj fields =>
      ∃ l vs, v = VRef l
              ∧ h !! l = Some (Obj None
                    (foldl (λ (m : gmap string value) kv, <[kv.1 := kv.2]> m)
                       ∅ (zip (fst <$> fields) vs)))
              ∧ all2 (λ f, represents h f.2) fields vs
  end.

(** [h'] has every object of [h], as it is in [h]. *)
Definition extends (h h' : heap) : Prop :=
  ∀ l, is_Some (h !! l) → h' !! l = h !! l.

(** ToBoolean of a parsed value, read off the JSON. *)
Definition json_truthy (j : json) : bool :=
  match j with
  | JNull => false
  | JBool b => b
  | JNum n => negb (n =? 0)
  | JStr s => negb (bool_decide (s = EmptyString))
  | JArr _ | JObj _ => true
  end.

(** [x] is the parsed form of the field [k] of a record, [undefined] when
    the record has no such field. *)
Definition field_is (h : heap) (record : list (string * json)) (k : string)
    (x : value) : Prop :=
  match json_field record k with
  | Some j => represents h j x
  | None => x = VUndef
  end.

(** The fields of [doc] are those of the record: the metadata field by
    field, the data by the constructor's rule. *)
Definition from_record (h : heap) (record : list (string * json))
    (doc : Document.t) : Prop :=
  field_is h record "id" (Document.id doc)
  ∧ field_is h record "collection" (Document.collection doc)
  ∧ field_is h record "version" (Document.version doc)
  ∧ field_is h record "created_at" (Document.created_at doc)
  ∧ field_is h record "updated_at" (Document.updated_at doc)
  ∧ field_is h record "ttl_at" (Document.ttl_at doc)
  ∧ match json_field record "data" with
    | Some j =>
        if json_truthy j then represents h j (Document.data doc)
        else represents h (JObj record) (Document.data doc)
    | None => represents h (JObj record) (Document.data doc)
    end.

(** The rows of an answer to a query: [data.data] of the body. *)
Definition answer_rows (body : json) : option (list json) :=
  match body with
  | JObj top =>
      match json_field top "data" with
      | Some (JObj inner) =>
          match json_field inner "data" with
          | Some (JArr rows) => Some rows
          | _ => None
          end
      | _ => None
      end
  | _ => None
  end.

(** Along [keys] from [cur], every level that is there is a plain object
    that the path has not met before ([seen]); the path may end early, at
    a missing key. *)
Fixpoint mapping_path (h : heap) (seen : list loc) (cur : value)
    (keys : list string) : bool :=
  match cur with
  | VRef l =>
      match h !! l with
      | Some o =>
          bool_decide (arr_len o = None) && bool_decide (l ∉ seen)
          && match keys with
             | [] => true
             | k :: ks =>
                 match props o !! k with
                 | Some next => mapping_path h (l :: seen) next ks
                 | None => true
                 end
             end
      | None => false
      end
  | _ => false
  end.

(** What [set] needs of the keys it meets on levels it has created
    itself (new empty mappings): none below the last is the name of an
    inherited member, and the last is not [__proto__]. *)
Definition fresh_ok (keys : list string) (lastKey : string) : bool :=
  forallb (λ k, negb (bool_decide (k ∈ inherited_keys))) keys
  && negb (bool_decide (lastKey = "__proto__")).

(** What the final assignment [target[lastKey] = x] needs of an object
    that is there: [__proto__] is written only where it is an own key, and
    the [length] of an array only with a number that is a length. *)
Definition last_ok (o : object) (lastKey : string) (x : value) : bool :=
  (negb (bool_decide (lastKey = "__proto__"))
   || bool_decide (is_Some (props o !! lastKey)))
  && match arr_len o with
     | Some _ =>
         if bool_decide (lastKey = "length") then
           match x with
           | VNum z => (0 <=? z) && (z <? 4294967296)
           | _ => false
           end
         else true
     | None => true
     end.

(** [set] can walk [keys] from [cur] and assign [x] under [lastKey]:
    every level that is there is an object of the store (a mapping or an
    array) that the path has not met before ([seen]); a key is an own key
    of its level, or it is not there and is not the name of an inherited
    member, and from there on the levels are created; the final assignment
    is one of those above. *)
Fixpoint settable (h : heap) (seen : list loc) (cur : value)
    (keys : list string) (lastKey : string) (x : value) : bool :=
  match cur with
  | VRef l =>
      match h !! l with
      | Some o =>
          bool_decide (l ∉ seen)
          && match keys with
             | [] => last_ok o lastKey x
             | k :: ks =>
                 match own o k with
                 | Some next => settable h (l :: seen) next ks lastKey x
                 | None => negb (inherited o k) && fresh_ok ks lastKey
                 end
             end
      | None => false
      end
  | _ => false
  end.

(** [set(path, x)] throws a [TypeError], and [get(path)] after it does
    not return [x]. *)
Definition set_is_refused (doc : Document.t) (path : string) (x : value)
    (w : world) : Prop :=
  ∃ e, (Document.set path x (doc, w)).1 = Throw e
     ∧ exn_class e = TypeErrorC
     ∧ (Document.get path (Document.set path x (doc, w)).2).1 ≠ Ret x.

(** [v] is a primitive, or a reference to an object of the store. *)
Definition valid (h : heap) (v : value) : Prop :=
  match v with VRef l => is_Some (h !! l) | _ => True end.

#[global] Instance valid_dec h v : Decision (valid h v).
Proof. destruct v; apply _. Defined.

(** Every object of the store is a plain object, and every reference held
    in one leads to an object of the store. *)
Definition plain_store (h : heap) : Prop :=
  map_Forall (λ _ o, arr_len o = None
                     ∧ map_Forall (λ _ v, valid h v) (props o)) h.

#[global] Instance plain_store_dec h : Decision (plain_store h).
Proof. apply _. Defined.

(** [k] has no dot in it: as a path it is a single key. *)
Fixpoint dotless (k : string) : bool :=
  match k with
  | EmptyString => true
  | String a r => negb (bool_decide (a = "."%char)) && dotless r
  end.

(** [s] begins with a decimal digit, as every array index key does. *)
Definition starts_with_digit (s : string) : Prop :=
  match s with
  | String a _ => is_Some (digit a)
  | EmptyString => False
  end.

(** What [where] does with a 2xx answer parsed to [v] in the store [h]. *)
Definition answered (client : S5Client.t) (v : value) (h : heap)
    (log : list wire) : outcome Document.where_result * world :=
  if nullish v then
    (Throw (Error ("Query failed: Cannot read properties of "
                   +:+ to_string h v +:+ " (reading 'data')")), World h log)
  else
    let payload := get_own h v "data" in
    if nullish payload then
      (Throw (Error ("Query failed: Cannot read properties of "
                     +:+ to_string h payload +:+ " (reading 'data')")),
       World h log)
    else
      match Document.array_map (get_own h payload "data")
              (λ doc, Document.new doc (Some client)) h with
      | (Ret docs, h') =>
          (Ret (Document.Result docs
                  (if truthy (get_own h' payload "pagination")
                   then Some (get_own h' payload "pagination") else None)),
           World h' log)
      | (Throw e, h') =>
          (Throw (Error ("Query failed: " +:+ message e)), World h' log)
      end.

(** What the static [create] does with the answer to its request. *)
Definition created (c : S5Client.t) (h : heap) (log : list wire)
    (answer : net_result) : outcome Document.t * world :=
  match answer with
  | NetFailure msg => (Throw (Error ("Create failed: " +:+ msg)), World h log)
  | NetResponse st body =>
      let parsed := parse_json body h in
      if in_2xx st then
        match member parsed.1 "data" parsed.2 with
        | (Ret record, h1) =>
            match Document.new record (Some c) h1 with
            | (Ret fresh, h2) => (Ret fresh, World h2 log)
            | (Throw e, h2) =>
                (Throw (Error ("Create failed: " +:+ message e)), World h2 log)
            end
        | (Throw e, h1) =>
            (Throw (Error ("Create failed: " +:+ message e)), World h1 log)
        end
      else
        (Throw (Error ("Create failed: " +:+
                  failure_text parsed.2
                    (Exn AxiosErrorC
                       ("Request failed with status code " +:+ pretty st)
                       (Some (Response st parsed.1))))),
         World parsed.2 log)
  end.

(** *** Reading a query string back, as the server does *)

Definition hex_value (a : ascii) : option N :=
  let n := N_of_ascii a in
  if ((48 <=? n) && (n <=? 57))%N then Some (n - 48)%N
  else if ((65 <=? n) && (n <=? 70))%N then Some (n - 55)%N
  else if ((97 <=? n) && (n <=? 102))%N then Some (n - 87)%N
  else None.

(** The application/x-www-form-urlencoded decoder: [+] is a space, [%XY]
    is the byte with the hexadecimal code [XY]. *)
Fixpoint form_decode (s : string) : string :=
  match s with
  | EmptyString => EmptyString
  | String c t =>
      if bool_decide (c = "+"%char) then String " " (form_decode t)
      else if bool_decide (c = "%"%char) then
        match t with
        | String a (String b r) =>
            match hex_value a, hex_value b with
            | Some x, Some y =>
                String (ascii_of_N (16 * x + y)) (form_decode r)
            | _, _ => String c (form_decode t)
            end
        | _ => String c (form_decode t)
        end
      else String c (form_decode t)
  end.

(** The parts of [s] between the occurrences of [sep]. *)
Fixpoint split_on (sep : ascii) (s : string) : list string :=
  match s with
  | EmptyString => [EmptyString]
  | String a r =>
      if bool_decide (a = sep) then EmptyString :: split_on sep r
      else
        match split_on sep r with
        | k :: ks => String a k :: ks
        | [] => [String a EmptyString]
        end
  end.

(** A [name=value] part, cut at its first [=]. *)
Fixpoint split_pair (s : string) : string * string :=
  match s with
  | EmptyString => (EmptyString, EmptyString)
  | String a r =>
      if bool_decide (a = "="%char) then (EmptyString, r)
      else (String a (split_pair r).1, (split_pair r).2)
  end.

Definition parse_query (query : string) : URLSearchParams :=
  if bool_decide (query = EmptyString) then []
  else (λ part, (form_decode (split_pair part).1,
                 form_decode (split_pair part).2)) <$> split_on "&" query.

(** [s] has no [sep] in it. *)
Fixpoint lacks (sep : ascii) (s : string) : bool :=
  match s with
  | EmptyString => true
  | String a r => negb (bool_decide (a = sep)) && lacks sep r
  end.

(** ** Concrete stores, clients and servers for the examples *)

Module Sample.

Definition client : S5Client.t :=
  S5Client.Make (VStr "https://s5.host/api/v1") (VStr "ak_test")
    (VStr "users")
    (Axios (VStr "https://s5.host/api/v1")
       [("Authorization", "Bearer ak_test");
        ("Content-Type", "application/json")]).

Definition Users : Document.class :=
  Document.createCollection (VStr "users") client.

(** A server that gives the same answer to every request. *)
Definition answering (status : Z) (body : json) : runtime :=
  Runtime (λ _ _, NetResponse status body) (λ _ _, Ret "{}").

Definition unreachable : runtime :=
  Runtime (λ _ _, NetFailure "Network Error") (λ _ _, Ret "{}").

(** [{ a: 1 }] at location 1. *)
Definition store_a1 : heap :=
  <[1%positive := Obj None (<["a" := VNum 1]> ∅)]> ∅.

Definition world_a1 : world := World store_a1 [].

(** [{ items: [1, 2, 3] }] at location 1, the array at 2. *)
Definition store_items : heap :=
  <[1%positive := Obj None (<["items" := VRef 2%positive]> ∅)]>
  (<[2%positive := array_of [VNum 1; VNum 2; VNum 3]]> ∅).

(** A fetched document [user-123] whose data is the object at 1. *)
Definition user : Document.t :=
  Document.Make (VRef 1%positive) (Some client) (VStr "user-123")
    (VStr "users") (VNum 1) VUndef VUndef VUndef.

(** The same document before it is saved: no id. *)
Definition draft : Document.t :=
  Document.Make (VRef 1%positive) (Some client) VUndef
    VUndef VUndef VUndef VUndef VUndef.

(** [{ apiKey: "ak_test", collection: "users" }] at location 1. *)
Definition store_config : heap :=
  <[1%positive := Obj None (<["apiKey" := VStr "ak_test"]>
                            (<["collection" := VStr "users"]> ∅))]> ∅.

(** [{ id: "a", data: 0 }] at location 1. *)
Definition store_zero_data : heap :=
  <[1%positive := Obj None (<["id" := VStr "a"]> (<["data" := VNum 0]> ∅))]> ∅.

(** [{ id: "a", data: { n: 3 } }] at location 1, its data at 2, and the
    configuration above at 3. *)
Definition store_record : heap :=
  <[1%positive := Obj None (<["id" := VStr "a"]>
                            (<["data" := VRef 2%positive]> ∅))]>
  (<[2%positive := Obj None (<["n" := VNum 3]> ∅)]>
   (<[3%positive := Obj None (<["apiKey" := VStr "ak_test"]>
                              (<["collection" := VStr "users"]> ∅))]> ∅)).

(** [{ a: 1 }] at 1 and the changes [{ a: 5, b: 2 }] at 2. *)
Definition store_changes : heap :=
  <[2%positive := Obj None (<["a" := VNum 5]> (<["b" := VNum 2]> ∅))]> store_a1.

(** [{ q: ['eq(status,"active")'], order: ['-name'], limit: 10 }] at 1,
    the two arrays at 2 and 3. *)
Definition active : string :=
  "eq(status," +:+ String "034" ("active" +:+ String "034" ")").

Definition store_query : heap :=
  <[1%positive := Obj None (<["q" := VRef 2%positive]>
                            (<["order" := VRef 3%positive]>
                             (<["limit" := VNum 10]> ∅)))]>
  (<[2%positive := array_of [VStr active]]>
   (<[3%positive := array_of [VStr "-name"]]> ∅)).

(** [{ limit: 0 }] at location 1. *)
Definition store_limit0 : heap :=
  <[1%positive := Obj None (<["limit" := VNum 0]> ∅)]> ∅.

(** An answer to a query with two rows. *)
Definition two_rows : json :=
  JObj [("data", JObj [("data", JArr [JObj [("id", JStr "a")];
                                      JObj [("id", JStr "b")]])])].

Definition record_body : json :=
  JObj [("data", JObj [("id", JStr "user-123"); ("collection", JStr "users");
                       ("version", JNum 2);
                       ("data", JObj [("a", JNum 1)])])].

Definition error_body : json :=
  JObj [("error", JObj [("message", JStr "boom")])].

(** A document made with [new Document(data)]: it has no client. *)
Definition detached : Document.t :=
  Document.Make (VRef 1%positive) None VUndef
    VUndef VUndef VUndef VUndef VUndef.

(** [{ q: "eq(a,1)" }] at location 1. *)
Definition store_single_q : heap :=
  <[1%positive := Obj None (<["q" := VStr "eq(a,1)"]> ∅)]> ∅.

(** [{ filter: f }] at location 1, where [f = { self: f }] at 2 refers to
    itself. *)
Definition store_circular : heap :=
  <[1%positive := Obj None (<["filter" := VRef 2%positive]> ∅)]>
  (<[2%positive := Obj None (<["self" := VRef 2%positive]> ∅)]> ∅).

(** A runtime whose [JSON.stringify] refuses what it is given. *)
Definition refusing : runtime :=
  Runtime (λ _ _, NetFailure "Network Error")
          (λ _ _, Throw (TypeError "Converting circular structure to JSON")).

(** An answer to a query with no rows, and one with a page count. *)
Definition no_rows : json :=
  JObj [("data", JObj [("data", JArr [])])].

Definition one_page : json :=
  JObj [("data", JObj [("data", JArr [JObj [("id", JStr "a")]]);
                       ("pagination", JObj [("total", JNum 1)])])].

End Sample.

(** * Properties *)

#[global] Arguments to_string : simpl never.
#[global] Arguments parse_json : simpl never.
#[global] Arguments params_toString : simpl never.
#[global] Arguments String.append : simpl never.
#[global] Arguments get_own : simpl never.
#[global] Arguments outgoing : simpl never.
#[global] Arguments axios_request : simpl never.
#[global] Arguments pretty : simpl never.

(** Unfolding the monad. *)
Ltac run :=
  unfold mbind, M_bind, mret, M_ret, try_catch, on_store, Document.on_world,
    throw, get_state, rethrow, Document.this, Document.assign in *;
  cbn [fst snd store sent] in *.

(** ** The transport *)

Lemma axios_request_run rt ax m url body w :
  axios_request rt ax m url body w =
  match transport rt (sent w) (outgoing ax m url body (store w)) with
  | NetFailure msg =>
      (Throw (Exn AxiosErrorC msg None),
       World (store w) (sent w ++ [outgoing ax m url body (store w)]))
  | NetResponse st b =>
      if in_2xx st
      then (Ret (Response st (parse_json b (store w)).1),
            World (parse_json b (store w)).2
                  (sent w ++ [outgoing ax m url body (store w)]))
      else (Throw (Exn AxiosErrorC
                     ("Request failed with status code " +:+ pretty st)
                     (Some (Response st (parse_json b (store w)).1))),
            World (parse_json b (store w)).2
                  (sent w ++ [outgoing ax m url body (store w)]))
  end.
Proof.
  unfold axios_request.
  destruct (transport _ _ _) as [st b|msg]; [|done].
  by destruct (parse_json b (store w)) as [v h].
Qed.

(** Every request is logged, whatever the answer. *)
Lemma axios_request_sent rt ax m url body w :
  sent (axios_request rt ax m url body w).2
  = (sent w ++ [outgoing ax m url body (store w)])%list.
Proof.
  rewrite axios_request_run.
  destruct (transport _ _ _) as [st b|msg]; [|done].
  by destruct (in_2xx st).
Qed.

Lemma to_string_str h s : to_string h (VStr s) = s.
Proof. done. Qed.

(** The text of a rejected request: the server's [error.message] when it
    is truthy, the text of the transport error otherwise. *)
Lemma failure_text_rejected h st v :
  failure_text h (Exn AxiosErrorC
                    ("Request failed with status code " +:+ pretty st)
                    (Some (Response st v)))
  = (if truthy (opt_get h (opt_get h v "error") "message")
     then to_string h (opt_get h (opt_get h v "error") "message")
     else "Request failed with status code " +:+ pretty st).
Proof.
  unfold failure_text, js_or. cbn [response resp_data message].
  by destruct (truthy _).
Qed.

(** ** Reading properties and building Documents *)

Lemma member_run v k h :
  member v k h =
  if nullish v
  then (Throw (TypeError ("Cannot read properties of " +:+ to_string h v
                          +:+ " (reading '" +:+ k +:+ "')")), h)
  else (Ret (get_own h v k), h).
Proof. done. Qed.

Lemma member_throws v k h e h' :
  member v k h = (Throw e, h') → response e = None ∧ h' = h.
Proof. rewrite member_run. destruct (nullish v); naive_solver. Qed.

Lemma member_returns v k h x h' :
  member v k h = (Ret x, h') →
  nullish v = false ∧ x = get_own h v k ∧ h' = h.
Proof. rewrite member_run. destruct (nullish v); naive_solver. Qed.

#[global] Arguments member : simpl never.

Lemma get_own_plain h l o k :
  h !! l = Some o → arr_len o = None →
  get_own h (VRef l) k = default VUndef (props o !! k).
Proof. intros Hl Ha. unfold get_own. by rewrite Hl, Ha. Qed.

Lemma get_own_empty h l k :
  get_own (<[l := empty_object]> h) (VRef l) k = VUndef.
Proof.
  erewrite get_own_plain; [|apply lookup_insert_eq|done]. done.
Qed.

(** The constructor, case by case. *)
Lemma new_run data client h :
  Document.new data client h =
  match data with
  | VNull =>
      (Throw (TypeError ("Cannot read properties of " +:+ to_string h VNull
                         +:+ " (reading '" +:+ "data" +:+ "')")), h)
  | VUndef =>
      (Ret (Document.Make (VRef (fresh (dom h))) client
              VUndef VUndef VUndef VUndef VUndef VUndef),
       <[fresh (dom h) := empty_object]> h)
  | _ =>
      (Ret (Document.Make (js_or (get_own h data "data") data) client
              (get_own h data "id") (get_own h data "collection")
              (get_own h data "version") (get_own h data "created_at")
              (get_own h data "updated_at") (get_own h data "ttl_at")), h)
  end.
Proof.
  unfold Document.new. run.
  destruct data; cbn [default_object]; try reflexivity.
  unfold new_object, alloc. repeat (rewrite member_run; cbn [nullish]).
  by rewrite !get_own_empty.
Qed.

Lemma new_throws data client h e h' :
  Document.new data client h = (Throw e, h') → response e = None.
Proof. rewrite new_run. destruct data; naive_solver. Qed.

(** ** Parsing keeps the objects that are there *)

Lemma json_nested_ind (P : json → Prop) :
  P JNull → (∀ b, P (JBool b)) → (∀ n, P (JNum n)) → (∀ s, P (JStr s)) →
  (∀ items, Forall P items → P (JArr items)) →
  (∀ fields, Forall (λ f, P f.2) fields → P (JObj fields)) →
  ∀ j, P j.
Proof.
  intros Hnull Hbool Hnum Hstr Harr Hobj. fix IH 1.
  intros [ |b|n|s|items|fields]; [done..| |].
  - apply Harr. induction items as [|x r IHr]; constructor; [apply IH|done].
  - apply Hobj. induction fields as [|[k x] r IHr]; constructor;
      [apply IH|done].
Qed.

Lemma alloc_keeps o h l :
  is_Some (h !! l) → (alloc o h).2 !! l = h !! l.
Proof.
  intros Hl. unfold alloc. cbn. apply lookup_insert_ne. intros <-.
  apply elem_of_dom in Hl. by apply is_fresh in Hl.
Qed.

Lemma thread_keeps l {A B} (f : A → heap → B * heap) xs :
  Forall (keeps l f) xs → keeps l (thread f) xs.
Proof.
  induction 1 as [|x r Hx Hr IH]; intros h Hl; [done|]. cbn.
  specialize (Hx h Hl). destruct (f x h) as [v h1]. cbn in Hx.
  assert (is_Some (h1 !! l)) as Hl1 by (by rewrite Hx).
  specialize (IH h1 Hl1). destruct (thread f r h1) as [vs h2]. cbn in *.
  by rewrite IH.
Qed.

Lemma parse_json_arr items h :
  parse_json (JArr items) h =
  let '(vs, h1) := thread parse_json items h in
  let '(l, h2) := alloc (array_of vs) h1 in
  (VRef l, h2).
Proof. done. Qed.

Lemma parse_json_obj fields h :
  parse_json (JObj fields) h =
  let '(vs, h1) := thread (λ f, parse_json f.2) fields h in
  let m := foldl (λ (m : gmap string value) kv, <[kv.1 := kv.2]> m) ∅
                 (zip (fst <$> fields) vs) in
  let '(l, h2) := alloc (Obj None m) h1 in
  (VRef l, h2).
Proof. done. Qed.

Lemma parse_json_keeps l j : keeps l parse_json j.
Proof.
  induction j as [ |b|n|s|items IH|fields IH] using json_nested_ind;
    intros h Hl; [done..| |].
  - rewrite parse_json_arr.
    pose proof (thread_keeps l parse_json items IH h Hl) as Ht.
    destruct (thread parse_json items h) as [vs h1]. cbn in Ht.
    pose proof (alloc_keeps (array_of vs) h1 l) as Ha.
    destruct (alloc (array_of vs) h1) as [a h2]. cbn in *.
    rewrite Ha; [done|by rewrite Ht].
  - rewrite parse_json_obj.
    pose proof (thread_keeps l (λ f, parse_json f.2) fields IH h Hl) as Ht.
    destruct (thread _ fields h) as [vs h1]. cbn in Ht. cbn zeta.
    match goal with |- context [alloc ?o h1] =>
      pose proof (alloc_keeps o h1 l) as Ha; destruct (alloc o h1) as [a h2]
    end. cbn in *. rewrite Ha; [done|by rewrite Ht].
Qed.

(** ** What parsing yields *)

Lemma extends_refl h : extends h h.
Proof. by intros l. Qed.

Lemma extends_trans h1 h2 h3 : extends h1 h2 → extends h2 h3 → extends h1 h3.
Proof.
  intros H12 H23 l Hl. rewrite H23, H12; [done|done|]. by rewrite H12.
Qed.

Lemma parse_json_extends j h : extends h (parse_json j h).2.
Proof. intros l Hl. by apply parse_json_keeps. Qed.

Lemma alloc_extends o h : extends h (alloc o h).2.
Proof. intros l Hl. by apply alloc_keeps. Qed.

Lemma all2_impl {A B} (R R' : A → B → Prop) xs ys :
  Forall (λ x, ∀ y, R x y → R' x y) xs → all2 R xs ys → all2 R' xs ys.
Proof.
  intros HF. revert ys. induction HF as [|x xs Hx _ IH]; intros [|y ys];
    cbn; try done. intros [Hxy Hr]. split; [by apply Hx|by apply IH].
Qed.

Lemma represents_extends h h' j v :
  extends h h' → represents h j v → represents h' j v.
Proof.
  intros He. revert v.
  induction j as [ |b|n|s|items IH|fields IH] using json_nested_ind;
    intros v; cbn [represents]; try done.
  - intros (l & vs & -> & Hl & Hall). exists l, vs. split_and!; [done| |].
    + rewrite He; [done|by rewrite Hl].
    + revert Hall. by apply all2_impl.
  - intros (l & vs & -> & Hl & Hall). exists l, vs. split_and!; [done| |].
    + rewrite He; [done|by rewrite Hl].
    + revert Hall. by apply all2_impl.
Qed.

Lemma thread_represents {A} (f : A → heap → value * heap)
    (R : heap → A → value → Prop) xs h :
  (∀ x h h' v, extends h h' → R h x v → R h' x v) →
  Forall (λ x, ∀ h, R (f x h).2 x (f x h).1 ∧ extends h (f x h).2) xs →
  all2 (R (thread f xs h).2) xs (thread f xs h).1
  ∧ extends h (thread f xs h).2.
Proof.
  intros Hmono HF. revert h.
  induction HF as [|x xs Hx _ IH]; intros h; cbn [thread].
  - split; [done|apply extends_refl].
  - destruct (Hx h) as [Hr He]. destruct (f x h) as [v h1]. cbn in Hr, He.
    destruct (IH h1) as [Hrs Hes]. destruct (thread f xs h1) as [vs h2].
    cbn in *. split_and!; [by eapply Hmono|done|by eapply extends_trans].
Qed.

Lemma alloc_lookup o h : (alloc o h).2 !! (alloc o h).1 = Some o.
Proof. apply lookup_insert_eq. Qed.

Lemma parse_json_represents j : ∀ h,
  represents (parse_json j h).2 j (parse_json j h).1.
Proof.
  induction j as [ |b|n|s|items IH|fields IH] using json_nested_ind;
    intros h; try done.
  - rewrite parse_json_arr.
    destruct (thread_represents parse_json represents items h) as [Hall He].
    { intros. by eapply represents_extends. }
    { eapply Forall_impl; [exact IH|]. intros j Hj h0.
      split; [apply Hj|apply parse_json_extends]. }
    destruct (thread parse_json items h) as [vs h1]. cbn in Hall, He.
    pose proof (alloc_lookup (array_of vs) h1) as Hl.
    pose proof (alloc_extends (array_of vs) h1) as Ha.
    destruct (alloc (array_of vs) h1) as [l h2]. cbn in *.
    exists l, vs. split_and!; [done..|].
    revert Hall. apply all2_impl, Forall_forall. intros j _ v.
    by apply represents_extends.
  - rewrite parse_json_obj.
    destruct (thread_represents (λ f, parse_json f.2)
                (λ h f, represents h f.2) fields h) as [Hall He].
    { intros. by eapply represents_extends. }
    { eapply Forall_impl; [exact IH|]. intros f Hf h0.
      split; [apply Hf|apply parse_json_extends]. }
    destruct (thread _ fields h) as [vs h1]. cbn in Hall, He. cbn zeta.
    match goal with |- context [alloc ?o h1] =>
      pose proof (alloc_lookup o h1) as Hl;
      pose proof (alloc_extends o h1) as Ha;
      destruct (alloc o h1) as [l h2]
    end. cbn in *.
    exists l, vs. split_and!; [done..|].
    revert Hall. apply all2_impl, Forall_forall. intros f _ v.
    by apply represents_extends.
Qed.

Lemma represents_truthy h j v :
  represents h j v → truthy v = json_truthy j.
Proof.
  destruct j; cbn [represents]; try (by intros ->);
    by intros (l & vs & -> & _).
Qed.

Lemma field_map_lookup {R : json → value → Prop} fields k : ∀ vs acc,
  all2 (λ f, R f.2) fields vs →
  match json_field fields k with
  | Some j =>
      ∃ v, foldl (λ (m : gmap string value) kv, <[kv.1 := kv.2]> m) acc
             (zip (fst <$> fields) vs) !! k = Some v ∧ R j v
  | None =>
      foldl (λ (m : gmap string value) kv, <[kv.1 := kv.2]> m) acc
        (zip (fst <$> fields) vs) !! k = acc !! k
  end.
Proof.
  induction fields as [|[k' j'] r IH]; intros [|v vs] acc; cbn; try done.
  intros [Hv Hr]. specialize (IH vs (<[k' := v]> acc) Hr).
  destruct (json_field r k) as [j|]; [done|]. rewrite IH.
  case_bool_decide as Hk.
  - subst k'. exists v. by rewrite lookup_insert_eq.
  - by rewrite lookup_insert_ne.
Qed.

(** Reading a key of a parsed object. *)
Lemma get_own_field h fields v k :
  represents h (JObj fields) v → field_is h fields k (get_own h v k).
Proof.
  intros (l & vs & -> & Hl & Hall). unfold field_is.
  rewrite (get_own_plain _ _ _ k Hl eq_refl). cbn [props].
  pose proof (field_map_lookup (R := represents h) fields k vs ∅ Hall) as Hk.
  destruct (json_field fields k) as [j|].
  - destruct Hk as (x & -> & Hx). done.
  - by rewrite Hk, lookup_empty.
Qed.

Lemma represents_object_not_nullish h fields v :
  represents h (JObj fields) v → nullish v = false.
Proof. by intros (l & vs & -> & _). Qed.

Lemma array_of_lookup vs : ∀ a i,
  (i < length vs)%nat →
  (list_to_map (zip (index_key <$> seq a (length vs)) vs)
     : gmap string value) !! index_key (a + i) = vs !! i.
Proof.
  induction vs as [|v vs IH]; intros a i Hi; cbn in *; [lia|].
  destruct i as [|i].
  - rewrite Nat.add_0_r. apply lookup_insert_eq.
  - rewrite lookup_insert_ne.
    + replace (a + S i)%nat with (S a + i)%nat by lia. apply IH. lia.
    + unfold index_key. intros Heq%(inj pretty). lia.
Qed.

Lemma slots_array_of vs : slots (array_of vs) = Some <$> vs.
Proof.
  unfold slots, array_of. cbn [arr_len props].
  apply list_eq. intros i. rewrite !list_lookup_fmap.
  destruct (decide (i < length vs)%nat) as [Hi|Hi].
  - rewrite lookup_seq_lt by done. cbn.
    pose proof (array_of_lookup vs 0 i Hi) as Hlk. cbn [Nat.add] in Hlk.
    rewrite Hlk.
    by destruct (vs !! i) eqn:Hv; [|apply lookup_ge_None in Hv; lia].
  - rewrite lookup_seq_ge by lia. cbn.
    by rewrite (proj2 (lookup_ge_None vs i)) by lia.
Qed.

Lemma represents_array h items v :
  represents h (JArr items) v →
  ∃ vs, is_array h v = true ∧ array_slots h v = Some <$> vs
        ∧ all2 (represents h) items vs.
Proof.
  intros (l & vs & -> & Hl & Hall). exists vs.
  unfold is_array, array_slots. rewrite Hl.
  split_and!; [done|apply slots_array_of|done].
Qed.

(** ** Documents from parsed records *)

Lemma new_from_record h record v client :
  represents h (JObj record) v →
  ∃ doc, Document.new v client h = (Ret doc, h)
       ∧ from_record h record doc ∧ Document.client doc = client.
Proof.
  intros Hv. pose proof Hv as (l & vs & -> & Hl & Hall).
  rewrite new_run. eexists. split; [reflexivity|]. split; [|done].
  unfold from_record. cbn [Document.id Document.collection Document.version
    Document.created_at Document.updated_at Document.ttl_at Document.data].
  split_and!; try by apply get_own_field.
  pose proof (get_own_field h record (VRef l) "data" Hv) as Hd.
  unfold field_is in Hd. unfold js_or.
  destruct (json_field record "data") as [j|].
  - by rewrite (represents_truthy _ _ _ Hd); destruct (json_truthy j).
  - by rewrite Hd.
Qed.

(** A row that is not [null] makes a Document and leaves the store. *)
Lemma new_from_row h j v client :
  represents h j v → j ≠ JNull →
  ∃ doc, Document.new v client h = (Ret doc, h).
Proof.
  intros Hv Hj. rewrite new_run.
  destruct j; cbn [represents] in Hv; try (subst v; by eauto).
  - by destruct Hv as (l & vs & -> & _); eauto.
  - by destruct Hv as (l & vs & -> & _); eauto.
Qed.

Lemma map_slots_rows h client rows : ∀ vs,
  all2 (represents h) rows vs → Forall (λ j, j ≠ JNull) rows →
  ∃ docs, Document.map_slots (λ d, Document.new d client) (Some <$> vs) h
          = (Ret (Some <$> docs), h)
        ∧ length docs = length rows.
Proof.
  induction rows as [|j rows IH]; intros [|v vs]; cbn [all2]; try done.
  - intros _ _. by exists [].
  - intros [Hv Hr] [Hj Hjs]%Forall_cons.
    destruct (new_from_row h j v client Hv Hj) as (doc & Hdoc).
    destruct (IH vs Hr Hjs) as (docs & Hdocs & Hlen).
    exists (doc :: docs). cbn [fmap list_fmap Document.map_slots]. run.
    rewrite Hdoc. cbn [fmap list_fmap] in Hdocs. rewrite Hdocs.
    split; [done|]. cbn. by rewrite Hlen.
Qed.

(** The message a server puts in [{error: {message}}], and its absence. *)
Lemma server_message h top v err s :
  represents h (JObj top) v →
  json_field top "error" = Some (JObj err) →
  json_field err "message" = Some (JStr s) →
  opt_get h (opt_get h v "error") "message" = VStr s.
Proof.
  intros Hv Herr Hmsg.
  pose proof (get_own_field h top v "error" Hv) as He.
  unfold field_is in He. rewrite Herr in He.
  pose proof (get_own_field h err _ "message" He) as Hm.
  unfold field_is in Hm. rewrite Hmsg in Hm. cbn in Hm.
  unfold opt_get.
  rewrite (represents_object_not_nullish _ _ _ Hv).
  by rewrite (represents_object_not_nullish _ _ _ He).
Qed.

(** The record a server puts in [{data: record}]. *)
Lemma answer_record h top v record :
  represents h (JObj top) v →
  json_field top "data" = Some (JObj record) →
  member v "data" h = (Ret (get_own h v "data"), h)
  ∧ represents h (JObj record) (get_own h v "data").
Proof.
  intros Hv Hrec. rewrite member_run.
  rewrite (represents_object_not_nullish _ _ _ Hv). split; [done|].
  pose proof (get_own_field h top v "data" Hv) as Hd.
  unfold field_is in Hd. by rewrite Hrec in Hd.
Qed.

(** ** find *)

Lemma find_run rt coll client id w req log :
  req = outgoing (S5Client.axios client) GET
          ("/" +:+ to_string (store w) (S5Client.collection client)
           +:+ "/" +:+ to_string (store w) id) None (store w) →
  log = (sent w ++ [req])%list →
  Document.find rt (Document.CollectionDocument coll client) id w =
  match transport rt (sent w) req with
  | NetFailure msg => (Throw (Error ("Find failed: " +:+ msg)), World (store w) log)
  | NetResponse st body =>
      let parsed := parse_json body (store w) in
      if in_2xx st then
        match member parsed.1 "data" parsed.2 with
        | (Ret record, h1) =>
            match Document.new record (Some client) h1 with
            | (Ret doc, h2) => (Ret (Of doc), World h2 log)
            | (Throw e, h2) =>
                (Throw (Error ("Find failed: " +:+ message e)), World h2 log)
            end
        | (Throw e, h1) =>
            (Throw (Error ("Find failed: " +:+ message e)), World h1 log)
        end
      else if st =? 404 then (Ret Null, World parsed.2 log)
      else (Throw (Error ("Find failed: " +:+
                     failure_text parsed.2
                       (Exn AxiosErrorC
                          ("Request failed with status code " +:+ pretty st)
                          (Some (Response st parsed.1))))),
            World parsed.2 log)
  end.
Proof.
  intros -> ->. unfold Document.find.
  cbn [Document.static_client Document.axios_of Document.collection_of].
  run. rewrite axios_request_run.
  destruct (transport _ _ _) as [st body|msg]; [|done].
  destruct (in_2xx st); cbn [fst snd store sent resp_data].
  - destruct (member _ "data" _) as [[record|e] h1] eqn:Hm.
    + destruct (Document.new _ _ _) as [[doc|e] h2] eqn:Hn; [done|].
      apply new_throws in Hn. unfold Document.status_is, failure_text, js_or.
      rewrite Hn. done.
    + apply member_throws in Hm as [Hr ->].
      unfold Document.status_is, failure_text, js_or. by rewrite Hr.
  - unfold Document.status_is. cbn [response resp_status].
    by destruct (st =? 404).
Qed.

Lemma in_2xx_404 : in_2xx 404 = false.
Proof. done. Qed.

(** C1.  [find(id)] on a collection class sends one GET for
    [/{collection}/{id}].  It returns [null] exactly when the server
    answers with status 404.  When the transport fails, and when the
    server answers with another status outside 2xx, it throws an [Error]
    whose message is ["Find failed: "] followed by the server's
    [error.message] when that is there (truthy), and by the text of the
    transport error otherwise; for a body [{error: {message: s}}] with a
    non-empty [s] the message is ["Find failed: " ++ s].  On a 2xx answer
    [{data: record}] it returns a Document whose fields are those of the
    record, bound to the class's client. *)
Theorem find_outcome rt coll client id w :
  let cls := Document.CollectionDocument coll client in
  let url := "/" +:+ to_string (store w) (S5Client.collection client)
             +:+ "/" +:+ to_string (store w) id in
  let req := outgoing (S5Client.axios client) GET url None (store w) in
  let r := Document.find rt cls id w in
  sent r.2 = (sent w ++ [req])%list
  ∧ (r.1 = Ret Null ↔ ∃ body, transport rt (sent w) req = NetResponse 404 body)
  ∧ (∀ msg, transport rt (sent w) req = NetFailure msg →
       r.1 = Throw (Error ("Find failed: " +:+ msg)))
  ∧ (∀ st body, transport rt (sent w) req = NetResponse st body →
       in_2xx st = false → st ≠ 404 →
       let parsed := parse_json body (store w) in
       let said := opt_get parsed.2 (opt_get parsed.2 parsed.1 "error")
                     "message" in
       r.1 = Throw (Error ("Find failed: " +:+
                (if truthy said then to_string parsed.2 said
                 else "Request failed with status code " +:+ pretty st))))
  ∧ (∀ st top err s, transport rt (sent w) req = NetResponse st (JObj top) →
       in_2xx st = false → st ≠ 404 →
       json_field top "error" = Some (JObj err) →
       json_field err "message" = Some (JStr s) → s ≠ EmptyString →
       r.1 = Throw (Error ("Find failed: " +:+ s)))
  ∧ (∀ st top record, transport rt (sent w) req = NetResponse st (JObj top) →
       in_2xx st = true →
       json_field top "data" = Some (JObj record) →
       ∃ doc h, r = (Ret (Of doc), World h (sent w ++ [req]))
              ∧ from_record h record doc
              ∧ Document.client doc = Some client).
Proof.
  intros cls url req r.
  pose proof (find_run rt coll client id w req _ eq_refl eq_refl) as Hrun.
  fold cls r in Hrun. clearbody r. clear cls.
  assert (∀ st body, transport rt (sent w) req = NetResponse st body →
            in_2xx st = false → st ≠ 404 →
            r.1 = Throw (Error ("Find failed: " +:+
              (if truthy (opt_get (parse_json body (store w)).2
                            (opt_get (parse_json body (store w)).2
                               (parse_json body (store w)).1 "error")
                            "message")
               then to_string (parse_json body (store w)).2
                      (opt_get (parse_json body (store w)).2
                         (opt_get (parse_json body (store w)).2
                            (parse_json body (store w)).1 "error")
                         "message")
               else "Request failed with status code " +:+ pretty st))))
    as Hrejected.
  { intros st body Hnet Hst Hne. rewrite Hrun, Hnet. cbn zeta.
    rewrite Hst. apply Z.eqb_neq in Hne as ->.
    by rewrite failure_text_rejected. }
  split_and!.
  - rewrite Hrun. destruct (transport _ _ _) as [st body|msg]; [|done].
    cbn zeta. destruct (in_2xx st).
    + destruct (member _ _ _) as [[record|e] h1]; [|done].
      by destruct (Document.new _ _ _) as [[doc|e] h2].
    + by destruct (st =? 404).
  - rewrite Hrun. split.
    + destruct (transport _ _ _) as [st body|msg]; [|done].
      cbn zeta. destruct (in_2xx st) eqn:Hst.
      * destruct (member _ _ _) as [[record|e] h1]; [|done].
        by destruct (Document.new _ _ _) as [[doc|e] h2].
      * destruct (st =? 404) eqn:H404; [|done].
        apply Z.eqb_eq in H404 as ->. eauto.
    + intros [body ->]. cbn zeta. by rewrite in_2xx_404.
  - intros msg Hnet. by rewrite Hrun, Hnet.
  - intros st body Hnet Hst Hne parsed said. by apply Hrejected.
  - intros st top err s Hnet Hst Hne Herr Hmsg Hs.
    rewrite (Hrejected _ _ Hnet Hst Hne).
    rewrite (server_message _ top _ err s); [|apply parse_json_represents|done..].
    cbn [truthy]. rewrite bool_decide_eq_false_2 by done. done.
  - intros st top record Hnet Hst Hrec. rewrite Hrun, Hnet. cbn zeta.
    rewrite Hst.
    pose proof (parse_json_represents (JObj top) (store w)) as Hv.
    destruct (answer_record _ _ _ _ Hv Hrec) as [Hm Hr]. rewrite Hm.
    destruct (new_from_record _ _ _ (Some client) Hr) as (doc & Hn & Hf & Hc).
    rewrite Hn. eauto.
Qed.

(** A server answering 500 with [{error: {message: "boom"}}]. *)
Lemma find_outcome_witness :
  transport (Sample.answering 500 Sample.error_body) []
    (outgoing (S5Client.axios Sample.client) GET "/users/user-123" None
       Sample.store_a1)
  = NetResponse 500 Sample.error_body
  ∧ in_2xx 500 = false ∧ 500 ≠ 404
  ∧ json_field [("error", JObj [("message", JStr "boom")])] "error"
    = Some (JObj [("message", JStr "boom")])
  ∧ json_field [("message", JStr "boom")] "message" = Some (JStr "boom")
  ∧ "boom" ≠ EmptyString
  ∧ (Document.find (Sample.answering 500 Sample.error_body) Sample.Users
       (VStr "user-123") Sample.world_a1).1
    = Throw (Error "Find failed: boom").
Proof.
  split_and!; [done..|].
  exact (proj1 (proj2 (proj2 (proj2 (proj2
           (find_outcome (Sample.answering 500 Sample.error_body)
              (VStr "users") Sample.client (VStr "user-123")
              Sample.world_a1)))))
         500 [("error", JObj [("message", JStr "boom")])]
         [("message", JStr "boom")] "boom"
         eq_refl eq_refl ltac:(done) eq_refl eq_refl ltac:(done)).
Defined.

(** ** S5Client *)

Lemma client_new_run config h :
  S5Client.new config h =
  match config with
  | VNull =>
      (Throw (TypeError ("Cannot read properties of " +:+ to_string h VNull
                         +:+ " (reading '" +:+ "baseURL" +:+ "')")), h)
  | VUndef =>
      (Throw (Error "API key is required"),
       <[fresh (dom h) := empty_object]> h)
  | _ =>
      if negb (truthy (get_own h config "apiKey"))
      then (Throw (Error "API key is required"), h)
      else if negb (truthy (get_own h config "collection"))
      then (Throw (Error "Collection name is required"), h)
      else
        (Ret (S5Client.Make
                (js_or (get_own h config "baseURL")
                       (VStr "https://s5.host/api/v1"))
                (get_own h config "apiKey") (get_own h config "collection")
                (Axios (js_or (get_own h config "baseURL")
                              (VStr "https://s5.host/api/v1"))
                   [("Authorization",
                     "Bearer " +:+ to_string h (get_own h config "apiKey"));
                    ("Content-Type", "application/json")])), h)
  end.
Proof.
  unfold S5Client.new. run.
  destruct config; cbn [default_object]; run;
    repeat (rewrite member_run; cbn [nullish]); try by repeat case_match.
  unfold new_object, alloc. repeat (rewrite member_run; cbn [nullish]).
    by rewrite !get_own_empty.
Qed.

(** C9.  Constructing the client from a configuration whose [apiKey] and
    [collection] are both there (truthy) succeeds, and every request made
    through the client's axios instance carries
    [Authorization: Bearer <apiKey>] and [Content-Type: application/json].
    With [apiKey] missing ([undefined], or falsy) the constructor throws
    ["API key is required"]; with [collection] missing it throws as well
    (["Collection name is required"] when the key is there). *)
Theorem client_construction h config :
  nullish config = false →
  let key := get_own h config "apiKey" in
  let name := get_own h config "collection" in
  let r := S5Client.new config h in
  (truthy key = true → truthy name = true →
   ∃ c, r = (Ret c, h)
     ∧ S5Client.apiKey c = key ∧ S5Client.collection c = name
     ∧ ∀ rt m url body w, ∃ wr,
         sent (axios_request rt (S5Client.axios c) m url body w).2
           = (sent w ++ [wr])%list
         ∧ req_headers (wire_request wr)
           = [("Authorization", "Bearer " +:+ to_string h key);
              ("Content-Type", "application/json")])
  ∧ (truthy key = false → r = (Throw (Error "API key is required"), h))
  ∧ (truthy name = false →
     ∃ msg, r = (Throw (Error msg), h)
       ∧ (truthy key = true → msg = "Collection name is required")).
Proof.
  intros Hc key name r.
  assert (r = if negb (truthy key)
              then (Throw (Error "API key is required"), h)
              else if negb (truthy name)
              then (Throw (Error "Collection name is required"), h)
              else
                (Ret (S5Client.Make
                        (js_or (get_own h config "baseURL")
                               (VStr "https://s5.host/api/v1"))
                        key name
                        (Axios (js_or (get_own h config "baseURL")
                                      (VStr "https://s5.host/api/v1"))
                           [("Authorization", "Bearer " +:+ to_string h key);
                            ("Content-Type", "application/json")])), h))
    as -> by (subst r; rewrite client_new_run; by destruct config).
  split_and!.
  - intros -> ->. cbn [negb]. eexists. split_and!; [reflexivity..|].
    intros rt m url body w. eexists. split; [apply axios_request_sent|done].
  - by intros ->.
  - intros ->. destruct (truthy key); cbn [negb].
    + by exists "Collection name is required".
    + by exists "API key is required".
Qed.

Lemma client_construction_witness :
  nullish (VRef 1%positive) = false
  ∧ truthy (get_own Sample.store_config (VRef 1%positive) "apiKey") = true
  ∧ truthy (get_own Sample.store_config (VRef 1%positive) "collection") = true
  ∧ ∃ c, S5Client.new (VRef 1%positive) Sample.store_config
         = (Ret c, Sample.store_config)
       ∧ S5Client.apiKey c = VStr "ak_test"
       ∧ S5Client.collection c = VStr "users".
Proof.
  split_and!; [done..|].
  destruct (proj1 (client_construction Sample.store_config (VRef 1%positive)
                     eq_refl) eq_refl eq_refl) as (c & Hr & Hk & Hn & _).
  exists c. split_and!; [exact Hr|exact Hk|exact Hn].
Defined.

(** ** The Document constructor *)

(** C10, as the code has it.  From an input object the constructor takes
    the metadata ([id], [collection], [version], [created_at],
    [updated_at], [ttl_at]) at the top level.  The Document's [data] is the
    input's [data] value when that value is truthy; otherwise (no [data]
    key, or a falsy one) it is the input object itself, the same reference
    and no copy: the store is left as it was.  A client configuration
    without [baseURL] gets ["https://s5.host/api/v1"]. *)
Theorem constructor_extracts h input client config c h' :
  nullish input = false →
  S5Client.new config h = (Ret c, h') →
  get_own h config "baseURL" = VUndef →
  (∃ doc, Document.new input client h = (Ret doc, h)
     ∧ Document.data doc
       = (if truthy (get_own h input "data") then get_own h input "data"
          else input)
     ∧ Document.client doc = client
     ∧ Document.id doc = get_own h input "id"
     ∧ Document.collection doc = get_own h input "collection"
     ∧ Document.version doc = get_own h input "version"
     ∧ Document.created_at doc = get_own h input "created_at"
     ∧ Document.updated_at doc = get_own h input "updated_at"
     ∧ Document.ttl_at doc = get_own h input "ttl_at")
  ∧ S5Client.baseURL c = VStr "https://s5.host/api/v1"
  ∧ ax_baseURL (S5Client.axios c) = VStr "https://s5.host/api/v1".
Proof.
  intros Hin Hnew Hbase. split.
  - rewrite new_run. destruct input; try discriminate;
      (eexists; split_and!; reflexivity).
  - rewrite client_new_run in Hnew.
    destruct config; try discriminate;
      repeat case_match; try discriminate;
      injection Hnew as <- _; by rewrite Hbase.
Qed.

Lemma constructor_extracts_witness :
  nullish (VRef 1%positive) = false
  ∧ S5Client.new (VRef 3%positive) Sample.store_record
    = (Ret Sample.client, Sample.store_record)
  ∧ get_own Sample.store_record (VRef 3%positive) "baseURL" = VUndef
  ∧ (∃ doc, Document.new (VRef 1%positive) None Sample.store_record
            = (Ret doc, Sample.store_record)
          ∧ Document.data doc = VRef 2%positive
          ∧ Document.id doc = VStr "a")
  ∧ S5Client.baseURL Sample.client = VStr "https://s5.host/api/v1".
Proof.
  assert (S5Client.new (VRef 3%positive) Sample.store_record
          = (Ret Sample.client, Sample.store_record)) as Hnew
    by (vm_compute; reflexivity).
  split_and!; [done|exact Hnew|done| |done].
  destruct (proj1 (constructor_extracts Sample.store_record
                     (VRef 1%positive) None (VRef 3%positive)
                     Sample.client Sample.store_record
                     eq_refl Hnew eq_refl))
    as (doc & Hr & Hd & _ & Hid & _).
  exists doc. split_and!; [exact Hr|exact Hd|exact Hid].
Defined.

(** The input [{ id: "a", data: 0 }] has a [data] key, and the Document's
    data is the input itself, not the nested value. *)
Lemma constructor_data_key_counterexample :
  get_own Sample.store_zero_data (VRef 1%positive) "data" = VNum 0
  ∧ ∃ doc, Document.new (VRef 1%positive) None Sample.store_zero_data
           = (Ret doc, Sample.store_zero_data)
         ∧ Document.data doc = VRef 1%positive
         ∧ Document.data doc ≠ VNum 0.
Proof.
  split; [done|]. rewrite new_run. eexists. split; [reflexivity|]. done.
Qed.

(** ** The methods that write *)

Lemma create_run rt doc c w req log :
  Document.client doc = Some c →
  req = outgoing (S5Client.axios c) POST
          ("/" +:+ to_string (store w) (S5Client.collection c))
          (Some [("data", Document.data doc);
                 ("ttl_at", Document.ttl_at doc)]) (store w) →
  log = (sent w ++ [req])%list →
  Document.create rt (doc, w)
  = settled "Create failed" c doc (store w) log (transport rt (sent w) req).
Proof.
  intros Hc -> ->. unfold Document.create, settled. run. rewrite Hc.
  cbn [Document.axios_of Document.collection_of]. run.
  rewrite axios_request_run.
  destruct (transport _ _ _) as [st body|msg]; [|done].
  destruct (in_2xx st); cbn [fst snd store sent resp_data]; [|done].
  destruct (member _ "data" _) as [[record|e] h1] eqn:Hm.
  - destruct (Document.new _ _ _) as [[fresh|e] h2] eqn:Hn; [done|].
    apply new_throws in Hn. unfold failure_text, js_or. by rewrite Hn.
  - apply member_throws in Hm as [Hr ->].
    unfold failure_text, js_or. by rewrite Hr.
Qed.

Lemma update_path_run rt doc c w req log :
  Document.client doc = Some c →
  req = outgoing (S5Client.axios c) PUT
          ("/" +:+ to_string (store w) (S5Client.collection c) +:+ "/"
           +:+ to_string (store w) (Document.id doc))
          (Some [("data", Document.data doc);
                 ("ttl_at", Document.ttl_at doc)]) (store w) →
  log = (sent w ++ [req])%list →
  Document.update rt VNull (doc, w)
  = settled "Update failed" c doc (store w) log (transport rt (sent w) req).
Proof.
  intros Hc -> ->. unfold Document.update, settled. cbn [truthy]. run.
  rewrite Hc. cbn [Document.axios_of Document.collection_of]. run.
  rewrite axios_request_run.
  destruct (transport _ _ _) as [st body|msg]; [|done].
  destruct (in_2xx st); cbn [fst snd store sent resp_data]; [|done].
  destruct (member _ "data" _) as [[record|e] h1] eqn:Hm.
  - destruct (Document.new _ _ _) as [[fresh|e] h2] eqn:Hn; [done|].
    apply new_throws in Hn. unfold failure_text, js_or. by rewrite Hn.
  - apply member_throws in Hm as [Hr ->].
    unfold failure_text, js_or. by rewrite Hr.
Qed.

(** [update(d)] with a truthy [d]: the merge, then the update path from
    the merged state. *)
Lemma update_merge_run rt changes doc w :
  truthy changes = true →
  Document.update rt changes (doc, w)
  = Document.update rt VNull
      (Document.with_data (VRef (fresh (dom (store w)))) doc,
       World (<[fresh (dom (store w)) :=
                  Obj None (own_props (store w) changes
                            ∪ own_props (store w) (Document.data doc))]>
                (store w))
             (sent w)).
Proof.
  intros Ht. unfold Document.update. rewrite Ht. cbn [truthy]. run.
  unfold new_object, alloc, Document.set_data. cbn. done.
Qed.

Lemma settled_sent label c doc h log answer :
  sent (settled label c doc h log answer).2.2 = log.
Proof.
  unfold settled. destruct answer as [st body|msg]; [|done]. cbn zeta.
  destruct (in_2xx st); [|done].
  destruct (member _ _ _) as [[record|e] h1]; [|done].
  by destruct (Document.new _ _ _) as [[fresh|e] h2].
Qed.

Lemma settled_success label c doc h log st body record fresh h2 :
  in_2xx st = true →
  member (parse_json body h).1 "data" (parse_json body h).2
    = (Ret record, (parse_json body h).2) →
  Document.new record (Some c) (parse_json body h).2 = (Ret fresh, h2) →
  settled label c doc h log (NetResponse st body)
  = (Ret fresh, (fresh, World h2 log)).
Proof. intros Hst Hm Hn. unfold settled. cbn zeta. by rewrite Hst, Hm, Hn. Qed.

(** On failure [this] keeps its fields. *)
Lemma settled_failure label c doc h log answer e s :
  settled label c doc h log answer = (Throw e, s) → s.1 = doc.
Proof.
  unfold settled. destruct answer as [st body|msg]; [|naive_solver].
  cbn zeta. destruct (in_2xx st); [|naive_solver].
  destruct (member _ _ _) as [[record|e'] h1]; [|naive_solver].
  destruct (Document.new _ _ _) as [[fresh|e'] h2]; naive_solver.
Qed.

Lemma settled_record label c doc h log st top record :
  in_2xx st = true →
  json_field top "data" = Some (JObj record) →
  ∃ fresh h',
    settled label c doc h log (NetResponse st (JObj top))
      = (Ret fresh, (fresh, World h' log))
    ∧ from_record h' record fresh
    ∧ Document.client fresh = Some c.
Proof.
  intros Hst Hrec.
  pose proof (parse_json_represents (JObj top) h) as Hv.
  destruct (answer_record _ _ _ _ Hv Hrec) as [Hm Hr].
  destruct (new_from_record _ _ _ (Some c) Hr) as (fresh & Hn & Hf & Hc).
  exists fresh, (parse_json (JObj top) h).2. split; [|done].
  by apply settled_success with (get_own (parse_json (JObj top) h).2
                                   (parse_json (JObj top) h).1 "data").
Qed.

(** ** save *)

(** C5.  [save()] sends one request with the body [{data, ttl_at}]: a POST
    to [/{collection}] when the Document has no id (a falsy [id]), a PUT
    to [/{collection}/{id}] when it has one.  In either case, when the
    server answers 2xx with [{data: record}], every field of [this] is
    overwritten: [this] becomes a Document whose fields are those of the
    returned record, and it is the result.  When the call throws, [this]
    is as it was. *)
Theorem save_dispatch rt doc c w :
  Document.client doc = Some c →
  let body := Some [("data", Document.data doc);
                    ("ttl_at", Document.ttl_at doc)] in
  let req :=
    if truthy (Document.id doc)
    then outgoing (S5Client.axios c) PUT
           ("/" +:+ to_string (store w) (S5Client.collection c) +:+ "/"
            +:+ to_string (store w) (Document.id doc)) body (store w)
    else outgoing (S5Client.axios c) POST
           ("/" +:+ to_string (store w) (S5Client.collection c))
           body (store w) in
  let r := Document.save rt (doc, w) in
  sent r.2.2 = (sent w ++ [req])%list
  ∧ (∀ st top record,
       transport rt (sent w) req = NetResponse st (JObj top) →
       in_2xx st = true →
       json_field top "data" = Some (JObj record) →
       ∃ fresh h, r = (Ret fresh, (fresh, World h (sent w ++ [req])))
                ∧ from_record h record fresh
                ∧ Document.client fresh = Some c)
  ∧ (∀ e, r.1 = Throw e → r.2.1 = doc).
Proof.
  intros Hc body req r.
  assert (r = settled (if truthy (Document.id doc) then "Update failed"
                       else "Create failed") c doc (store w)
                      (sent w ++ [req]) (transport rt (sent w) req)) as ->.
  { subst r req. unfold Document.save. run.
    destruct (truthy (Document.id doc)).
    - by apply update_path_run.
    - by apply create_run. }
  split_and!; [apply settled_sent| |].
  - intros st top record -> Hst Hrec. by apply settled_record.
  - intros e He. destruct (settled _ _ _ _ _ _) as [o s] eqn:Hs.
    cbn in He. subst o. by apply settled_failure in Hs.
Qed.

(** A draft is created with a POST; the answer [{data: {id: "user-123",
    ...}}] gives it its id. *)
Lemma save_dispatch_witness :
  Document.client Sample.draft = Some Sample.client
  ∧ wire_request <$>
      sent (Document.save (Sample.answering 201 Sample.record_body)
              (Sample.draft, Sample.world_a1)).2.2
    = [Request POST (VStr "https://s5.host/api/v1") "/users"
         [("Authorization", "Bearer ak_test");
          ("Content-Type", "application/json")]
         (Some [("data", VRef 1%positive); ("ttl_at", VUndef)])]
  ∧ wire_request <$>
      sent (Document.save (Sample.answering 200 Sample.record_body)
              (Sample.user, Sample.world_a1)).2.2
    = [Request PUT (VStr "https://s5.host/api/v1") "/users/user-123"
         [("Authorization", "Bearer ak_test");
          ("Content-Type", "application/json")]
         (Some [("data", VRef 1%positive); ("ttl_at", VUndef)])]
  ∧ in_2xx 201 = true
  ∧ ∃ fresh w,
      Document.save (Sample.answering 201 Sample.record_body)
        (Sample.draft, Sample.world_a1) = (Ret fresh, (fresh, w))
      ∧ Document.id fresh = VStr "user-123"
      ∧ Document.version fresh = VNum 2.
Proof.
  split_and!; [done| | |done|].
  - rewrite (proj1 (save_dispatch (Sample.answering 201 Sample.record_body)
                      Sample.draft Sample.client Sample.world_a1 eq_refl)).
    reflexivity.
  - rewrite (proj1 (save_dispatch (Sample.answering 200 Sample.record_body)
                      Sample.user Sample.client Sample.world_a1 eq_refl)).
    reflexivity.
  - destruct (proj1 (proj2
                (save_dispatch (Sample.answering 201 Sample.record_body)
                   Sample.draft Sample.client Sample.world_a1 eq_refl))
              201
              [("data", JObj [("id", JStr "user-123");
                              ("collection", JStr "users");
                              ("version", JNum 2);
                              ("data", JObj [("a", JNum 1)])])]
              [("id", JStr "user-123"); ("collection", JStr "users");
               ("version", JNum 2); ("data", JObj [("a", JNum 1)])]
              eq_refl eq_refl eq_refl)
      as (fresh & h & Hr & (Hid & _ & Hver & _) & _).
    exists fresh, (World h ([] ++ [outgoing (S5Client.axios Sample.client) POST
                                     "/users"
                                     (Some [("data", VRef 1%positive);
                                            ("ttl_at", VUndef)])
                                     Sample.store_a1])).
    split_and!; [exact Hr|exact Hid|exact Hver].
Defined.

(** ** destroy *)

Lemma destroy_run rt doc c w req log :
  Document.client doc = Some c →
  req = outgoing (S5Client.axios c) DELETE
          ("/" +:+ to_string (store w) (S5Client.collection c) +:+ "/"
           +:+ to_string (store w) (Document.id doc)) None (store w) →
  log = (sent w ++ [req])%list →
  Document.destroy rt (doc, w) =
  match transport rt (sent w) req with
  | NetFailure msg =>
      (Throw (Error ("Delete failed: " +:+ msg)), (doc, World (store w) log))
  | NetResponse st body =>
      let parsed := parse_json body (store w) in
      if in_2xx st then (Ret true, (doc, World parsed.2 log))
      else
        (Throw (Error ("Delete failed: " +:+
                  failure_text parsed.2
                    (Exn AxiosErrorC
                       ("Request failed with status code " +:+ pretty st)
                       (Some (Response st parsed.1))))),
         (doc, World parsed.2 log))
  end.
Proof.
  intros Hc -> ->. unfold Document.destroy. run. rewrite Hc.
  cbn [Document.axios_of Document.collection_of]. run.
  rewrite axios_request_run.
  destruct (transport _ _ _) as [st body|msg]; [|done].
  by destruct (in_2xx st).
Qed.

(** C7.  [destroy()] sends a single DELETE to [/{collection}/{id}].  It
    returns [true] on a 2xx answer and throws an [Error] labelled
    ["Delete failed: "] on any other answer and when the transport fails.
    In all cases [this] keeps every field, and every object that was in the
    store (the data mapping among them) is left as it was. *)
Theorem destroy_outcome rt doc c w :
  Document.client doc = Some c →
  let req := outgoing (S5Client.axios c) DELETE
               ("/" +:+ to_string (store w) (S5Client.collection c) +:+ "/"
                +:+ to_string (store w) (Document.id doc)) None (store w) in
  let r := Document.destroy rt (doc, w) in
  sent r.2.2 = (sent w ++ [req])%list
  ∧ r.2.1 = doc
  ∧ extends (store w) (store r.2.2)
  ∧ (∀ st body, transport rt (sent w) req = NetResponse st body →
       in_2xx st = true → r.1 = Ret true)
  ∧ (∀ st body, transport rt (sent w) req = NetResponse st body →
       in_2xx st = false →
       let parsed := parse_json body (store w) in
       let said := opt_get parsed.2 (opt_get parsed.2 parsed.1 "error")
                     "message" in
       r.1 = Throw (Error ("Delete failed: " +:+
                (if truthy said then to_string parsed.2 said
                 else "Request failed with status code " +:+ pretty st))))
  ∧ (∀ st top err s, transport rt (sent w) req = NetResponse st (JObj top) →
       in_2xx st = false →
       json_field top "error" = Some (JObj err) →
       json_field err "message" = Some (JStr s) → s ≠ EmptyString →
       r.1 = Throw (Error ("Delete failed: " +:+ s)))
  ∧ (∀ msg, transport rt (sent w) req = NetFailure msg →
       r.1 = Throw (Error ("Delete failed: " +:+ msg))).
Proof.
  intros Hc req r.
  pose proof (destroy_run rt doc c w req _ Hc eq_refl eq_refl) as Hrun.
  fold r in Hrun. clearbody r.
  assert (∀ st body, transport rt (sent w) req = NetResponse st body →
            in_2xx st = false →
            r.1 = Throw (Error ("Delete failed: " +:+
              (if truthy (opt_get (parse_json body (store w)).2
                            (opt_get (parse_json body (store w)).2
                               (parse_json body (store w)).1 "error")
                            "message")
               then to_string (parse_json body (store w)).2
                      (opt_get (parse_json body (store w)).2
                         (opt_get (parse_json body (store w)).2
                            (parse_json body (store w)).1 "error")
                         "message")
               else "Request failed with status code " +:+ pretty st))))
    as Hrejected.
  { intros st body Hnet Hst. rewrite Hrun, Hnet. cbn zeta.
    by rewrite Hst, failure_text_rejected. }
  split_and!.
  - rewrite Hrun. destruct (transport _ _ _) as [st body|msg]; [|done].
    by destruct (in_2xx st).
  - rewrite Hrun. destruct (transport _ _ _) as [st body|msg]; [|done].
    by destruct (in_2xx st).
  - rewrite Hrun.
    destruct (transport _ _ _) as [st body|msg]; [|apply extends_refl].
    cbn zeta. destruct (in_2xx st); apply parse_json_extends.
  - intros st body Hnet Hst. by rewrite Hrun, Hnet, Hst.
  - intros st body Hnet Hst parsed said. by apply Hrejected.
  - intros st top err s Hnet Hst Herr Hmsg Hs.
    rewrite (Hrejected _ _ Hnet Hst).
    rewrite (server_message _ top _ err s); [|apply parse_json_represents|done..].
    cbn [truthy]. rewrite bool_decide_eq_false_2 by done. done.
  - intros msg Hnet. by rewrite Hrun, Hnet.
Qed.

Lemma destroy_outcome_witness :
  Document.client Sample.user = Some Sample.client
  ∧ in_2xx 204 = true
  ∧ (Document.destroy (Sample.answering 204 JNull)
       (Sample.user, Sample.world_a1)).1 = Ret true
  ∧ (Document.destroy Sample.unreachable (Sample.user, Sample.world_a1)).1
    = Throw (Error "Delete failed: Network Error").
Proof.
  split_and!; [done|done| |].
  - exact (proj1 (proj2 (proj2 (proj2
             (destroy_outcome (Sample.answering 204 JNull) Sample.user
                Sample.client Sample.world_a1 eq_refl))))
           204 JNull eq_refl eq_refl).
  - exact (proj2 (proj2 (proj2 (proj2 (proj2 (proj2
             (destroy_outcome Sample.unreachable Sample.user
                Sample.client Sample.world_a1 eq_refl))))))
           "Network Error" eq_refl).
Defined.

(** ** update *)

(** C8.  [update(d)] for an object [d]: the local data is first replaced
    by a new object holding the keys of the old data and the keys of [d],
    those of [d] winning; then the update path runs from that state.  The
    single PUT carries the merged object as its [data]; when the round
    trip fails the local data is the merged object all the same, and when
    it succeeds the fields become those of the returned record. *)
Theorem update_merges_first rt doc c w changes given :
  Document.client doc = Some c →
  store w !! changes = Some given →
  let place := fresh (dom (store w)) in
  let merged := Obj None (props given
                          ∪ own_props (store w) (Document.data doc)) in
  let h := <[place := merged]> (store w) in
  let req := outgoing (S5Client.axios c) PUT
               ("/" +:+ to_string h (S5Client.collection c) +:+ "/"
                +:+ to_string h (Document.id doc))
               (Some [("data", VRef place);
                      ("ttl_at", Document.ttl_at doc)]) h in
  let r := Document.update rt (VRef changes) (doc, w) in
  (∀ k, props merged !! k
        = match props given !! k with
          | Some v => Some v
          | None => own_props (store w) (Document.data doc) !! k
          end)
  ∧ store w !! place = None
  ∧ sent r.2.2 = (sent w ++ [req])%list
  ∧ wire_store req !! place = Some merged
  ∧ r = Document.update rt VNull
          (Document.with_data (VRef place) doc, World h (sent w))
  ∧ (∀ e, r.1 = Throw e → r.2.1 = Document.with_data (VRef place) doc)
  ∧ (∀ st top record,
       transport rt (sent w) req = NetResponse st (JObj top) →
       in_2xx st = true →
       json_field top "data" = Some (JObj record) →
       ∃ fresh h', r = (Ret fresh, (fresh, World h' (sent w ++ [req])))
                 ∧ from_record h' record fresh
                 ∧ Document.client fresh = Some c).
Proof.
  intros Hc Hg place merged h req r.
  assert (r = settled "Update failed" c (Document.with_data (VRef place) doc)
                h (sent w ++ [req]) (transport rt (sent w) req)) as Hrun.
  { subst r. rewrite update_merge_run by done.
    cbn [own_props]. rewrite Hg.
    by apply (update_path_run rt (Document.with_data (VRef place) doc) c
                (World h (sent w))). }
  split_and!.
  - intros k. subst merged. cbn [props]. rewrite lookup_union.
    by destruct (props given !! k), (own_props _ _ !! k).
  - apply not_elem_of_dom, is_fresh.
  - rewrite Hrun. apply settled_sent.
  - apply lookup_insert_eq.
  - rewrite Hrun. symmetry.
    by apply (update_path_run rt (Document.with_data (VRef place) doc) c
                (World h (sent w))).
  - intros e He. destruct r as [o s]. cbn in He. subst o.
    symmetry in Hrun. by apply settled_failure in Hrun.
  - intros st top record Hnet Hst Hrec. rewrite Hrun, Hnet.
    by apply settled_record.
Qed.

Lemma update_merges_first_witness :
  Document.client Sample.user = Some Sample.client
  ∧ Sample.store_changes !! 2%positive
    = Some (Obj None (<["a" := VNum 5]> (<["b" := VNum 2]> ∅)))
  ∧ wire_request <$>
      sent (Document.update (Sample.answering 500 Sample.error_body)
              (VRef 2%positive)
              (Sample.user, World Sample.store_changes [])).2.2
    = [Request PUT (VStr "https://s5.host/api/v1") "/users/user-123"
         [("Authorization", "Bearer ak_test");
          ("Content-Type", "application/json")]
         (Some [("data", VRef 3%positive); ("ttl_at", VUndef)])].
Proof.
  split_and!; [done|done|].
  rewrite (proj1 (proj2 (proj2
             (update_merges_first (Sample.answering 500 Sample.error_body)
                Sample.user Sample.client (World Sample.store_changes [])
                2%positive _ eq_refl eq_refl)))).
  reflexivity.
Defined.

(** ** reload *)

Lemma find_on_Document rt id w :
  Document.find rt Document.Base id w
  = (Throw (Error
       "Find failed: Cannot read properties of undefined (reading 'axios')"),
     w).
Proof. by destruct w. Qed.

Lemma reload_run rt doc w :
  Document.reload rt (doc, w) =
  if truthy (Document.id doc)
  then (Throw (Error
          "Find failed: Cannot read properties of undefined (reading 'axios')"),
        (doc, w))
  else (Throw (Error "Cannot reload document without ID"), (doc, w)).
Proof.
  unfold Document.reload. run. destruct (truthy (Document.id doc)); [|done].
  cbn [negb]. by rewrite find_on_Document.
Qed.

(** Without an id [reload] fails before any request. *)
Lemma reload_without_id rt doc w :
  truthy (Document.id doc) = false →
  Document.reload rt (doc, w)
  = (Throw (Error "Cannot reload document without ID"), (doc, w)).
Proof. intros Hid. by rewrite reload_run, Hid. Qed.

(** With an id [reload] never reaches the server: [Document.find] runs on
    the class [Document], whose static [client] is undefined. *)
Lemma reload_with_id rt doc w :
  truthy (Document.id doc) = true →
  Document.reload rt (doc, w)
  = (Throw (Error
       "Find failed: Cannot read properties of undefined (reading 'axios')"),
     (doc, w)).
Proof. intros Hid. by rewrite reload_run, Hid. Qed.

(** C4, at a Document with the id ["user-123"] and a server that would
    answer 200 with the record (or 404): [reload()] throws
    ["Find failed: ..."] and nothing is sent, since it calls [find] on the
    class [Document] itself. *)
Theorem reload_does_not_refetch :
  Document.reload (Sample.answering 200 Sample.record_body)
    (Sample.user, Sample.world_a1)
  = (Throw (Error
       "Find failed: Cannot read properties of undefined (reading 'axios')"),
     (Sample.user, Sample.world_a1))
  ∧ sent Sample.world_a1 = []
  ∧ Document.reload (Sample.answering 404 JNull)
      (Sample.user, Sample.world_a1)
    = (Throw (Error
         "Find failed: Cannot read properties of undefined (reading 'axios')"),
       (Sample.user, Sample.world_a1)).
Proof. split_and!; [by apply reload_with_id|done|by apply reload_with_id]. Qed.

(** ** where *)

Lemma where_params_run rt options h :
  nullish options = false →
  Document.where_params rt options h =
  let params :=
    Document.append_if h "page" (get_own h options "page")
      (Document.append_if h "limit" (get_own h options "limit")
         (Document.append_all h "order" (get_own h options "order")
            (Document.append_all h "q" (get_own h options "q") []))) in
  if truthy (get_own h options "filter") then
    match JSON_stringify rt h (get_own h options "filter") with
    | Ret s => (Ret (append params "filter" s), h)
    | Throw e => (Throw e, h)
    end
  else (Ret params, h).
Proof.
  intros Hn. unfold Document.where_params. run.
  repeat (rewrite member_run, Hn). cbn zeta.
  destruct (truthy (get_own h options "filter")); [|done].
  by destruct (JSON_stringify _ _ _).
Qed.

Lemma foldl_append h name es params :
  foldl (λ ps e, append ps name (to_string h e)) params es
  = (params ++ ((λ e, (name, to_string h e)) <$> es))%list.
Proof.
  revert params. induction es as [|e es IH]; intros params; cbn.
  - by rewrite app_nil_r.
  - rewrite IH. unfold append. by rewrite <- app_assoc.
Qed.

Lemma append_all_list h name v ss params :
  string_list h v ss →
  Document.append_all h name v params
  = (params ++ ((λ s, (name, s)) <$> ss))%list.
Proof.
  intros [[-> ->]|[Ha Hs]]; unfold Document.append_all.
  - cbn. by rewrite app_nil_r.
  - assert (truthy v = true) as ->.
    { by destruct v. }
    unfold Document.each. rewrite Ha, Hs, foldl_append. f_equal.
    clear. induction ss as [|s ss IH]; [done|]. cbn.
    by rewrite IH, to_string_str.
Qed.

Lemma append_if_list h name v params :
  Document.append_if h name v params
  = (params ++ (if truthy v then [(name, to_string h v)] else []))%list.
Proof.
  unfold Document.append_if, append. destruct (truthy v); [done|].
  by rewrite app_nil_r.
Qed.

Lemma where_params_listed rt h options qs os fs :
  nullish options = false →
  string_list h (get_own h options "q") qs →
  string_list h (get_own h options "order") os →
  filter_param rt h (get_own h options "filter") fs →
  Document.where_params rt options h
  = (Ret (((λ s, ("q", s)) <$> qs) ++ ((λ s, ("order", s)) <$> os)
          ++ (if truthy (get_own h options "limit")
              then [("limit", to_string h (get_own h options "limit"))]
              else [])
          ++ (if truthy (get_own h options "page")
              then [("page", to_string h (get_own h options "page"))]
              else [])
          ++ fs)%list, h).
Proof.
  intros Hn Hq Ho Hf. rewrite where_params_run by done. cbn zeta.
  rewrite !append_if_list, (append_all_list _ _ _ os) by done.
  rewrite (append_all_list _ _ _ qs) by done. cbn [app].
  destruct Hf as [[-> ->]|(l & s & -> & Hs & ->)]; cbn [truthy].
  - by rewrite !app_nil_r, <- !app_assoc.
  - rewrite Hs. unfold append. by rewrite <- !app_assoc.
Qed.

(** [where] logs its one request, whatever comes back. *)
Lemma where_sent rt coll client options w params :
  nullish options = false →
  Document.where_params rt options (store w) = (Ret params, store w) →
  sent (Document.where_ rt (Document.CollectionDocument coll client)
          options w).2
  = (sent w ++ [outgoing (S5Client.axios client) GET
                  ("/" +:+ to_string (store w) (S5Client.collection client)
                   +:+ "?" +:+ params_toString params) None (store w)])%list.
Proof.
  intros Hn Hp. unfold Document.where_.
  cbn [Document.static_client Document.axios_of Document.collection_of].
  assert (default_object options = mret options) as -> by by destruct options.
  run. rewrite Hp. cbn [fst snd store sent].
  rewrite axios_request_run.
  destruct (transport _ _ _) as [st body|msg]; [|done].
  destruct (in_2xx st); [|done]. cbn [fst snd store sent resp_data].
  repeat (match goal with
          | |- context [member ?v ?k ?h] =>
              destruct (member v k h) as [[?|?] ?]
          | |- context [Document.array_map ?v ?f ?h] =>
              destruct (Document.array_map v f h) as [[?|?] ?]
          end; cbn [fst snd store sent]; try done).
Qed.

Lemma where_without_options rt cls w :
  Document.where_ rt cls VUndef w
  = Document.where_ rt cls (VRef (fresh (dom (store w))))
      (World (<[fresh (dom (store w)) := empty_object]> (store w)) (sent w)).
Proof. done. Qed.

(** C3, as the code has it.  [where(options)] builds its query from the
    options in this order: one [q] parameter for each string of the [q]
    list, literally and in order; one [order] parameter for each entry of
    the [order] list, in order; [limit] and [page] as their string form
    when they are truthy (a [limit] or [page] of [0] is left out); one
    [filter] parameter holding the JSON text of the filter object.  The
    request is a GET for [/{collection}?<query>]; without options the
    query string is empty. *)
Theorem where_query rt coll client options w qs os fs :
  plain_object (store w) options →
  string_list (store w) (get_own (store w) options "q") qs →
  string_list (store w) (get_own (store w) options "order") os →
  filter_param rt (store w) (get_own (store w) options "filter") fs →
  let h := store w in
  let cls := Document.CollectionDocument coll client in
  let limit := get_own h options "limit" in
  let page := get_own h options "page" in
  let params :=
    (((λ s, ("q", s)) <$> qs) ++ ((λ s, ("order", s)) <$> os)
     ++ (if truthy limit then [("limit", to_string h limit)] else [])
     ++ (if truthy page then [("page", to_string h page)] else [])
     ++ fs)%list in
  Document.where_params rt options h = (Ret params, h)
  ∧ sent (Document.where_ rt cls options w).2
    = (sent w ++ [outgoing (S5Client.axios client) GET
                    ("/" +:+ to_string h (S5Client.collection client)
                     +:+ "?" +:+ params_toString params) None h])%list
  ∧ params_toString [] = EmptyString
  ∧ sent (Document.where_ rt cls VUndef w).2
    = (sent w ++ [outgoing (S5Client.axios client) GET
                    ("/" +:+ to_string (defaulted VUndef h).2
                               (S5Client.collection client)
                     +:+ "?" +:+ EmptyString) None
                    (defaulted VUndef h).2])%list.
Proof.
  intros Hplain Hq Ho Hf h cls limit page params.
  assert (nullish options = false) as Hn
    by (by destruct Hplain as (l & o & -> & _)).
  assert (Document.where_params rt options h = (Ret params, h)) as Hp
    by by apply where_params_listed.
  split_and!; [done|by apply where_sent|done|].
  subst cls. rewrite where_without_options.
  rewrite (where_sent _ _ _ _ _ []); [done|done|].
  rewrite where_params_run by done. cbn [store].
  by rewrite !get_own_empty.
Qed.

(** [where({ q: ['eq(status,"active")'], order: ['-name'], limit: 10 })] *)
Lemma where_query_witness :
  plain_object Sample.store_query (VRef 1%positive)
  ∧ string_list Sample.store_query
      (get_own Sample.store_query (VRef 1%positive) "q") [Sample.active]
  ∧ string_list Sample.store_query
      (get_own Sample.store_query (VRef 1%positive) "order") ["-name"]
  ∧ filter_param Sample.unreachable Sample.store_query
      (get_own Sample.store_query (VRef 1%positive) "filter") []
  ∧ Document.where_params Sample.unreachable (VRef 1%positive)
      Sample.store_query
    = (Ret [("q", Sample.active); ("order", "-name"); ("limit", "10")],
       Sample.store_query)
  ∧ req_url ∘ wire_request <$>
      sent (Document.where_ Sample.unreachable Sample.Users
              (VRef 1%positive) (World Sample.store_query [])).2
    = ["/users?q=eq%28status%2C%22active%22%29&order=-name&limit=10"].
Proof.
  assert (plain_object Sample.store_query (VRef 1%positive)) as Hp
    by (eexists _, _; split_and!; reflexivity).
  assert (string_list Sample.store_query
            (get_own Sample.store_query (VRef 1%positive) "q")
            [Sample.active]) as Hq by (right; split; reflexivity).
  assert (string_list Sample.store_query
            (get_own Sample.store_query (VRef 1%positive) "order")
            ["-name"]) as Ho by (right; split; reflexivity).
  assert (filter_param Sample.unreachable Sample.store_query
            (get_own Sample.store_query (VRef 1%positive) "filter") [])
    as Hf by (left; split; reflexivity).
  pose proof (where_query Sample.unreachable (VStr "users") Sample.client
                (VRef 1%positive) (World Sample.store_query [])
                [Sample.active] ["-name"] [] Hp Hq Ho Hf)
    as (Hparams & Hsent & _).
  split_and!; [exact Hp|exact Hq|exact Ho|exact Hf|exact Hparams|].
  unfold Sample.Users, Document.createCollection. rewrite Hsent.
  vm_compute. reflexivity.
Defined.

(** [where({ limit: 0 })]: a limit is supplied and no [limit] parameter is
    sent. *)
Lemma where_zero_limit_counterexample :
  get_own Sample.store_limit0 (VRef 1%positive) "limit" = VNum 0
  ∧ Document.where_params Sample.unreachable (VRef 1%positive)
      Sample.store_limit0
    = (Ret [], Sample.store_limit0)
  ∧ req_url ∘ wire_request <$>
      sent (Document.where_ Sample.unreachable Sample.Users
              (VRef 1%positive) (World Sample.store_limit0 [])).2
    = ["/users?"].
Proof. split_and!; vm_compute; reflexivity. Qed.

(** ** first and count *)

Lemma default_object_run options h :
  default_object options h
  = (Ret (defaulted options h).1, (defaulted options h).2).
Proof. by destruct options. Qed.

Lemma count_run rt cls options w :
  Document.count rt cls options w =
  let asked := Document.where_ rt cls (VRef (limited options (store w)).1)
                 (World (limited options (store w)).2 (sent w)) in
  (match asked.1 with
   | Ret res => Ret (length (Document.documents res))
   | Throw e => Throw e
   end, asked.2).
Proof.
  unfold Document.count, Document.with_limit_1, limited. run.
  rewrite default_object_run. destruct (defaulted options (store w)) as [o h0].
  cbn [fst snd store sent]. unfold new_object, alloc. cbn [fst snd store sent].
  destruct (Document.where_ _ _ _ _) as [[res|e] w']; done.
Qed.

Lemma first_run rt cls options w :
  Document.first rt cls options w =
  let asked := Document.where_ rt cls (VRef (limited options (store w)).1)
                 (World (limited options (store w)).2 (sent w)) in
  (match asked.1 with
   | Ret res => Ret (first_of (Document.documents res))
   | Throw e => Throw e
   end, asked.2).
Proof.
  unfold Document.first, Document.with_limit_1, limited. run.
  rewrite default_object_run. destruct (defaulted options (store w)) as [o h0].
  cbn [fst snd store sent]. unfold new_object, alloc. cbn [fst snd store sent].
  destruct (Document.where_ _ _ _ _) as [[res|e] w']; [|done].
  cbn [fst snd]. by destruct (Document.documents res) as [|[d|] ds].
Qed.

Lemma map_slots_length {A} (f : value → M heap A) ss h rs h' :
  Document.map_slots f ss h = (Ret rs, h') → length rs = length ss.
Proof.
  revert h rs h'. induction ss as [|[v|] ss IH]; intros h rs h'; cbn; run.
  - by intros [= <- _].
  - destruct (f v h) as [[a|e] h1]; [|done].
    destruct (Document.map_slots f ss h1) as [[rs'|e] h2] eqn:Hr; [|done].
    intros [= <- _]. cbn. f_equal. by eapply IH.
  - destruct (Document.map_slots f ss h) as [[rs'|e] h2] eqn:Hr; [|done].
    intros [= <- _]. cbn. f_equal. by eapply IH.
Qed.

Lemma where_params_store rt options h r h' :
  Document.where_params rt options h = (r, h') → h' = h.
Proof.
  destruct (nullish options) eqn:Hn.
  - unfold Document.where_params. run. rewrite member_run, Hn. naive_solver.
  - rewrite where_params_run by done. cbn zeta.
    repeat case_match; naive_solver.
Qed.

(** What a returning [where] has seen: a 2xx answer whose
    [data.data] is an array with one slot for each Document. *)
Lemma where_returns rt coll client options w res w' :
  nullish options = false →
  Document.where_ rt (Document.CollectionDocument coll client) options w
    = (Ret res, w') →
  ∃ params st body,
    Document.where_params rt options (store w) = (Ret params, store w)
    ∧ transport rt (sent w)
        (outgoing (S5Client.axios client) GET
           ("/" +:+ to_string (store w) (S5Client.collection client)
            +:+ "?" +:+ params_toString params) None (store w))
      = NetResponse st body
    ∧ in_2xx st = true
    ∧ length (Document.documents res)
      = length (array_slots (parse_json body (store w)).2
                  (get_own (parse_json body (store w)).2
                     (get_own (parse_json body (store w)).2
                        (parse_json body (store w)).1 "data") "data")).
Proof.
  intros Hn. unfold Document.where_.
  cbn [Document.static_client Document.axios_of Document.collection_of].
  assert (default_object options = mret options) as -> by by destruct options.
  run.
  destruct (Document.where_params rt options (store w)) as [[params|e] h0]
    eqn:Hp; [|done].
  pose proof (where_params_store _ _ _ _ _ Hp) as ->.
  cbn [fst snd store sent]. rewrite axios_request_run.
  destruct (transport _ _ _) as [st body|msg] eqn:Hnet; [|done].
  destruct (in_2xx st) eqn:Hst; [|done]. cbn [fst snd store sent resp_data].
  destruct (member _ "data" _) as [[payload|e] h1] eqn:Hm1; [|done].
  apply member_returns in Hm1 as (_ & -> & ->). cbn [fst snd store sent].
  destruct (member _ "data" _) as [[rows|e] h1] eqn:Hm2; [|done].
  apply member_returns in Hm2 as (_ & -> & ->). cbn [fst snd store sent].
  destruct (Document.array_map _ _ _) as [[docs|e] h1] eqn:Hmap; [|done].
  cbn [fst snd store sent].
  destruct (member _ "pagination" _) as [[pg|e] h2] eqn:Hm3;
    cbn [fst snd store sent]; [|done].
  intros [= <- _].
  exists params, st, body. split_and!; [done..|]. cbn [Document.documents].
  unfold Document.array_map in Hmap.
  destruct (nullish (get_own _ (get_own _ _ _) _)); [done|].
  destruct (is_array _ _); [|done].
  by apply map_slots_length in Hmap.
Qed.

(** A 2xx answer with rows, none of them [null], makes [where] return one
    Document for each row. *)
Lemma where_on_rows rt coll client options w params st body rows :
  nullish options = false →
  Document.where_params rt options (store w) = (Ret params, store w) →
  transport rt (sent w)
    (outgoing (S5Client.axios client) GET
       ("/" +:+ to_string (store w) (S5Client.collection client)
        +:+ "?" +:+ params_toString params) None (store w))
  = NetResponse st body →
  in_2xx st = true →
  answer_rows body = Some rows →
  Forall (λ j, j ≠ JNull) rows →
  ∃ docs pages w',
    Document.where_ rt (Document.CollectionDocument coll client) options w
    = (Ret (Document.Result (Some <$> docs) pages), w')
    ∧ length docs = length rows.
Proof.
  intros Hn Hp Hnet Hst Hrows Hnot. unfold Document.where_.
  cbn [Document.static_client Document.axios_of Document.collection_of].
  assert (default_object options = mret options) as -> by by destruct options.
  run. rewrite Hp. cbn [fst snd store sent].
  rewrite axios_request_run. cbn [fst snd store sent].
  rewrite Hnet, Hst. cbn [fst snd store sent resp_data].
  destruct body as [ | | | | |top]; try done. cbn [answer_rows] in Hrows.
  destruct (json_field top "data") as [[ | | | | |inner]|] eqn:Htop; try done.
  destruct (json_field inner "data") as [[ | | | |items| ]|] eqn:Hin;
    try done.
  injection Hrows as ->.
  pose proof (parse_json_represents (JObj top) (store w)) as Hv.
  destruct (answer_record _ _ _ _ Hv Htop) as [Hm Hpay]. rewrite Hm.
  cbn [fst snd store sent].
  pose proof (get_own_field _ _ _ "data" Hpay) as Hr.
  unfold field_is in Hr. rewrite Hin in Hr.
  rewrite member_run, (represents_object_not_nullish _ _ _ Hpay).
  cbn [fst snd store sent].
  destruct (represents_array _ _ _ Hr) as (vs & Harr & Hslots & Hall).
  destruct (map_slots_rows _ (Some client) _ _ Hall Hnot)
    as (docs & Hdocs & Hlen).
  unfold Document.array_map. rewrite Harr, Hslots, Hdocs.
  assert (nullish (get_own (parse_json (JObj top) (store w)).2
                     (get_own (parse_json (JObj top) (store w)).2
                        (parse_json (JObj top) (store w)).1 "data") "data")
          = false) as ->.
  { destruct Hr as (l & vs' & -> & _). done. }
  cbn [fst snd store sent].
  rewrite member_run, (represents_object_not_nullish _ _ _ Hpay).
  cbn [fst snd store sent]. eauto.
Qed.

Lemma append_all_entries h name v params :
  Document.append_all h name v params
  = (params ++ ((λ e, (name, to_string h e)) <$>
                (if truthy v then Document.each h v else [])))%list.
Proof.
  unfold Document.append_all. destruct (truthy v).
  - apply foldl_append.
  - by rewrite app_nil_r.
Qed.

Lemma filter_other_name {A} name (g : A → string) (es : list A) :
  name ≠ "limit" →
  filter (λ p : string * string, p.1 = "limit") ((λ e, (name, g e)) <$> es)
  = [].
Proof.
  intros Hne. induction es as [|e es IH]; [done|].
  rewrite fmap_cons, filter_cons. cbn [fst]. by case_decide.
Qed.

Lemma limited_lookup options h :
  (limited options h).2 !! (limited options h).1
  = Some (Obj None (<["limit" := VNum 1]>
                      (own_props (defaulted options h).2
                                 (defaulted options h).1))).
Proof.
  unfold limited. destruct (defaulted options h) as [o h0]. cbn.
  apply lookup_insert_eq.
Qed.

(** The parameters come in a fixed order of names. *)
Lemma where_params_shape rt options h params :
  nullish options = false →
  Document.where_params rt options h = (Ret params, h) →
  ∃ (qs os : list string) (fs : URLSearchParams),
    params
    = (((λ s, ("q", s)) <$> qs) ++ ((λ s, ("order", s)) <$> os)
       ++ (if truthy (get_own h options "limit")
           then [("limit", to_string h (get_own h options "limit"))]
           else [])
       ++ (if truthy (get_own h options "page")
           then [("page", to_string h (get_own h options "page"))]
           else [])
       ++ fs)%list
    ∧ (fs = [] ∨ ∃ s, fs = [("filter", s)]).
Proof.
  intros Hn. rewrite where_params_run by done. cbn zeta.
  rewrite !append_if_list, !append_all_entries. cbn [app]. intros Hp.
  exists (to_string h <$> (if truthy (get_own h options "q")
                           then Document.each h (get_own h options "q")
                           else [])),
         (to_string h <$> (if truthy (get_own h options "order")
                           then Document.each h (get_own h options "order")
                           else [])).
  rewrite <- !list_fmap_compose.
  destruct (truthy (get_own h options "filter")).
  - destruct (JSON_stringify _ _ _) as [s|e]; [|done].
    injection Hp as <-. exists [("filter", s)]. split; [|eauto].
    unfold append. by rewrite <- !app_assoc.
  - injection Hp as <-. exists []. split; [|eauto].
    by rewrite <- !app_assoc, app_nil_r.
Qed.

Lemma limited_params rt options h params :
  Document.where_params rt (VRef (limited options h).1) (limited options h).2
    = (Ret params, (limited options h).2) →
  filter (λ p : string * string, p.1 = "limit") params = [("limit", "1")].
Proof.
  intros Hp. apply where_params_shape in Hp as (qs & os & fs & -> & Hfs);
    [|done].
  rewrite (get_own_plain _ _ _ "limit" (limited_lookup options h)) by done.
  cbn [props]. rewrite lookup_insert_eq.
  cbn [default from_option id truthy Z.eqb negb].
  rewrite !filter_app, !filter_other_name by done. cbn [app].
  rewrite filter_cons. cbn [fst]. rewrite decide_True by done.
  rewrite filter_nil. cbn [app]. f_equal.
  assert (filter (λ p : string * string, p.1 = "limit") fs = []) as ->.
  { by destruct Hfs as [->|[s ->]]. }
  rewrite app_nil_r. by destruct (truthy _).
Qed.

(** C6, as the code has it.  [count(options)] and [first(options)] both
    call [where] with a copy of the options in which [limit] is 1, so the
    query carries [limit=1] whatever the caller gave.  [count] returns the
    length of the Document array of that call, which is the number of rows
    in the server's answer (0 or 1 when the server returns no more rows
    than asked; it is never a total); [first] returns the first Document of
    the array, and [null] when the array is empty. *)
Theorem count_first_limited rt coll client options w :
  let cls := Document.CollectionDocument coll client in
  let place := (limited options (store w)).1 in
  let h := (limited options (store w)).2 in
  let asked := Document.where_ rt cls (VRef place) (World h (sent w)) in
  let query params :=
    outgoing (S5Client.axios client) GET
      ("/" +:+ to_string h (S5Client.collection client)
       +:+ "?" +:+ params_toString params) None h in
  h !! place
  = Some (Obj None (<["limit" := VNum 1]>
                      (own_props (defaulted options (store w)).2
                                 (defaulted options (store w)).1)))
  ∧ (∀ params, Document.where_params rt (VRef place) h = (Ret params, h) →
       filter (λ p : string * string, p.1 = "limit") params
       = [("limit", "1")])
  ∧ Document.count rt cls options w
    = (match asked.1 with
       | Ret res => Ret (length (Document.documents res))
       | Throw e => Throw e
       end, asked.2)
  ∧ Document.first rt cls options w
    = (match asked.1 with
       | Ret res => Ret (first_of (Document.documents res))
       | Throw e => Throw e
       end, asked.2)
  ∧ (∀ n, (Document.count rt cls options w).1 = Ret n →
       ∃ params st body,
         transport rt (sent w) (query params) = NetResponse st body
         ∧ in_2xx st = true
         ∧ n = length (array_slots (parse_json body h).2
                         (get_own (parse_json body h).2
                            (get_own (parse_json body h).2
                               (parse_json body h).1 "data") "data")))
  ∧ (∀ params st body rows,
       Document.where_params rt (VRef place) h = (Ret params, h) →
       transport rt (sent w) (query params) = NetResponse st body →
       in_2xx st = true →
       answer_rows body = Some rows →
       Forall (λ j, j ≠ JNull) rows →
       ∃ docs, length docs = length rows
         ∧ (Document.count rt cls options w).1 = Ret (length rows)
         ∧ (Document.first rt cls options w).1
           = Ret (match docs with [] => Null | d :: _ => Of d end)).
Proof.
  intros cls place h asked query. split_and!.
  - apply limited_lookup.
  - apply limited_params.
  - apply count_run.
  - apply first_run.
  - intros n. rewrite count_run. cbn zeta. fold place h asked. cbn [fst].
    destruct asked as [[res|e] w'] eqn:Ha; [|done]. cbn [fst].
    intros [= <-].
    apply where_returns in Ha as (params & st & body & _ & Hnet & Hst & Hlen);
      [|done].
    exists params, st, body. by rewrite Hlen.
  - intros params st body rows Hp Hnet Hst Hrows Hnot.
    destruct (where_on_rows rt coll client (VRef place) (World h (sent w))
                params st body rows eq_refl Hp Hnet Hst Hrows Hnot)
      as (docs & pages & w' & Hw & Hlen).
    exists docs. rewrite count_run, first_run. cbn zeta.
    subst cls place h. rewrite Hw. cbn [fst Document.documents].
    rewrite length_fmap. split_and!; [done|by rewrite Hlen|].
    by destruct docs.
Qed.

Lemma count_first_limited_witness :
  Document.where_params Sample.unreachable
    (VRef (limited (VRef 1%positive) Sample.store_limit0).1)
    (limited (VRef 1%positive) Sample.store_limit0).2
  = (Ret [("limit", "1")], (limited (VRef 1%positive) Sample.store_limit0).2)
  ∧ filter (λ p : string * string, p.1 = "limit") [("limit", "1")]
    = [("limit", "1")].
Proof.
  assert (Document.where_params Sample.unreachable
            (VRef (limited (VRef 1%positive) Sample.store_limit0).1)
            (limited (VRef 1%positive) Sample.store_limit0).2
          = (Ret [("limit", "1")],
             (limited (VRef 1%positive) Sample.store_limit0).2)) as Hp
    by (vm_compute; reflexivity).
  split; [exact Hp|].
  exact (proj1 (proj2 (count_first_limited Sample.unreachable (VStr "users")
                         Sample.client (VRef 1%positive)
                         (World Sample.store_limit0 [])))
           [("limit", "1")] Hp).
Defined.

(** The server answers the [limit=1] query with two rows: [count] is 2. *)
Lemma count_two_rows_counterexample :
  (Document.count (Sample.answering 200 Sample.two_rows) Sample.Users VUndef
     Sample.world_a1).1 = Ret 2%nat
  ∧ req_url ∘ wire_request <$>
      sent (Document.count (Sample.answering 200 Sample.two_rows)
              Sample.Users VUndef Sample.world_a1).2
    = ["/users?limit=1"].
Proof. split; vm_compute; reflexivity. Qed.

(** ** Dot paths *)

Lemma split_dot_nonempty path : split_dot path ≠ [].
Proof.
  destruct path as [|a r]; [done|]. cbn. case_bool_decide; [done|].
  by destruct (split_dot r).
Qed.

Lemma removelast_last (ks : list string) d :
  ks ≠ [] → ks = (removelast ks ++ [default d (last ks)])%list.
Proof.
  induction ks as [|k [|k' ks] IH]; [done|done|]. intros _.
  assert (k' :: ks ≠ []) as Hne by done.
  specialize (IH Hne). cbn [removelast app]. f_equal.
  rewrite last_cons_cons. exact IH.
Qed.

Lemma mapping_path_inv h seen cur keys :
  mapping_path h seen cur keys = true →
  ∃ l o, cur = VRef l ∧ h !! l = Some o ∧ arr_len o = None ∧ (l ∉ seen)
    ∧ match keys with
      | [] => True
      | k :: ks =>
          match props o !! k with
          | Some next => mapping_path h (l :: seen) next ks = true
          | None => True
          end
      end.
Proof.
  intros Hp.
  assert (∃ l, cur = VRef l) as [l ->]
    by (destruct cur; destruct keys; try done; eauto).
  assert (∃ o, h !! l = Some o) as [o Hl]
    by (destruct keys; cbn in Hp; destruct (h !! l); try done; eauto).
  exists l, o.
  destruct keys as [|k ks]; cbn in Hp; rewrite Hl in Hp;
    rewrite !andb_true_iff, !bool_decide_eq_true in Hp;
    destruct Hp as [[Ha Hs] Hk]; split_and!; try done.
  by destruct (props o !! k).
Qed.

Lemma mapping_path_fresh h seen l keys :
  h !! l = Some empty_object → l ∉ seen →
  mapping_path h seen (VRef l) keys = true.
Proof.
  intros Hl Hs. destruct keys as [|k ks]; cbn; rewrite Hl; cbn;
    rewrite !andb_true_iff, !bool_decide_eq_true; by split_and!.
Qed.

(** *** Own keys *)

Lemma own_plain o k : arr_len o = None → own o k = props o !! k.
Proof. intros Ha. unfold own. by rewrite Ha. Qed.

Lemma inherited_plain o k :
  arr_len o = None → inherited o k = bool_decide (k ∈ inherited_keys).
Proof.
  intros Ha. unfold inherited. rewrite Ha.
  rewrite (bool_decide_eq_false_2 (is_Some None)) by (by intros [? ?]).
  by rewrite orb_false_r.
Qed.

Lemma get_own_own h l o k :
  h !! l = Some o → get_own h (VRef l) k = default VUndef (own o k).
Proof.
  intros Hl. unfold get_own, own. rewrite Hl.
  destruct (arr_len o); [|done]. by case_bool_decide.
Qed.

Lemma has_property_own h l o k :
  h !! l = Some o →
  has_property k (VRef l) h
  = (Ret (bool_decide (is_Some (own o k)) || inherited o k), h).
Proof.
  intros Hl. unfold has_property. rewrite Hl.
  assert (bool_decide (is_Some (props o !! k))
          || bool_decide (is_Some (arr_len o)) && bool_decide (k = "length")
          = bool_decide (is_Some (own o k))) as ->; [|done].
  unfold own. destruct (arr_len o) as [n|].
  - rewrite (bool_decide_eq_true_2 (is_Some (Some n))) by eauto.
    cbn [andb]. destruct (decide (k = "length")) as [->|Hne].
    + rewrite !(bool_decide_eq_true_2 ("length" = "length")) by done.
      rewrite orb_true_r. symmetry. apply bool_decide_eq_true_2. eauto.
    + rewrite !(bool_decide_eq_false_2 (k = "length")) by done.
      by rewrite orb_false_r.
  - rewrite (bool_decide_eq_false_2 (is_Some None)) by (by intros [? ?]).
    cbn [andb]. by rewrite orb_false_r.
Qed.

Lemma has_property_plain h l o k :
  h !! l = Some o → arr_len o = None → k ∉ inherited_keys →
  has_property k (VRef l) h = (Ret (bool_decide (is_Some (props o !! k))), h).
Proof.
  intros Hl Ha Hk. rewrite (has_property_own _ _ _ _ Hl).
  rewrite own_plain, inherited_plain by done.
  rewrite (bool_decide_eq_false_2 (k ∈ inherited_keys)) by done.
  by rewrite orb_false_r.
Qed.

(** An assignment that goes to the object itself. *)
Lemma set_member_object h l o k x o' :
  h !! l = Some o →
  k ≠ "__proto__" ∨ is_Some (props o !! k) →
  write_prop o k x = Some o' →
  set_member (VRef l) k x h = (Ret (), <[l := o']> h).
Proof.
  intros Hl Hk Hw. unfold set_member. rewrite Hl, Hw.
  destruct Hk as [Hk|Hk].
  - by rewrite (bool_decide_eq_false_2 (k = "__proto__")) by done.
  - rewrite (bool_decide_eq_true_2 (is_Some (props o !! k))) by done.
    by rewrite andb_false_r.
Qed.

Lemma set_member_plain h l o k x :
  h !! l = Some o → arr_len o = None → k ≠ "__proto__" →
  set_member (VRef l) k x h
  = (Ret (), <[l := Obj None (<[k := x]> (props o))]> h).
Proof.
  intros Hl Ha Hk. apply (set_member_object _ _ o); [done|by left|].
  unfold write_prop. by rewrite Ha.
Qed.

(** A key other than the [length] of an array is written as it is. *)
Lemma write_prop_key o k x :
  own o k = None ∨ k ≠ "length" ∨ arr_len o = None →
  ∃ o', write_prop o k x = Some o' ∧ own o' k = Some x
        ∧ (arr_len o = None → o' = Obj None (<[k := x]> (props o))).
Proof.
  intros Hk. destruct (arr_len o) as [n|] eqn:Ha.
  - assert (k ≠ "length") as Hne.
    { destruct Hk as [Hk|[Hk|Hk]]; [|done|done].
      intros ->. unfold own in Hk. rewrite Ha in Hk.
      by rewrite bool_decide_eq_true_2 in Hk. }
    assert (∀ m, own (Obj (Some m) (<[k := x]> (props o))) k = Some x)
      as Hown.
    { intros m. unfold own. cbn [arr_len props].
      rewrite (bool_decide_eq_false_2 (k = "length")) by done.
      apply lookup_insert_eq. }
    unfold write_prop. rewrite Ha.
    rewrite (bool_decide_eq_false_2 (k = "length")) by done.
    destruct (array_index k); eexists; split_and!; done.
  - unfold write_prop. rewrite Ha. eexists. split_and!; [done| |done].
    unfold own. cbn [arr_len props]. apply lookup_insert_eq.
Qed.

(** The final assignment, where [last_ok] allows it. *)
Lemma write_prop_last o k x :
  last_ok o k x = true →
  (k ≠ "__proto__" ∨ is_Some (props o !! k))
  ∧ ∃ o', write_prop o k x = Some o' ∧ own o' k = Some x.
Proof.
  unfold last_ok.
  intros [Hp Hlen]%andb_true_iff. split.
  - apply orb_true_iff in Hp as [Hp|Hp].
    + left. apply negb_true_iff in Hp. by apply bool_decide_eq_false in Hp.
    + right. by apply bool_decide_eq_true in Hp.
  - destruct (arr_len o) as [n|] eqn:Ha.
    + case_bool_decide as Hk.
      * subst k. destruct x as [| | |z| |]; try done.
        apply andb_true_iff in Hlen as [H0 H1].
        unfold write_prop, own. rewrite Ha. cbn [bool_decide decide_rel].
        rewrite H0, H1. cbn [andb]. eexists. split; [done|].
        cbn [arr_len]. cbn. f_equal. f_equal. apply Z2Nat.id.
        by apply Z.leb_le.
      * destruct (write_prop_key o k x) as (o' & Hw & Ho & _); [by eauto|].
        eauto.
    + destruct (write_prop_key o k x) as (o' & Hw & Ho & _); [by eauto|].
      eauto.
Qed.

Lemma descend_own h l o k next :
  h !! l = Some o → own o k = Some next →
  Document.descend (VRef l) k h = (Ret next, h).
Proof.
  intros Hl Hk. unfold Document.descend. run.
  rewrite (has_property_own _ _ _ _ Hl), Hk.
  rewrite bool_decide_eq_true_2 by eauto. cbn [orb negb].
  rewrite member_run. cbn [nullish].
  by rewrite (get_own_own _ _ _ _ Hl), Hk.
Qed.

Lemma descend_present h l o k next :
  h !! l = Some o → arr_len o = None → props o !! k = Some next →
  Document.descend (VRef l) k h = (Ret next, h).
Proof.
  intros Hl Ha Hk. apply (descend_own _ _ o); [done|].
  by rewrite own_plain.
Qed.

(** A key that is not there, and is no inherited name, is created. *)
Lemma descend_created h l o k :
  h !! l = Some o → own o k = None → inherited o k = false →
  ∃ o', write_prop o k (VRef (fresh (dom h))) = Some o'
      ∧ own o' k = Some (VRef (fresh (dom h)))
      ∧ (arr_len o = None
         → o' = Obj None (<[k := VRef (fresh (dom h))]> (props o)))
      ∧ Document.descend (VRef l) k h
        = (Ret (VRef (fresh (dom h))),
           <[l := o']> (<[fresh (dom h) := empty_object]> h)).
Proof.
  intros Hl Hk Hi.
  destruct (write_prop_key o k (VRef (fresh (dom h)))) as (o' & Hw & Ho & Hp);
    [by left|].
  exists o'. split_and!; [done..|].
  unfold Document.descend. run.
  rewrite (has_property_own _ _ _ _ Hl), Hk, Hi.
  rewrite bool_decide_eq_false_2 by (by intros [? ?]). cbn [orb negb].
  unfold new_object, alloc. cbn [fst snd].
  assert (h !! fresh (dom h) = None) as Hf by apply not_elem_of_dom, is_fresh.
  assert (l ≠ fresh (dom h)) as Hlf by (intros Heq; by rewrite <- Heq, Hl in Hf).
  assert (k ≠ "__proto__") as Hne.
  { intros ->. unfold inherited in Hi. by cbn in Hi. }
  erewrite set_member_object; [|by rewrite lookup_insert_ne|by left|done].
  rewrite member_run. cbn [nullish].
  erewrite get_own_own; [|apply lookup_insert_eq]. by rewrite Ho.
Qed.

Lemma descend_missing h l o k :
  h !! l = Some o → arr_len o = None → props o !! k = None →
  k ∉ inherited_keys →
  Document.descend (VRef l) k h
  = (Ret (VRef (fresh (dom h))),
     <[l := Obj None (<[k := VRef (fresh (dom h))]> (props o))]>
       (<[fresh (dom h) := empty_object]> h)).
Proof.
  intros Hl Ha Hk Hn.
  destruct (descend_created h l o k Hl) as (o' & _ & _ & Ho' & Hrun).
  - by rewrite own_plain.
  - rewrite inherited_plain by done. by apply bool_decide_eq_false_2.
  - by rewrite Hrun, (Ho' Ha).
Qed.

(** *** The walk of [setNestedValue] and the read of [getNestedValue] *)

Lemma fresh_ok_cons k ks lastKey :
  fresh_ok (k :: ks) lastKey = true →
  (k ∉ inherited_keys) ∧ fresh_ok ks lastKey = true.
Proof.
  unfold fresh_ok. cbn [forallb].
  intros [[Hk Hks]%andb_true_iff Hl]%andb_true_iff.
  apply negb_true_iff, bool_decide_eq_false in Hk.
  split; [done|]. by rewrite Hks, Hl.
Qed.

Lemma fresh_ok_last lastKey : fresh_ok [] lastKey = true → lastKey ≠ "__proto__".
Proof.
  unfold fresh_ok. cbn [forallb andb].
  intros Hl. apply negb_true_iff in Hl. by apply bool_decide_eq_false in Hl.
Qed.

Lemma settable_fresh h seen f ks lastKey x :
  h !! f = Some empty_object → f ∉ seen → fresh_ok ks lastKey = true →
  settable h seen (VRef f) ks lastKey x = true.
Proof.
  intros Hf Hs Hok. destruct ks as [|k ks]; cbn [settable]; rewrite Hf;
    rewrite bool_decide_eq_true_2 by done; cbn [andb].
  - apply fresh_ok_last in Hok. unfold last_ok. cbn [arr_len empty_object].
    by rewrite (bool_decide_eq_false_2 (lastKey = "__proto__")) by done.
  - apply fresh_ok_cons in Hok as [Hk Hks]. cbn [own empty_object arr_len props].
    rewrite lookup_empty, inherited_plain by done.
    by rewrite (bool_decide_eq_false_2 (k ∈ inherited_keys)) by done.
Qed.

Lemma mapping_path_settable keys : ∀ h seen cur lastKey x,
  mapping_path h seen cur keys = true → fresh_ok keys lastKey = true →
  settable h seen cur keys lastKey x = true.
Proof.
  induction keys as [|k ks IH]; intros h seen cur lastKey x Hpath Hok;
    apply mapping_path_inv in Hpath as (l & o & -> & Hl & Ha & Hs & Hk);
    cbn [settable]; rewrite Hl; rewrite bool_decide_eq_true_2 by done;
    cbn [andb].
  - apply fresh_ok_last in Hok. unfold last_ok. rewrite Ha.
    by rewrite (bool_decide_eq_false_2 (lastKey = "__proto__")) by done.
  - apply fresh_ok_cons in Hok as [Hn Hks]. rewrite own_plain by done.
    destruct (props o !! k) as [next|]; [by apply IH|].
    rewrite inherited_plain, Hks by done.
    by rewrite (bool_decide_eq_false_2 (k ∈ inherited_keys)) by done.
Qed.

Lemma walk_settable keys : ∀ h seen cur lastKey x,
  settable h seen cur keys lastKey x = true →
  (∀ l, l ∈ seen → is_Some (h !! l)) →
  ∃ h',
    (target ← reduce Document.descend keys cur; set_member target lastKey x) h
      = (Ret (), h')
    ∧ foldl (opt_get h') cur (keys ++ [lastKey]) = x
    ∧ (∀ l, l ∈ seen → h' !! l = h !! l)
    ∧ (∀ l, is_Some (h !! l) → is_Some (h' !! l)).
Proof.
  induction keys as [|k ks IH]; intros h seen cur lastKey x Hpath Hseen;
    (destruct cur as [| | | | |l]; try done); cbn [settable] in Hpath;
    (destruct (h !! l) as [o|] eqn:Hl; [|done]);
    apply andb_true_iff in Hpath as [Hs Hpath];
    apply bool_decide_eq_true in Hs.
  - apply write_prop_last in Hpath as (Hk & o' & Hw & Ho').
    cbn [reduce]. run. rewrite (set_member_object _ _ _ _ _ _ Hl Hk Hw).
    eexists. split_and!; [done| | |].
    + cbn. unfold opt_get. cbn [nullish].
      erewrite get_own_own; [|apply lookup_insert_eq]. by rewrite Ho'.
    + intros l' Hl'. apply lookup_insert_ne. by intros ->.
    + intros l' Hl'. destruct (decide (l = l')) as [->|Hne].
      * by rewrite lookup_insert_eq.
      * by rewrite lookup_insert_ne.
  - cbn [reduce]. run.
    destruct (own o k) as [next|] eqn:Hnext.
    + rewrite (descend_own _ _ _ _ _ Hl Hnext).
      destruct (IH h (l :: seen) next lastKey x Hpath)
        as (h' & Hrun & Hget & Hfr & Hdom).
      { intros l' [->|Hl']%elem_of_cons; eauto. }
      unfold mbind, M_bind in Hrun.
      exists h'. split_and!; [exact Hrun| | |done].
      * cbn [app foldl]. unfold opt_get at 2. cbn [nullish].
        assert (h' !! l = Some o) as Hl' by (rewrite Hfr; [done|set_solver]).
        by rewrite (get_own_own _ _ _ _ Hl'), Hnext.
      * intros l' Hl'. apply Hfr. set_solver.
    + apply andb_true_iff in Hpath as [Hi Hok]. apply negb_true_iff in Hi.
      destruct (descend_created h l o k Hl Hnext Hi)
        as (o' & _ & Ho' & _ & Hrun).
      rewrite Hrun. set (f := fresh (dom h)) in *.
      assert (h !! f = None) as Hf by apply not_elem_of_dom, is_fresh.
      assert (l ≠ f) as Hlf by (intros ->; by rewrite Hf in Hl).
      set (h2 := <[l := o']> (<[f := empty_object]> h)).
      assert (h2 !! l = Some o') as Hl2 by apply lookup_insert_eq.
      assert (h2 !! f = Some empty_object) as Hf2.
      { subst h2. rewrite lookup_insert_ne by done. apply lookup_insert_eq. }
      assert (∀ l', is_Some (h !! l') → is_Some (h2 !! l')) as Hgrow.
      { intros l' Hl'. subst h2.
        destruct (decide (l = l')) as [->|?];
          [rewrite lookup_insert_eq; eauto|].
        rewrite lookup_insert_ne by done.
        destruct (decide (f = l')) as [->|?];
          [rewrite lookup_insert_eq; eauto|].
        by rewrite lookup_insert_ne. }
      assert (f ∉ l :: seen) as Hfs.
      { intros [->|Hin]%elem_of_cons; [done|].
        apply Hseen in Hin as [? Hin]. by rewrite Hf in Hin. }
      destruct (IH h2 (l :: seen) (VRef f) lastKey x
                  (settable_fresh _ _ _ _ _ x Hf2 Hfs Hok))
        as (h' & Hrun' & Hget & Hfr & Hdom).
      { intros l' [->|Hl']%elem_of_cons; [by eauto|]. apply Hgrow. eauto. }
      unfold mbind, M_bind in Hrun'.
      exists h'. split_and!; [exact Hrun'| | |].
      * cbn [app foldl]. unfold opt_get at 2. cbn [nullish].
        assert (h' !! l = Some o') as Hl'
          by (rewrite Hfr; [done|set_solver]).
        by rewrite (get_own_own _ _ _ _ Hl'), Ho'.
      * intros l' Hl'. rewrite Hfr by set_solver. subst h2.
        rewrite lookup_insert_ne by (by intros ->).
        apply lookup_insert_ne. intros <-.
        apply Hseen in Hl' as [? Hl']. by rewrite Hf in Hl'.
      * intros l' Hl'. by apply Hdom, Hgrow.
Qed.

(** The same on plain objects, for keys that are no inherited names. *)
Lemma descend_then_set keys h seen cur lastKey x :
  mapping_path h seen cur keys = true →
  fresh_ok keys lastKey = true →
  (∀ l, l ∈ seen → is_Some (h !! l)) →
  ∃ h',
    (target ← reduce Document.descend keys cur; set_member target lastKey x) h
      = (Ret (), h')
    ∧ foldl (opt_get h') cur (keys ++ [lastKey]) = x
    ∧ (∀ l, l ∈ seen → h' !! l = h !! l)
    ∧ (∀ l, is_Some (h !! l) → is_Some (h' !! l)).
Proof.
  intros Hpath Hok. apply walk_settable. by apply mapping_path_settable.
Qed.

(** The keys of a path that has no inherited name in it. *)
Lemma fresh_ok_path path :
  Forall (λ k, k ∉ inherited_keys) (split_dot path) →
  fresh_ok (removelast (split_dot path))
    (default "undefined" (last (split_dot path))) = true.
Proof.
  rewrite (removelast_last (split_dot path) "undefined") at 1
    by apply split_dot_nonempty.
  intros [Hks Hl]%Forall_app. unfold fresh_ok. apply andb_true_iff. split.
  - apply forallb_forall. intros k Hk%list_elem_of_In.
    apply negb_true_iff, bool_decide_eq_false.
    by apply (proj1 (Forall_forall _ _) Hks).
  - apply negb_true_iff, bool_decide_eq_false. intros Heq.
    inversion Hl as [|? ? Hl' _]; subst. apply Hl'. rewrite Heq.
    by apply (bool_decide_unpack _).
Qed.

(** C2, as the code has it.  [set(p, v)] returns and a following [get(p)]
    returns [v], and nothing is sent, when
    - every level of the path below its last key that is already there is
      an object (a mapping or an array, not a primitive or [null]),
    - the path does not pass through the same object twice,
    - no key is looked up as an inherited member: a key below the last is
      an own key of its level or is not the name of a member the level
      inherits, and the last key is not [__proto__] unless that is an own
      key,
    - a [length] of an array is assigned a number that is a length.
    The levels that are not there yet are created as empty mappings. *)
Theorem set_then_get doc w path x :
  settable (store w) [] (Document.data doc) (removelast (split_dot path))
    (default "undefined" (last (split_dot path))) x = true →
  ∃ w', Document.set path x (doc, w) = (Ret (), (doc, w'))
      ∧ Document.get path (doc, w') = (Ret x, (doc, w'))
      ∧ sent w' = sent w.
Proof.
  intros Hpath.
  destruct (walk_settable _ (store w) [] (Document.data doc)
              (default "undefined" (last (split_dot path))) x Hpath)
    as (h' & Hrun & Hget & _ & _); [set_solver|].
  exists (World h' (sent w)). split_and!; [| |done].
  - unfold Document.set, Document.setNestedValue. run.
    unfold mbind, M_bind in Hrun. by rewrite Hrun.
  - unfold Document.get, Document.getNestedValue. cbn [fst snd store].
    rewrite (removelast_last (split_dot path) "undefined")
      by apply split_dot_nonempty.
    by rewrite Hget.
Qed.

(** On [{ a: 1 }] the path [x.y.z] creates two levels; on
    [{ items: [1, 2, 3] }] the path [items.1] goes through the array. *)
Lemma set_then_get_witness :
  (settable Sample.store_a1 [] (Document.data Sample.user)
     (removelast (split_dot "x.y.z"))
     (default "undefined" (last (split_dot "x.y.z"))) (VNum 2) = true
   ∧ ∃ w', Document.set "x.y.z" (VNum 2) (Sample.user, Sample.world_a1)
           = (Ret (), (Sample.user, w'))
         ∧ Document.get "x.y.z" (Sample.user, w')
           = (Ret (VNum 2), (Sample.user, w')))
  ∧ (settable Sample.store_items [] (Document.data Sample.user)
       (removelast (split_dot "items.1"))
       (default "undefined" (last (split_dot "items.1"))) (VNum 9) = true
     ∧ ∃ w', Document.set "items.1" (VNum 9)
               (Sample.user, World Sample.store_items [])
             = (Ret (), (Sample.user, w'))
           ∧ Document.get "items.1" (Sample.user, w')
             = (Ret (VNum 9), (Sample.user, w'))).
Proof.
  split; (split; [reflexivity|]).
  - destruct (set_then_get Sample.user Sample.world_a1 "x.y.z" (VNum 2)
                eq_refl) as (w' & Hset & Hget & _).
    exists w'. split; [exact Hset|exact Hget].
  - destruct (set_then_get Sample.user (World Sample.store_items [])
                "items.1" (VNum 9) eq_refl) as (w' & Hset & Hget & _).
    exists w'. split; [exact Hset|exact Hget].
Defined.

(** In [{ a: 1 }] the level [a] is a number: [set("a.b", 2)] throws, and
    [get("a.b")] is still [undefined]. *)
Lemma set_through_number_counterexample :
  (Document.set "a.b" (VNum 2) (Sample.user, Sample.world_a1)).1
  = Throw (TypeError "Cannot create property 'b' on number '1'")
  ∧ (Document.get "a.b"
       (Document.set "a.b" (VNum 2) (Sample.user, Sample.world_a1)).2).1
    = Ret VUndef.
Proof. split; vm_compute; reflexivity. Qed.

(** Why the path must not meet an object twice: in the cyclic store
    [o = { a: o }], [set("a.a", 5)] overwrites the link it came through. *)
Lemma set_through_cycle :
  let h : heap := <[1%positive := Obj None (<["a" := VRef 1%positive]> ∅)]> ∅ in
  (Document.set "a.a" (VNum 5) (Sample.user, World h [])).1 = Ret ()
  ∧ (Document.get "a.a"
       (Document.set "a.a" (VNum 5) (Sample.user, World h [])).2).1
    = Ret VUndef.
Proof. split; vm_compute; reflexivity. Qed.

(** Why a key below the last must not be looked up as an inherited
    member: [key in obj] finds the member, so no level is created and the
    walk goes on from the member itself.  The methods are functions, whose
    [name] is read-only; the prototype of [Object.prototype] is [null]. *)
Lemma set_through_inherited :
  Forall (λ k, k ≠ "__proto__" →
               set_is_refused Sample.user (k +:+ ".name") (VNum 5)
                 Sample.world_a1
               ∧ set_is_refused Sample.user ("x." +:+ k +:+ ".name")
                   (VNum 5) Sample.world_a1)
    inherited_keys
  ∧ Forall (λ k, set_is_refused Sample.user ("items." +:+ k +:+ ".name")
                   (VNum 5) (World Sample.store_items []))
      array_inherited_keys
  ∧ set_is_refused Sample.user "__proto__.__proto__.x" (VNum 5)
      Sample.world_a1.
Proof.
  assert (∀ path w,
    match (Document.set path (VNum 5) (Sample.user, w)).1 with
    | Throw e => exn_class e = TypeErrorC
    | _ => False
    end →
    (Document.get path (Document.set path (VNum 5) (Sample.user, w)).2).1
    ≠ Ret (VNum 5) →
    set_is_refused Sample.user path (VNum 5) w) as Hcheck.
  { intros path w Hset Hget. unfold set_is_refused.
    destruct (Document.set path (VNum 5) (Sample.user, w)).1 as [|e];
      [done|]. by exists e. }
  split_and!.
  - repeat first
      [ apply Forall_nil_2
      | apply Forall_cons; split;
        [intros Hk; try done; split; apply Hcheck; vm_compute; done|] ].
  - repeat first
      [ apply Forall_nil_2
      | apply Forall_cons; split; [apply Hcheck; vm_compute; done|] ].
  - apply Hcheck; vm_compute; done.
Qed.

(** Why the last key must not be an inherited [__proto__]: the assignment
    goes to the setter of [Object.prototype], which stores no property
    (and ignores a value that is not an object): [set] returns, nothing
    has changed, and [get] does not return the value.  The same on a level
    that [set] has just created. *)
Lemma set_proto_is_not_stored :
  Document.set "__proto__" (VNum 5) (Sample.user, Sample.world_a1)
  = (Ret (), (Sample.user, Sample.world_a1))
  ∧ (Document.get "__proto__" (Sample.user, Sample.world_a1)).1
    ≠ Ret (VNum 5)
  ∧ (Document.set "x.__proto__" (VNum 5) (Sample.user, Sample.world_a1)).1
    = Ret ()
  ∧ (Document.get "x.__proto__"
       (Document.set "x.__proto__" (VNum 5)
          (Sample.user, Sample.world_a1)).2).1
    ≠ Ret (VNum 5).
Proof. split_and!; vm_compute; done. Qed.

(** Why the [length] of an array takes a length only: on
    [{ items: [1, 2, 3] }], [set("items.length", -1)] throws a
    [RangeError] and the array keeps its three elements. *)
Lemma set_array_length_refused :
  (Document.set "items.length" (VNum (-1))
     (Sample.user, World Sample.store_items [])).1
  = Throw (RangeError "Invalid array length")
  ∧ (Document.get "items.length"
       (Document.set "items.length" (VNum (-1))
          (Sample.user, World Sample.store_items [])).2).1
    = Ret (VNum 3).
Proof. split; vm_compute; reflexivity. Qed.

(** An array is a level like any other: an element is replaced, one past
    the end is appended and moves [length], and [length] itself
    truncates. *)
Lemma set_on_array :
  let w := World Sample.store_items [] in
  let after path x := (Document.set path x (Sample.user, w)).2 in
  (Document.get "items.length" (after "items.1" (VNum 9))).1 = Ret (VNum 3)
  ∧ (Document.get "items.5" (after "items.5" (VNum 9))).1 = Ret (VNum 9)
  ∧ (Document.get "items.length" (after "items.5" (VNum 9))).1
    = Ret (VNum 6)
  ∧ (Document.get "items.length" (after "items.length" (VNum 1))).1
    = Ret (VNum 1)
  ∧ (Document.get "items.1" (after "items.length" (VNum 1))).1
    = Ret VUndef.
Proof. split_and!; vm_compute; reflexivity. Qed.
(** ** From the constructor to save *)

(** X1.  A Document made by [new CollectionDocument(input)] from an input
    object takes its [id] from the input's top level, so it is the input
    that decides what [save()] does: with a truthy [id] in the input the
    Document counts as persisted and [save()] sends a PUT to
    [/{collection}/{id}]; otherwise it sends a POST to [/{collection}].
    Either body is [{data, ttl_at}] with the data the constructor chose
    ([input.data || input]) and the input's [ttl_at]. *)
Theorem constructed_then_saved rt coll client input w :
  nullish input = false →
  let cls := Document.CollectionDocument coll client in
  let h := store w in
  ∃ doc,
    Document.new_in cls input h = (Ret doc, h)
    ∧ Document.persisted (doc, w)
      = (Ret (truthy (get_own h input "id")), (doc, w))
    ∧ sent (Document.save rt (doc, w)).2.2
      = (sent w ++
         [outgoing (S5Client.axios client)
            (if truthy (get_own h input "id") then PUT else POST)
            (if truthy (get_own h input "id")
             then "/" +:+ to_string h (S5Client.collection client) +:+ "/"
                  +:+ to_string h (get_own h input "id")
             else "/" +:+ to_string h (S5Client.collection client))
            (Some [("data", js_or (get_own h input "data") input);
                   ("ttl_at", get_own h input "ttl_at")]) h])%list.
Proof.
  intros Hn cls h. unfold Document.new_in. cbn [Document.static_client].
  rewrite new_run. eexists. split_and!.
  - by destruct input.
  - unfold Document.persisted. run. by destruct w.
  - unfold Document.save. run. cbn [Document.id].
    destruct (truthy (get_own h input "id")).
    + erewrite update_path_run; [|done..]. by rewrite settled_sent.
    + erewrite create_run; [|done..]. by rewrite settled_sent.
Qed.

(** The input [{ id: "a", data: { n: 3 } }] makes a persisted Document,
    and [save()] sends a PUT to [/users/a]. *)
Lemma constructed_then_saved_witness :
  nullish (VRef 1%positive) = false
  ∧ ∃ doc,
      Document.new_in Sample.Users (VRef 1%positive) Sample.store_record
      = (Ret doc, Sample.store_record)
      ∧ Document.persisted (doc, World Sample.store_record [])
        = (Ret true, (doc, World Sample.store_record []))
      ∧ wire_request <$>
          sent (Document.save Sample.unreachable
                  (doc, World Sample.store_record [])).2.2
        = [Request PUT (VStr "https://s5.host/api/v1") "/users/a"
             [("Authorization", "Bearer ak_test");
              ("Content-Type", "application/json")]
             (Some [("data", VRef 2%positive); ("ttl_at", VUndef)])].
Proof.
  split; [done|].
  destruct (constructed_then_saved Sample.unreachable (VStr "users")
              Sample.client (VRef 1%positive) (World Sample.store_record [])
              eq_refl) as (doc & Hnew & Hp & Hs).
  exists doc. split_and!; [exact Hnew|exact Hp|].
  rewrite Hs. reflexivity.
Defined.

(** ** toJSON *)

(** X2.  [toJSON()] makes a new object with exactly the seven fields
    [id], [collection], [data], [version], [created_at], [updated_at] and
    [ttl_at]: the client (and with it the API key) is not part of it.  Its
    [data] is the Document's data object itself, the one [attributes()]
    returns, not a copy.  Feeding the object back to the constructor with
    the same client gives the Document again when its data is truthy; with
    a falsy data the constructor takes the whole object as the data. *)
Theorem toJSON_round_trip doc w :
  ∃ l o,
    Document.toJSON (doc, w)
    = (Ret (VRef l), (doc, World (<[l := o]> (store w)) (sent w)))
    ∧ store w !! l = None
    ∧ arr_len o = None
    ∧ dom (props o)
      = list_to_set ["id"; "collection"; "data"; "version"; "created_at";
                     "updated_at"; "ttl_at"]
    ∧ get_own (<[l := o]> (store w)) (VRef l) "data" = Document.data doc
    ∧ Document.attributes (doc, w) = (Ret (Document.data doc), (doc, w))
    ∧ Document.new (VRef l) (Document.client doc) (<[l := o]> (store w))
      = (Ret (if truthy (Document.data doc) then doc
              else Document.with_data (VRef l) doc),
         <[l := o]> (store w)).
Proof.
  eexists (fresh (dom (store w))), _. split_and!.
  - unfold Document.toJSON. run. unfold new_object, alloc. reflexivity.
  - apply not_elem_of_dom, is_fresh.
  - done.
  - cbn [props]. rewrite !dom_insert_L, dom_empty_L. cbn. set_solver.
  - erewrite get_own_plain; [|apply lookup_insert_eq|done]. done.
  - unfold Document.attributes. run. by destruct w.
  - rewrite new_run.
    repeat (erewrite get_own_plain; [|apply lookup_insert_eq|done]).
    cbn [props].
    repeat (rewrite lookup_insert_eq || rewrite lookup_insert_ne by done).
    cbn [default from_option id]. unfold js_or.
    destruct doc. cbn [Document.data Document.client].
    unfold Document.with_data; cbn. by destruct (truthy data).
Qed.

(** ** Paths: get *)

Lemma split_dot_app p q :
  split_dot (p +:+ "." +:+ q) = (split_dot p ++ split_dot q)%list.
Proof.
  induction p as [|a r IH]; [done|].
  change (String a r +:+ "." +:+ q) with (String a (r +:+ "." +:+ q)).
  cbn [split_dot]. rewrite IH. case_bool_decide; [done|].
  pose proof (split_dot_nonempty r). by destruct (split_dot r).
Qed.

Lemma foldl_opt_get_undef h keys : foldl (opt_get h) VUndef keys = VUndef.
Proof. by induction keys. Qed.

Lemma getNestedValue_nullish h v q :
  nullish v = true → Document.getNestedValue h v q = VUndef.
Proof.
  intros Hv. unfold Document.getNestedValue.
  pose proof (split_dot_nonempty q). destruct (split_dot q) as [|k ks]; [done|].
  cbn [foldl]. unfold opt_get at 2. rewrite Hv. apply foldl_opt_get_undef.
Qed.

(** X3.  [get] follows a path step by step: [get(p + "." + q)] is what
    the walk along [q] finds from the value of [get(p)].  So below a level
    that is [undefined] or [null] every longer path reads [undefined];
    nothing is thrown and nothing changes. *)
Theorem get_along_path doc w p q v :
  Document.get p (doc, w) = (Ret v, (doc, w)) →
  Document.get (p +:+ "." +:+ q) (doc, w)
  = (Ret (Document.getNestedValue (store w) v q), (doc, w))
  ∧ (nullish v = true →
     Document.get (p +:+ "." +:+ q) (doc, w) = (Ret VUndef, (doc, w))).
Proof.
  unfold Document.get. cbn [fst snd]. intros [= <-].
  assert (Document.getNestedValue (store w) (Document.data doc)
            (p +:+ "." +:+ q)
          = Document.getNestedValue (store w)
              (Document.getNestedValue (store w) (Document.data doc) p) q)
    as ->.
  { unfold Document.getNestedValue. by rewrite split_dot_app, foldl_app. }
  split; [done|]. intros Hv. by rewrite getNestedValue_nullish.
Qed.

(** In [{ a: 1 }] there is no [b]: [get("b.c.d")] is [undefined]. *)
Lemma get_along_path_witness :
  Document.get "b" (Sample.user, Sample.world_a1)
  = (Ret VUndef, (Sample.user, Sample.world_a1))
  ∧ nullish VUndef = true
  ∧ Document.get "b.c.d" (Sample.user, Sample.world_a1)
    = (Ret VUndef, (Sample.user, Sample.world_a1)).
Proof.
  split_and!; [reflexivity|reflexivity|].
  exact (proj2 (get_along_path Sample.user Sample.world_a1 "b" "c.d" VUndef
                  eq_refl) eq_refl).
Defined.

Lemma split_dot_dotless k : dotless k = true → split_dot k = [k].
Proof.
  induction k as [|a r IH]; [done|]. cbn.
  intros [Ha Hr]%andb_true_iff. apply negb_true_iff in Ha. rewrite Ha.
  by rewrite (IH Hr).
Qed.

Lemma split_dot_cons k p :
  dotless k = true → split_dot (k +:+ "." +:+ p) = k :: split_dot p.
Proof.
  intros Hk. induction k as [|a r IH]; [done|].
  cbn in Hk. apply andb_true_iff in Hk as [Ha Hr]. apply negb_true_iff in Ha.
  change (String a r +:+ "." +:+ p) with (String a (r +:+ "." +:+ p)).
  cbn [split_dot]. by rewrite Ha, (IH Hr).
Qed.

Lemma concat_cons2 sep (x y : string) l :
  String.concat sep (x :: y :: l) = x +:+ sep +:+ String.concat sep (y :: l).
Proof. done. Qed.

(** X4.  The keys [get] and [set] walk are the pieces of the path between
    its dots: joined by dots they give the path back, and none of them
    has a dot in it; and any non-empty list of keys without dots is
    addressed by the path that joins them.  (A key that has a dot in it
    cannot be addressed.) *)
Theorem split_dot_round_trip :
  (∀ p, String.concat "." (split_dot p) = p
        ∧ Forall (λ k, dotless k = true) (split_dot p))
  ∧ (∀ ks, ks ≠ [] → Forall (λ k, dotless k = true) ks →
           split_dot (String.concat "." ks) = ks).
Proof.
  split.
  - induction p as [|a r [IHc IHd]]; [by split; [|repeat constructor]|].
    cbn [split_dot]. pose proof (split_dot_nonempty r) as Hne.
    case_bool_decide as Ha.
    + subst a. split; [|by constructor].
      destruct (split_dot r) as [|k ks]; [done|].
      rewrite concat_cons2, IHc. done.
    + destruct (split_dot r) as [|k ks]; [done|].
      apply Forall_cons in IHd as [Hk Hks]. split.
      * rewrite <- IHc. by destruct ks.
      * constructor; [|done]. cbn. by rewrite bool_decide_eq_false_2.
  - induction ks as [|k [|k' ks] IH]; [done| |]; intros _ Hd.
    + apply Forall_cons in Hd as [Hk _]. cbn. by apply split_dot_dotless.
    + apply Forall_cons in Hd as [Hk Hd]. rewrite concat_cons2.
      rewrite split_dot_cons by done. by rewrite IH.
Qed.

Lemma split_dot_round_trip_witness :
  ["a"; "b"; "c"] ≠ []
  ∧ Forall (λ k, dotless k = true) ["a"; "b"; "c"]
  ∧ split_dot "a.b.c" = ["a"; "b"; "c"].
Proof.
  assert (Forall (λ k, dotless k = true) ["a"; "b"; "c"]) as Hd
    by (repeat constructor).
  split_and!; [done|exact Hd|].
  exact (proj2 split_dot_round_trip ["a"; "b"; "c"] ltac:(done) Hd).
Defined.

(** ** Paths: set *)

(** From a level that [set] has just created the walk goes on creating,
    and cannot fail, when no key that follows is an inherited name. *)
Lemma created_never_throws ks h f lastKey x :
  h !! f = Some empty_object →
  fresh_ok ks lastKey = true →
  ∃ h', (target ← reduce Document.descend ks (VRef f);
         set_member target lastKey x) h = (Ret (), h').
Proof.
  intros Hf Hok.
  destruct (descend_then_set ks h [] (VRef f) lastKey x) as (h' & Hrun & _).
  - apply mapping_path_fresh; [done|set_solver].
  - done.
  - set_solver.
  - eauto.
Qed.

Lemma plain_store_lookup h l o :
  plain_store h → h !! l = Some o →
  arr_len o = None ∧ ∀ k v, props o !! k = Some v → valid h v.
Proof.
  intros Hp Hl. destruct (Hp l o Hl) as [Ha Hv]. split; [done|].
  intros k v. apply Hv.
Qed.

(** The walk of [setNestedValue] fails only before its first write. *)
Lemma walk_throws ks : ∀ h cur lastKey x e h',
  plain_store h → valid h cur →
  fresh_ok ks lastKey = true →
  (target ← reduce Document.descend ks cur; set_member target lastKey x) h
    = (Throw e, h') →
  h' = h ∧ exn_class e = TypeErrorC.
Proof.
  induction ks as [|k ks IH]; intros h cur lastKey x e h' Hp Hv Hok.
  - cbn [reduce]. run. apply fresh_ok_last in Hok.
    destruct cur as [| | | |s|l]; [by intros [= <- <-]..| |].
    { unfold set_member. destruct (string_has s lastKey);
        by intros [= <- <-]. }
    destruct Hv as [o Hl]. destruct (plain_store_lookup _ _ _ Hp Hl) as [Ha _].
    by rewrite (set_member_plain _ _ _ _ _ Hl Ha Hok).
  - cbn [reduce]. run. apply fresh_ok_cons in Hok as [Hn Hok].
    destruct cur as [| | | | |l];
      [unfold Document.descend; run; by intros [= <- <-]..|].
    destruct Hv as [o Hl].
    destruct (plain_store_lookup _ _ _ Hp Hl) as [Ha Hvals].
    destruct (props o !! k) as [next|] eqn:Hk.
    + rewrite (descend_present _ _ _ _ _ Hl Ha Hk). intros Hrun.
      apply (IH h next lastKey x e h' Hp); [by eapply Hvals|done|].
      unfold mbind, M_bind. exact Hrun.
    + rewrite (descend_missing _ _ _ _ Hl Ha Hk Hn).
      set (f := fresh (dom h)).
      assert (h !! f = None) as Hf by apply not_elem_of_dom, is_fresh.
      assert (l ≠ f) as Hlf by (intros ->; by rewrite Hf in Hl).
      edestruct (created_never_throws ks
                   (<[l := Obj None (<[k := VRef f]> (props o))]>
                      (<[f := empty_object]> h)) f lastKey x) as (h2 & Hrun).
      { rewrite lookup_insert_ne by done. apply lookup_insert_eq. }
      { done. }
      unfold mbind, M_bind in Hrun. by rewrite Hrun.
Qed.

(** X5.  For a path none of whose keys is a name inherited from
    [Object.prototype], [set] is all or nothing on data made of plain
    objects and primitives: when it throws (the path runs into a primitive
    or [null] level) the error is a [TypeError], no level has been
    created, and the store, the Document and the log of requests are as
    before.  (With an inherited name the walk goes on from the inherited
    member and can throw after it has created a level, as for
    [x.constructor.name.y].) *)
Theorem set_all_or_nothing doc w path x e s :
  plain_store (store w) →
  valid (store w) (Document.data doc) →
  Forall (λ k, k ∉ inherited_keys) (split_dot path) →
  Document.set path x (doc, w) = (Throw e, s) →
  s = (doc, w) ∧ exn_class e = TypeErrorC.
Proof.
  intros Hp Hv Hkeys%fresh_ok_path.
  unfold Document.set, Document.setNestedValue. run.
  destruct ((target ← reduce Document.descend (removelast (split_dot path))
                        (Document.data doc);
             set_member target (default "undefined" (last (split_dot path))) x)
              (store w)) as [[[]|e'] h'] eqn:Hrun.
  - unfold mbind, M_bind in Hrun. by rewrite Hrun.
  - pose proof Hrun as Hrun'. apply walk_throws in Hrun' as [-> He]; [|done..].
    unfold mbind, M_bind in Hrun. rewrite Hrun. intros [= <- <-].
    by destruct w.
Qed.

(** In [{ a: 1 }] the path [a.b.c] runs into the number. *)
Lemma set_all_or_nothing_witness :
  plain_store (store Sample.world_a1)
  ∧ valid (store Sample.world_a1) (Document.data Sample.user)
  ∧ Forall (λ k, k ∉ inherited_keys) (split_dot "a.b.c")
  ∧ ∃ e, Document.set "a.b.c" (VNum 2) (Sample.user, Sample.world_a1)
         = (Throw e, (Sample.user, Sample.world_a1))
       ∧ exn_class e = TypeErrorC.
Proof.
  assert (plain_store (store Sample.world_a1)) as Hp
    by (apply (bool_decide_unpack _); vm_compute; exact I).
  assert (valid (store Sample.world_a1) (Document.data Sample.user)) as Hv
    by (apply (bool_decide_unpack _); vm_compute; exact I).
  assert (Forall (λ k, k ∉ inherited_keys) (split_dot "a.b.c")) as Hk
    by (apply (bool_decide_unpack _); vm_compute; exact I).
  split_and!; [exact Hp|exact Hv|exact Hk|].
  destruct (Document.set "a.b.c" (VNum 2) (Sample.user, Sample.world_a1))
    as [[[]|e] s] eqn:Hs; [by vm_compute in Hs|].
  destruct (set_all_or_nothing Sample.user Sample.world_a1 "a.b.c" (VNum 2)
              e s Hp Hv Hk Hs) as [-> He].
  exists e. split; [reflexivity|exact He].
Defined.

Lemma removelast_hd (ks : list string) d :
  ks ≠ [] →
  hd_error ks = hd_error (removelast ks ++ [default d (last ks)])%list.
Proof. intros Hne. by rewrite <- removelast_last. Qed.

(** What the walk of [setNestedValue] does to the object it starts from:
    only the first key of the path may change. *)
Lemma walk_top keys h l o lastKey x :
  mapping_path h [] (VRef l) keys = true →
  fresh_ok keys lastKey = true →
  h !! l = Some o →
  ∃ h' o',
    (target ← reduce Document.descend keys (VRef l);
     set_member target lastKey x) h = (Ret (), h')
    ∧ h' !! l = Some o' ∧ arr_len o' = None
    ∧ ∀ k', hd_error (keys ++ [lastKey])%list ≠ Some k' →
            props o' !! k' = props o !! k'.
Proof.
  intros Hpath Hok Hl.
  apply mapping_path_inv in Hpath as (l0 & o0 & [= <-] & Hl0 & Ha & _ & Hk).
  rewrite Hl in Hl0. injection Hl0 as <-.
  destruct keys as [|k ks].
  - cbn [reduce]. run. apply fresh_ok_last in Hok.
    rewrite (set_member_plain _ _ _ _ _ Hl Ha Hok).
    eexists _, _. split_and!; [done|apply lookup_insert_eq|done|].
    intros k' Hne. cbn [props]. apply lookup_insert_ne. cbn in Hne. congruence.
  - cbn [reduce]. run. apply fresh_ok_cons in Hok as [Hn Hok].
    destruct (props o !! k) as [next|] eqn:Hnext.
    + rewrite (descend_present _ _ _ _ _ Hl Ha Hnext).
      destruct (descend_then_set ks h [l] next lastKey x Hk Hok)
        as (h' & Hrun & _ & Hfr & _).
      { intros l' ->%list_elem_of_singleton. eauto. }
      unfold mbind, M_bind in Hrun. exists h', o.
      split_and!; [exact Hrun| |done|done].
      rewrite Hfr by set_solver. done.
    + rewrite (descend_missing _ _ _ _ Hl Ha Hnext Hn).
      set (f := fresh (dom h)).
      assert (h !! f = None) as Hf by apply not_elem_of_dom, is_fresh.
      assert (l ≠ f) as Hlf by (intros ->; by rewrite Hf in Hl).
      set (h2 := <[l := Obj None (<[k := VRef f]> (props o))]>
                   (<[f := empty_object]> h)).
      destruct (descend_then_set ks h2 [l] (VRef f) lastKey x)
        as (h' & Hrun & _ & Hfr & _).
      { apply mapping_path_fresh; [|by intros ->%list_elem_of_singleton].
        subst h2. rewrite lookup_insert_ne by done. apply lookup_insert_eq. }
      { done. }
      { intros l' ->%list_elem_of_singleton. subst h2.
        rewrite lookup_insert_eq. eauto. }
      unfold mbind, M_bind in Hrun.
      exists h', (Obj None (<[k := VRef f]> (props o))).
      split_and!; [exact Hrun| |done|].
      * rewrite Hfr by set_solver. apply lookup_insert_eq.
      * intros k' Hne. cbn [props]. apply lookup_insert_ne.
        cbn in Hne. congruence.
Qed.

(** X6.  [set(p, v)] leaves the other top-level fields of the data alone:
    for a path none of whose keys is a name inherited from
    [Object.prototype], whose levels that exist are plain objects, none
    met twice, every top-level key other than the first key of [p] reads
    after the call what it read before.  (Through [__proto__] a write
    lands in [Object.prototype], where every object sees it.) *)
Theorem set_keeps_siblings doc w path x :
  Forall (λ k, k ∉ inherited_keys) (split_dot path) →
  mapping_path (store w) [] (Document.data doc)
    (removelast (split_dot path)) = true →
  ∃ w', Document.set path x (doc, w) = (Ret (), (doc, w'))
      ∧ ∀ k', hd_error (split_dot path) ≠ Some k' →
              get_own (store w') (Document.data doc) k'
              = get_own (store w) (Document.data doc) k'.
Proof.
  intros Hkeys%fresh_ok_path Hpath.
  pose proof Hpath as (l & o & Hd & Hl & Ha & _)%mapping_path_inv.
  rewrite Hd in Hpath.
  destruct (walk_top _ _ _ _ (default "undefined" (last (split_dot path))) x
              Hpath Hkeys Hl) as (h' & o' & Hrun & Hl' & Ha' & Hsame).
  exists (World h' (sent w)). split.
  - unfold Document.set, Document.setNestedValue. run. rewrite Hd.
    unfold mbind, M_bind in Hrun. by rewrite Hrun.
  - intros k' Hne. rewrite Hd. cbn [store].
    rewrite (get_own_plain _ _ _ _ Hl' Ha'), (get_own_plain _ _ _ _ Hl Ha).
    rewrite Hsame; [done|].
    by rewrite <- removelast_hd by apply split_dot_nonempty.
Qed.

(** In [{ a: 1 }], [set("x.y", 2)] leaves [a] at 1. *)
Lemma set_keeps_siblings_witness :
  Forall (λ k, k ∉ inherited_keys) (split_dot "x.y")
  ∧ mapping_path Sample.store_a1 [] (Document.data Sample.user)
      (removelast (split_dot "x.y")) = true
  ∧ hd_error (split_dot "x.y") ≠ Some "a"
  ∧ ∃ w', Document.set "x.y" (VNum 2) (Sample.user, Sample.world_a1)
          = (Ret (), (Sample.user, w'))
        ∧ get_own (store w') (Document.data Sample.user) "a" = VNum 1.
Proof.
  assert (Forall (λ k, k ∉ inherited_keys) (split_dot "x.y")) as Hkeys
    by (apply (bool_decide_unpack _); vm_compute; exact I).
  assert (hd_error (split_dot "x.y") ≠ Some "a") as Hne by (by vm_compute).
  split_and!; [exact Hkeys|reflexivity|exact Hne|].
  destruct (set_keeps_siblings Sample.user Sample.world_a1 "x.y" (VNum 2)
              Hkeys eq_refl) as (w' & Hset & Hsame).
  exists w'. split; [exact Hset|]. by rewrite (Hsame "a" Hne).
Defined.

(** X7.  A level that [set] creates is a plain object, also when the key
    that follows it is a number: for a two-key path [k.j] whose [k] is
    missing from the data and is not a name inherited from
    [Object.prototype], and whose [j] is not [__proto__], [set] puts a new
    object at [k] whose only key is [j], also when [j] is a number like
    [0]; no array is made.  (An inherited [k] is found by [in], so no
    level is made; [__proto__] as [j] goes to the inherited setter, and
    the new object stays empty.) *)
Theorem set_creates_plain_objects doc w path x l o k j :
  Document.data doc = VRef l →
  store w !! l = Some o → arr_len o = None →
  split_dot path = [k; j] →
  k ∉ inherited_keys → j ≠ "__proto__" →
  props o !! k = None →
  ∃ h' f,
    Document.set path x (doc, w) = (Ret (), (doc, World h' (sent w)))
    ∧ store w !! f = None
    ∧ get_own h' (VRef l) k = VRef f
    ∧ h' !! f = Some (Obj None {[j := x]})
    ∧ is_array h' (VRef f) = false.
Proof.
  intros Hd Hl Ha Hsplit Hn Hj Hk.
  set (f := fresh (dom (store w))).
  assert (store w !! f = None) as Hf by apply not_elem_of_dom, is_fresh.
  assert (l ≠ f) as Hlf by (intros ->; by rewrite Hf in Hl).
  exists (<[f := Obj None (<[j := x]> ∅)]>
            (<[l := Obj None (<[k := VRef f]> (props o))]>
               (<[f := empty_object]> (store w)))), f.
  split_and!.
  - unfold Document.set, Document.setNestedValue. run. rewrite Hsplit, Hd.
    cbn [removelast last default from_option id reduce]. run.
    rewrite (descend_missing _ _ _ _ Hl Ha Hk Hn). fold f.
    unfold mret, M_ret.
    erewrite set_member_plain;
      [|rewrite lookup_insert_ne by done; apply lookup_insert_eq|done|done].
    done.
  - done.
  - erewrite get_own_plain;
      [|rewrite lookup_insert_ne by done; apply lookup_insert_eq|done].
    cbn [props]. by rewrite lookup_insert_eq.
  - by rewrite lookup_insert_eq.
  - unfold is_array. by rewrite lookup_insert_eq.
Qed.

(** [set("items.0", "x")] on [{ a: 1 }] makes [items] an object. *)
Lemma set_creates_plain_objects_witness :
  Document.data Sample.user = VRef 1%positive
  ∧ store Sample.world_a1 !! 1%positive
    = Some (Obj None (<["a" := VNum 1]> ∅))
  ∧ split_dot "items.0" = ["items"; "0"]
  ∧ ("items" ∉ inherited_keys) ∧ "0" ≠ "__proto__"
  ∧ ∃ h' f,
      Document.set "items.0" (VStr "x") (Sample.user, Sample.world_a1)
      = (Ret (), (Sample.user, World h' []))
      ∧ get_own h' (VRef 1%positive) "items" = VRef f
      ∧ is_array h' (VRef f) = false.
Proof.
  assert ("items" ∉ inherited_keys) as Hk
    by (apply (bool_decide_unpack _); vm_compute; exact I).
  assert ("0" ≠ "__proto__") as Hj by done.
  split_and!; [reflexivity|reflexivity|reflexivity|exact Hk|exact Hj|].
  destruct (set_creates_plain_objects Sample.user Sample.world_a1 "items.0"
              (VStr "x") 1%positive _ "items" "0"
              eq_refl eq_refl eq_refl eq_refl Hk Hj eq_refl)
    as (h' & f & Hset & _ & Hget & _ & Harr).
  exists h', f. split_and!; [exact Hset|exact Hget|exact Harr].
Defined.

(** X8.  The Document's data is the caller's object, not a copy: the
    constructor keeps [input.data] (when truthy) or [input] itself, and
    [set(k, x)] on the Document, for a key [k] without a dot that is not
    [__proto__], writes [k] into that very object, where the caller's
    reference sees it.  ([__proto__] goes to the inherited setter, which
    stores no property.) *)
Theorem set_writes_through input client h log k x :
  let target := if truthy (get_own h input "data")
                then get_own h input "data" else input in
  plain_object h input → plain_object h target →
  dotless k = true → k ≠ "__proto__" →
  ∃ doc h',
    Document.new input client h = (Ret doc, h)
    ∧ Document.data doc = target
    ∧ Document.set k x (doc, World h log) = (Ret (), (doc, World h' log))
    ∧ get_own h' target k = x.
Proof.
  intros target (l & o & -> & Hl & Ha) (l' & o' & Ht & Hl' & Ha') Hk Hn.
  rewrite new_run. eexists _, (<[l' := Obj None (<[k := x]> (props o'))]> h).
  split_and!; [reflexivity|done| |].
  - unfold Document.set, Document.setNestedValue. run. cbn [Document.data].
    unfold js_or. fold target. rewrite Ht, (split_dot_dotless _ Hk).
    cbn [removelast last default from_option id reduce]. run.
    by rewrite (set_member_plain _ _ _ _ _ Hl' Ha' Hn).
  - rewrite Ht. erewrite get_own_plain; [|apply lookup_insert_eq|done].
    cbn [props]. by rewrite lookup_insert_eq.
Qed.

(** For the input [{ id: "a", data: { n: 3 } }], [set("n", 4)] changes
    the object the input's [data] refers to. *)
Lemma set_writes_through_witness :
  plain_object Sample.store_record (VRef 1%positive)
  ∧ plain_object Sample.store_record (VRef 2%positive)
  ∧ dotless "n" = true ∧ "n" ≠ "__proto__"
  ∧ ∃ doc h',
      Document.new (VRef 1%positive) None Sample.store_record
      = (Ret doc, Sample.store_record)
      ∧ Document.set "n" (VNum 4) (doc, World Sample.store_record [])
        = (Ret (), (doc, World h' []))
      ∧ get_own h' (VRef 2%positive) "n" = VNum 4.
Proof.
  assert (plain_object Sample.store_record (VRef 1%positive)) as H1
    by (eexists _, _; split_and!; reflexivity).
  assert (plain_object Sample.store_record (VRef 2%positive)) as H2
    by (eexists _, _; split_and!; reflexivity).
  assert ("n" ≠ "__proto__") as Hn by done.
  split_and!; [exact H1|exact H2|reflexivity|exact Hn|].
  destruct (set_writes_through (VRef 1%positive) None Sample.store_record []
              "n" (VNum 4) H1 H2 eq_refl Hn)
    as (doc & h' & Hnew & _ & Hset & Hget).
  exists doc, h'. split_and!; [exact Hnew|exact Hset|exact Hget].
Defined.

(** ** patch *)

Lemma patch_run rt changes doc c w req log :
  Document.client doc = Some c →
  req = outgoing (S5Client.axios c) PATCH
          ("/" +:+ to_string (store w) (S5Client.collection c) +:+ "/"
           +:+ to_string (store w) (Document.id doc) +:+ "/patch")
          (Some [("data", changes)]) (store w) →
  log = (sent w ++ [req])%list →
  Document.patch rt changes (doc, w)
  = settled "Patch failed" c doc (store w) log (transport rt (sent w) req).
Proof.
  intros Hc -> ->. unfold Document.patch, settled. run. rewrite Hc.
  cbn [Document.axios_of Document.collection_of]. run.
  rewrite axios_request_run.
  destruct (transport _ _ _) as [st body|msg]; [|done].
  destruct (in_2xx st); cbn [fst snd store sent resp_data]; [|done].
  destruct (member _ "data" _) as [[record|e] h1] eqn:Hm.
  - destruct (Document.new _ _ _) as [[fresh|e] h2] eqn:Hn; [done|].
    apply new_throws in Hn. unfold failure_text, js_or. by rewrite Hn.
  - apply member_throws in Hm as [Hr ->].
    unfold failure_text, js_or. by rewrite Hr.
Qed.

Lemma new_extends v client h r h' :
  Document.new v client h = (r, h') → extends h h'.
Proof.
  rewrite new_run. destruct v; intros [= _ <-]; try apply extends_refl.
  apply (alloc_extends empty_object h).
Qed.

Lemma settled_extends label c doc h log answer :
  extends h (store (settled label c doc h log answer).2.2).
Proof.
  unfold settled. destruct answer as [st body|msg]; [|apply extends_refl].
  cbn zeta. destruct (in_2xx st); [|apply parse_json_extends].
  destruct (member _ _ _) as [[record|e] h1] eqn:Hm.
  - apply member_returns in Hm as (_ & _ & ->).
    destruct (Document.new _ _ _) as [[fresh|e] h2] eqn:Hn;
      apply new_extends in Hn; cbn [fst snd store];
      (eapply extends_trans; [apply parse_json_extends|done]).
  - apply member_throws in Hm as [_ ->]. apply parse_json_extends.
Qed.

Lemma settled_throws label c doc h log answer e s :
  settled label c doc h log answer = (Throw e, s) →
  ∃ text, e = Error (label +:+ ": " +:+ text).
Proof.
  unfold settled. destruct answer as [st body|msg]; [|naive_solver].
  cbn zeta. destruct (in_2xx st); [|naive_solver].
  destruct (member _ _ _) as [[record|e'] h1]; [|naive_solver].
  destruct (Document.new _ _ _) as [[fresh|e'] h2]; naive_solver.
Qed.

(** X9.  [patch(d)] sends one PATCH to [/{collection}/{id}/patch] whose
    body is [{data: d}] and nothing else.  Nothing is merged locally: every
    object that was in the store is left as it was, and when the call
    throws (always an [Error] labelled ["Patch failed: "]) [this] keeps all
    its fields.  On a 2xx answer [{data: record}] the fields of [this]
    become those of the record. *)
Theorem patch_outcome rt doc c w changes :
  Document.client doc = Some c →
  let req := outgoing (S5Client.axios c) PATCH
               ("/" +:+ to_string (store w) (S5Client.collection c) +:+ "/"
                +:+ to_string (store w) (Document.id doc) +:+ "/patch")
               (Some [("data", changes)]) (store w) in
  let r := Document.patch rt changes (doc, w) in
  sent r.2.2 = (sent w ++ [req])%list
  ∧ extends (store w) (store r.2.2)
  ∧ (∀ st top record,
       transport rt (sent w) req = NetResponse st (JObj top) →
       in_2xx st = true →
       json_field top "data" = Some (JObj record) →
       ∃ fresh h, r = (Ret fresh, (fresh, World h (sent w ++ [req])))
                ∧ from_record h record fresh
                ∧ Document.client fresh = Some c)
  ∧ (∀ e, r.1 = Throw e →
       r.2.1 = doc ∧ ∃ text, e = Error ("Patch failed: " +:+ text))
  ∧ (∀ msg, transport rt (sent w) req = NetFailure msg →
       r.1 = Throw (Error ("Patch failed: " +:+ msg))).
Proof.
  intros Hc req r.
  assert (r = settled "Patch failed" c doc (store w) (sent w ++ [req])
                (transport rt (sent w) req)) as ->
    by by apply patch_run.
  split_and!; [apply settled_sent|apply settled_extends| | |].
  - intros st top record -> Hst Hrec. by apply settled_record.
  - intros e He. destruct (settled _ _ _ _ _ _) as [o s] eqn:Hs.
    cbn in He. subst o. split.
    + by apply settled_failure in Hs.
    + by apply settled_throws in Hs.
  - by intros msg ->.
Qed.

Lemma patch_outcome_witness :
  Document.client Sample.user = Some Sample.client
  ∧ wire_request <$>
      sent (Document.patch Sample.unreachable (VRef 1%positive)
              (Sample.user, Sample.world_a1)).2.2
    = [Request PATCH (VStr "https://s5.host/api/v1") "/users/user-123/patch"
         [("Authorization", "Bearer ak_test");
          ("Content-Type", "application/json")]
         (Some [("data", VRef 1%positive)])]
  ∧ (Document.patch Sample.unreachable (VRef 1%positive)
       (Sample.user, Sample.world_a1)).1
    = Throw (Error "Patch failed: Network Error").
Proof.
  split_and!; [done| |].
  - rewrite (proj1 (patch_outcome Sample.unreachable Sample.user Sample.client
                      Sample.world_a1 (VRef 1%positive) eq_refl)).
    reflexivity.
  - exact (proj2 (proj2 (proj2 (proj2
             (patch_outcome Sample.unreachable Sample.user Sample.client
                Sample.world_a1 (VRef 1%positive) eq_refl))))
           "Network Error" eq_refl).
Defined.

(** ** The methods that do not look at the id *)

(** X10.  Only [save] and [reload] look at the id.  On a Document that
    has none ([id] is [undefined]), [destroy()], [patch(d)] and [update()]
    do not fail locally: each sends its request with the text
    [undefined] where the id goes, a DELETE or PUT to
    [/{collection}/undefined] and a PATCH to
    [/{collection}/undefined/patch]. *)
Theorem unsaved_is_not_checked rt doc c w changes :
  Document.client doc = Some c →
  Document.id doc = VUndef →
  let base := "/" +:+ to_string (store w) (S5Client.collection c) in
  sent (Document.destroy rt (doc, w)).2.2
  = (sent w ++ [outgoing (S5Client.axios c) DELETE (base +:+ "/undefined")
                  None (store w)])%list
  ∧ sent (Document.patch rt changes (doc, w)).2.2
    = (sent w ++ [outgoing (S5Client.axios c) PATCH
                    (base +:+ "/undefined/patch")
                    (Some [("data", changes)]) (store w)])%list
  ∧ sent (Document.update rt VNull (doc, w)).2.2
    = (sent w ++ [outgoing (S5Client.axios c) PUT (base +:+ "/undefined")
                    (Some [("data", Document.data doc);
                           ("ttl_at", Document.ttl_at doc)]) (store w)])%list.
Proof.
  intros Hc Hid base. split_and!.
  - erewrite destroy_run; [|done..]. rewrite Hid.
    destruct (transport _ _ _) as [st body|msg]; [|done].
    cbn zeta. by destruct (in_2xx st).
  - erewrite patch_run; [|done..]. rewrite Hid. apply settled_sent.
  - erewrite update_path_run; [|done..]. rewrite Hid. apply settled_sent.
Qed.

(** [destroy()] on a draft asks the server to delete [/users/undefined]. *)
Lemma unsaved_is_not_checked_witness :
  Document.client Sample.draft = Some Sample.client
  ∧ Document.id Sample.draft = VUndef
  ∧ req_url ∘ wire_request <$>
      sent (Document.destroy (Sample.answering 404 JNull)
              (Sample.draft, Sample.world_a1)).2.2
    = ["/users/undefined"].
Proof.
  split_and!; [done|done|].
  rewrite (proj1 (unsaved_is_not_checked (Sample.answering 404 JNull)
                    Sample.draft Sample.client Sample.world_a1 VNull
                    eq_refl eq_refl)).
  reflexivity.
Defined.

(** ** A Document without a client *)

(** X11.  A Document made without a client ([new Document(data)]) cannot
    reach the server: [create], [update], [patch], [destroy] and [save]
    throw an [Error] with their label and the text of the [TypeError]
    raised on reading [client.axios], and nothing is sent.  The Document
    is as before, except that [update(d)] with a truthy [d] has merged
    [d] into the data before it fails. *)
Theorem without_client rt doc w changes :
  Document.client doc = None →
  let error label :=
    Error (label +:+ " failed: Cannot read properties of undefined (reading 'axios')") in
  Document.create rt (doc, w) = (Throw (error "Create"), (doc, w))
  ∧ Document.update rt VNull (doc, w) = (Throw (error "Update"), (doc, w))
  ∧ Document.patch rt changes (doc, w) = (Throw (error "Patch"), (doc, w))
  ∧ Document.destroy rt (doc, w) = (Throw (error "Delete"), (doc, w))
  ∧ Document.save rt (doc, w)
    = (Throw (error (if truthy (Document.id doc) then "Update" else "Create")),
       (doc, w))
  ∧ (truthy changes = true →
     ∃ merged w',
       Document.update rt changes (doc, w)
       = (Throw (error "Update"), (Document.with_data merged doc, w'))
       ∧ sent w' = sent w).
Proof.
  intros Hc error.
  assert (Document.create rt (doc, w) = (Throw (error "Create"), (doc, w)))
    as Hcreate.
  { unfold Document.create. run. rewrite Hc. by destruct w. }
  assert (∀ d w, Document.client d = None →
            Document.update rt VNull (d, w)
            = (Throw (error "Update"), (d, w))) as Hupdate.
  { intros d w0 Hd. unfold Document.update. cbn [truthy]. run. rewrite Hd.
    by destruct w0. }
  split_and!; [done|by apply Hupdate| | | |].
  - unfold Document.patch. run. rewrite Hc. by destruct w.
  - unfold Document.destroy. run. rewrite Hc. by destruct w.
  - unfold Document.save. run. destruct (truthy (Document.id doc)).
    + by apply Hupdate.
    + done.
  - intros Ht. rewrite update_merge_run by done. eexists _, _.
    split; [by apply Hupdate|done].
Qed.

Lemma without_client_witness :
  Document.client Sample.detached = None
  ∧ Document.save Sample.unreachable (Sample.detached, Sample.world_a1)
    = (Throw (Error "Create failed: Cannot read properties of undefined (reading 'axios')"),
       (Sample.detached, Sample.world_a1)).
Proof.
  split; [done|].
  exact (proj1 (proj2 (proj2 (proj2 (proj2
           (without_client Sample.unreachable Sample.detached
              Sample.world_a1 VNull eq_refl)))))).
Defined.

(** ** After destroy *)

(** X12.  [destroy()] clears nothing, whatever the server says: [this]
    keeps its fields, so a Document with an id still answers [true] to
    [persisted], and a [save()] after it sends a PUT for the same id (not
    a POST that would create the record again). *)
Theorem destroy_keeps_persisted rt doc c w :
  Document.client doc = Some c →
  truthy (Document.id doc) = true →
  let s := (Document.destroy rt (doc, w)).2 in
  s.1 = doc
  ∧ Document.persisted s = (Ret true, s)
  ∧ sent (Document.save rt s).2.2
    = (sent s.2 ++ [outgoing (S5Client.axios c) PUT
                      ("/" +:+ to_string (store s.2) (S5Client.collection c)
                       +:+ "/" +:+ to_string (store s.2) (Document.id doc))
                      (Some [("data", Document.data doc);
                             ("ttl_at", Document.ttl_at doc)])
                      (store s.2)])%list.
Proof.
  intros Hc Hid s.
  assert (s.1 = doc) as Hs.
  { subst s. erewrite destroy_run; [|done..].
    destruct (transport _ _ _) as [st body|msg]; [|done].
    cbn zeta. by destruct (in_2xx st). }
  destruct s as [d w']. cbn [fst snd] in *. subst d. split_and!; [done| |].
  - unfold Document.persisted. run. by rewrite Hid.
  - unfold Document.save. run. rewrite Hid.
    erewrite update_path_run; [|done..]. apply settled_sent.
Qed.

Lemma destroy_keeps_persisted_witness :
  Document.client Sample.user = Some Sample.client
  ∧ truthy (Document.id Sample.user) = true
  ∧ req_method ∘ wire_request <$>
      sent (Document.save (Sample.answering 204 JNull)
              (Document.destroy (Sample.answering 204 JNull)
                 (Sample.user, Sample.world_a1)).2).2.2
    = [DELETE; PUT].
Proof.
  split_and!; [done|done|].
  rewrite (proj2 (proj2 (destroy_keeps_persisted (Sample.answering 204 JNull)
                           Sample.user Sample.client Sample.world_a1
                           eq_refl eq_refl))).
  reflexivity.
Defined.

(** ** where: the answer *)

Lemma map_slots_throws client ss : ∀ h e h',
  Document.map_slots (λ d, Document.new d client) ss h = (Throw e, h') →
  response e = None.
Proof.
  induction ss as [|[v|] ss IH]; intros h e h'; cbn; run; [done| |].
  - destruct (Document.new v client h) as [[a|e'] h1] eqn:Hn.
    + destruct (Document.map_slots _ ss h1) as [[rs|e'] h2] eqn:Hr; [done|].
      intros [= <- _]. by eapply IH.
    + intros [= <- _]. by eapply new_throws.
  - destruct (Document.map_slots _ ss h) as [[rs|e'] h2] eqn:Hr; [done|].
    intros [= <- _]. by eapply IH.
Qed.

Lemma array_map_throws client rows h e h' :
  Document.array_map rows (λ d, Document.new d client) h = (Throw e, h') →
  response e = None.
Proof.
  unfold Document.array_map. destruct (nullish rows); [by intros [= <- _]|].
  destruct (is_array h rows); [|by intros [= <- _]].
  apply map_slots_throws.
Qed.

Lemma where_run rt coll client options w params req log :
  nullish options = false →
  Document.where_params rt options (store w) = (Ret params, store w) →
  req = outgoing (S5Client.axios client) GET
          ("/" +:+ to_string (store w) (S5Client.collection client)
           +:+ "?" +:+ params_toString params) None (store w) →
  log = (sent w ++ [req])%list →
  Document.where_ rt (Document.CollectionDocument coll client) options w =
  match transport rt (sent w) req with
  | NetFailure msg =>
      (Throw (Error ("Query failed: " +:+ msg)), World (store w) log)
  | NetResponse st body =>
      let parsed := parse_json body (store w) in
      if in_2xx st then answered client parsed.1 parsed.2 log
      else
        (Throw (Error ("Query failed: " +:+
                  failure_text parsed.2
                    (Exn AxiosErrorC
                       ("Request failed with status code " +:+ pretty st)
                       (Some (Response st parsed.1))))),
         World parsed.2 log)
  end.
Proof.
  intros Hn Hp -> ->. unfold Document.where_.
  cbn [Document.static_client Document.axios_of Document.collection_of].
  assert (default_object options = mret options) as -> by by destruct options.
  run. rewrite Hp. cbn [fst snd store sent].
  rewrite axios_request_run.
  destruct (transport _ _ _) as [st body|msg]; [|done].
  cbn zeta. destruct (in_2xx st); cbn [fst snd store sent resp_data]; [|done].
  unfold answered. rewrite member_run.
  destruct (nullish (parse_json body (store w)).1); [done|].
  cbn [fst snd store sent]. rewrite member_run.
  destruct (nullish (get_own _ _ "data")) eqn:Hpay; [done|].
  cbn [fst snd store sent].
  destruct (Document.array_map _ _ _) as [[docs|e] h1] eqn:Hmap;
    cbn [fst snd store sent].
  - by rewrite member_run, Hpay.
  - apply array_map_throws in Hmap. unfold failure_text, js_or.
    by rewrite Hmap.
Qed.

Lemma get_own_string_key h s k :
  array_index k = None → k ≠ "length" → get_own h (VStr s) k = VUndef.
Proof.
  intros Hk Hl. unfold get_own. rewrite bool_decide_eq_false_2 by done.
  by rewrite Hk.
Qed.

Lemma to_string_plain h l o :
  h !! l = Some o → arr_len o = None →
  to_string h (VRef l) = "[object Object]".
Proof. intros Hl Ha. unfold to_string. cbn. by rewrite Hl, Ha. Qed.

(** X13.  When the request of [where] fails, [where] throws an [Error]
    labelled ["Query failed: "]: with the transport's text when there was
    no answer, and for an answer outside 2xx (a 404 included: only [find]
    turns it into [null]) with the server's [error.message] when that is
    truthy and with ["Request failed with status code N"] otherwise.  So a
    body [{error: {message: s}}] gives [s]; a body [{error: "text"}], whose
    [error] is a string, gives the status text and the server's text is
    lost; and a message that is an object is printed as
    ["[object Object]"]. *)
Theorem where_rejected rt coll client options w params :
  nullish options = false →
  Document.where_params rt options (store w) = (Ret params, store w) →
  let req := outgoing (S5Client.axios client) GET
               ("/" +:+ to_string (store w) (S5Client.collection client)
                +:+ "?" +:+ params_toString params) None (store w) in
  let r := Document.where_ rt (Document.CollectionDocument coll client)
             options w in
  (∀ msg, transport rt (sent w) req = NetFailure msg →
     r = (Throw (Error ("Query failed: " +:+ msg)),
          World (store w) (sent w ++ [req])))
  ∧ (∀ st body, transport rt (sent w) req = NetResponse st body →
       in_2xx st = false →
       let parsed := parse_json body (store w) in
       let said := opt_get parsed.2 (opt_get parsed.2 parsed.1 "error")
                     "message" in
       r.1 = Throw (Error ("Query failed: " +:+
                (if truthy said then to_string parsed.2 said
                 else "Request failed with status code " +:+ pretty st))))
  ∧ (∀ st top err s, transport rt (sent w) req = NetResponse st (JObj top) →
       in_2xx st = false →
       json_field top "error" = Some (JObj err) →
       json_field err "message" = Some (JStr s) → s ≠ EmptyString →
       r.1 = Throw (Error ("Query failed: " +:+ s)))
  ∧ (∀ st top s, transport rt (sent w) req = NetResponse st (JObj top) →
       in_2xx st = false →
       json_field top "error" = Some (JStr s) →
       r.1 = Throw (Error ("Query failed: Request failed with status code "
                           +:+ pretty st)))
  ∧ (∀ st top err fields,
       transport rt (sent w) req = NetResponse st (JObj top) →
       in_2xx st = false →
       json_field top "error" = Some (JObj err) →
       json_field err "message" = Some (JObj fields) →
       r.1 = Throw (Error "Query failed: [object Object]")).
Proof.
  intros Hn Hp req r.
  pose proof (where_run rt coll client options w params req _ Hn Hp
                eq_refl eq_refl) as Hrun.
  fold r in Hrun. clearbody r.
  assert (∀ st body, transport rt (sent w) req = NetResponse st body →
            in_2xx st = false →
            r.1 = Throw (Error ("Query failed: " +:+
              (if truthy (opt_get (parse_json body (store w)).2
                            (opt_get (parse_json body (store w)).2
                               (parse_json body (store w)).1 "error")
                            "message")
               then to_string (parse_json body (store w)).2
                      (opt_get (parse_json body (store w)).2
                         (opt_get (parse_json body (store w)).2
                            (parse_json body (store w)).1 "error")
                         "message")
               else "Request failed with status code " +:+ pretty st))))
    as Hrejected.
  { intros st body Hnet Hst. rewrite Hrun, Hnet. cbn zeta.
    by rewrite Hst, failure_text_rejected. }
  split_and!.
  - intros msg Hnet. by rewrite Hrun, Hnet.
  - intros st body Hnet Hst parsed said. by apply Hrejected.
  - intros st top err s Hnet Hst Herr Hmsg Hs.
    rewrite (Hrejected _ _ Hnet Hst).
    rewrite (server_message _ top _ err s); [|apply parse_json_represents|done..].
    cbn [truthy]. rewrite bool_decide_eq_false_2 by done. done.
  - intros st top s Hnet Hst Herr. rewrite (Hrejected _ _ Hnet Hst).
    pose proof (parse_json_represents (JObj top) (store w)) as Hv.
    pose proof (get_own_field _ top _ "error" Hv) as He.
    unfold field_is in He. rewrite Herr in He. cbn in He.
    unfold opt_get. rewrite (represents_object_not_nullish _ _ _ Hv), He.
    cbn [nullish]. by rewrite get_own_string_key.
  - intros st top err fields Hnet Hst Herr Hmsg.
    rewrite (Hrejected _ _ Hnet Hst).
    pose proof (parse_json_represents (JObj top) (store w)) as Hv.
    pose proof (get_own_field _ top _ "error" Hv) as He.
    unfold field_is in He. rewrite Herr in He.
    pose proof (get_own_field _ err _ "message" He) as Hm.
    unfold field_is in Hm. rewrite Hmsg in Hm.
    unfold opt_get. rewrite (represents_object_not_nullish _ _ _ Hv).
    rewrite (represents_object_not_nullish _ _ _ He).
    destruct Hm as (l & vs & -> & Hl & _). cbn [truthy].
    by rewrite (to_string_plain _ _ _ Hl).
Qed.

(** A 404 answer to a query is an error. *)
Lemma where_rejected_witness :
  nullish (VRef 1%positive) = false
  ∧ Document.where_params (Sample.answering 404 JNull) (VRef 1%positive)
      Sample.store_limit0 = (Ret [], Sample.store_limit0)
  ∧ in_2xx 404 = false
  ∧ (Document.where_ (Sample.answering 404 JNull) Sample.Users
       (VRef 1%positive) (World Sample.store_limit0 [])).1
    = Throw (Error "Query failed: Request failed with status code 404").
Proof.
  split_and!; [done|reflexivity|done|].
  exact (proj1 (proj2
           (where_rejected (Sample.answering 404 JNull) (VStr "users")
              Sample.client (VRef 1%positive) (World Sample.store_limit0 [])
              [] eq_refl eq_refl))
         404 JNull eq_refl eq_refl).
Defined.

Lemma pretty_N_go_digit x : ∀ s,
  ((0 < x)%N ∨ starts_with_digit s) → starts_with_digit (pretty_N_go x s).
Proof.
  induction (N.lt_wf_0 x) as [x _ IH]; intros s Hs.
  assert (x = 0 ∨ 0 < x)%N as [->|Hx] by lia.
  - rewrite pretty_N_go_0. destruct Hs as [?|?]; [lia|done].
  - rewrite pretty_N_go_step by done. apply IH; [by apply N.div_lt|].
    right. cbn. unfold pretty_N_char. by repeat case_match.
Qed.

Lemma index_key_digit i : starts_with_digit (index_key i).
Proof.
  unfold index_key, pretty, pretty_nat, pretty, pretty_N.
  case_decide; [by cbn|]. apply pretty_N_go_digit. left. lia.
Qed.

Lemma array_of_other_key vs k :
  ¬ starts_with_digit k → props (array_of vs) !! k = None.
Proof.
  intros Hk. unfold array_of. cbn [props].
  apply not_elem_of_list_to_map_1. intros Hin.
  apply list_elem_of_fmap in Hin as ([k' v] & -> & Hin).
  apply elem_of_zip_l in Hin. cbn in Hin.
  apply list_elem_of_fmap in Hin as (i & -> & _).
  apply Hk, index_key_digit.
Qed.

Lemma answered_no_rows client h v log text :
  nullish v = false → nullish (get_own h v "data") = false →
  Document.array_map (get_own h (get_own h v "data") "data")
    (λ doc, Document.new doc (Some client)) h = (Throw (TypeError text), h) →
  answered client v h log = (Throw (Error ("Query failed: " +:+ text)),
                             World h log).
Proof. intros Hv Hp Hmap. unfold answered. by rewrite Hv, Hp, Hmap. Qed.

(** X14.  A 2xx answer that has not the shape [{data: {data: [...]}}]
    makes [where] throw, labelled ["Query failed: "], with the text of the
    [TypeError] raised on the way: an answer without [data], an answer
    whose [data] is the array itself or has no inner [data], an inner
    [data] that is an object (the answer to a single-record request), and
    a row that is [null]. *)
Theorem where_malformed rt coll client options w params st top :
  nullish options = false →
  Document.where_params rt options (store w) = (Ret params, store w) →
  let req := outgoing (S5Client.axios client) GET
               ("/" +:+ to_string (store w) (S5Client.collection client)
                +:+ "?" +:+ params_toString params) None (store w) in
  let r := Document.where_ rt (Document.CollectionDocument coll client)
             options w in
  transport rt (sent w) req = NetResponse st (JObj top) →
  in_2xx st = true →
  (json_field top "data" = None →
   r.1 = Throw (Error
     "Query failed: Cannot read properties of undefined (reading 'data')"))
  ∧ (∀ rows, json_field top "data" = Some (JArr rows) →
       r.1 = Throw (Error
         "Query failed: Cannot read properties of undefined (reading 'map')"))
  ∧ (∀ inner, json_field top "data" = Some (JObj inner) →
       json_field inner "data" = None →
       r.1 = Throw (Error
         "Query failed: Cannot read properties of undefined (reading 'map')"))
  ∧ (∀ inner fields, json_field top "data" = Some (JObj inner) →
       json_field inner "data" = Some (JObj fields) →
       r.1 = Throw (Error
         "Query failed: response.data.data.data.map is not a function"))
  ∧ (∀ inner rows, json_field top "data" = Some (JObj inner) →
       json_field inner "data" = Some (JArr (JNull :: rows)) →
       r.1 = Throw (Error
         "Query failed: Cannot read properties of null (reading 'data')")).
Proof.
  intros Hn Hp req r Hnet Hst.
  pose proof (where_run rt coll client options w params req _ Hn Hp
                eq_refl eq_refl) as Hrun.
  fold r in Hrun. clearbody r. rewrite Hnet in Hrun. cbn zeta in Hrun.
  rewrite Hst in Hrun. subst r.
  pose proof (parse_json_represents (JObj top) (store w)) as Hv.
  pose proof (represents_object_not_nullish _ _ _ Hv) as Hvn.
  pose proof (get_own_field _ top _ "data" Hv) as Hd. unfold field_is in Hd.
  set (h := (parse_json (JObj top) (store w)).2) in *.
  set (v := (parse_json (JObj top) (store w)).1) in *.
  split_and!.
  - intros Htop. rewrite Htop in Hd. unfold answered. by rewrite Hvn, Hd.
  - intros rows Htop. rewrite Htop in Hd.
    destruct Hd as (l & vs & Hl & Hl' & _).
    rewrite (answered_no_rows _ _ _ _
               "Cannot read properties of undefined (reading 'map')");
      [done|done|by rewrite Hl|].
    rewrite Hl. unfold Document.array_map.
    assert (get_own h (VRef l) "data" = VUndef) as ->; [|done].
    unfold get_own. rewrite Hl'. cbn [arr_len array_of].
    rewrite bool_decide_eq_false_2 by done.
    change (list_to_map _) with (props (array_of vs)).
    rewrite array_of_other_key; [done|]. by intros [? ?].
  - intros inner Htop Hin. rewrite Htop in Hd.
    pose proof (get_own_field _ inner _ "data" Hd) as Hr.
    unfold field_is in Hr. rewrite Hin in Hr.
    rewrite (answered_no_rows _ _ _ _
               "Cannot read properties of undefined (reading 'map')");
      [done|done|by eapply represents_object_not_nullish|].
    unfold Document.array_map. by rewrite Hr.
  - intros inner fields Htop Hin. rewrite Htop in Hd.
    pose proof (get_own_field _ inner _ "data" Hd) as Hr.
    unfold field_is in Hr. rewrite Hin in Hr.
    rewrite (answered_no_rows _ _ _ _
               "response.data.data.data.map is not a function");
      [done|done|by eapply represents_object_not_nullish|].
    destruct Hr as (l & vs & Hl & Hl' & _). rewrite Hl.
    unfold Document.array_map, is_array. by rewrite Hl'.
  - intros inner rows Htop Hin. rewrite Htop in Hd.
    pose proof (get_own_field _ inner _ "data" Hd) as Hr.
    unfold field_is in Hr. rewrite Hin in Hr.
    rewrite (answered_no_rows _ _ _ _
               "Cannot read properties of null (reading 'data')");
      [done|done|by eapply represents_object_not_nullish|].
    destruct (represents_array _ _ _ Hr) as (vs & Harr & Hslots & Hall).
    destruct vs as [|x vs]; [done|]. destruct Hall as [-> _].
    unfold Document.array_map. rewrite Harr, Hslots.
    assert (nullish (get_own h (get_own h v "data") "data") = false) as ->
      by (by destruct Hr as (l & vs' & -> & _)).
    cbn [fmap list_fmap Document.map_slots]. run. by rewrite new_run.
Qed.

(** The answer [{data: record}] of a single-record request, given to a
    query. *)
Lemma where_malformed_witness :
  nullish (VRef 1%positive) = false
  ∧ Document.where_params (Sample.answering 200 Sample.record_body)
      (VRef 1%positive) Sample.store_limit0 = (Ret [], Sample.store_limit0)
  ∧ in_2xx 200 = true
  ∧ (Document.where_ (Sample.answering 200 Sample.record_body) Sample.Users
       (VRef 1%positive) (World Sample.store_limit0 [])).1
    = Throw (Error
        "Query failed: response.data.data.data.map is not a function").
Proof.
  split_and!; [done|reflexivity|done|].
  exact (proj1 (proj2 (proj2 (proj2
           (where_malformed (Sample.answering 200 Sample.record_body)
              (VStr "users") Sample.client (VRef 1%positive)
              (World Sample.store_limit0 []) [] 200 _
              eq_refl eq_refl eq_refl eq_refl))))
         _ _ eq_refl eq_refl).
Defined.

Lemma map_slots_records h client records : ∀ vs,
  all2 (represents h) (JObj <$> records) vs →
  ∃ docs,
    Document.map_slots (λ d, Document.new d client) (Some <$> vs) h
    = (Ret (Some <$> docs), h)
    ∧ Forall2 (λ record doc, from_record h record doc
                             ∧ Document.client doc = client) records docs.
Proof.
  induction records as [|record records IH]; intros [|v vs];
    cbn [fmap list_fmap all2]; try done.
  - intros _. by exists [].
  - intros [Hv Hr].
    destruct (new_from_record h record v client Hv) as (doc & Hdoc & Hf & Hc).
    destruct (IH vs Hr) as (docs & Hdocs & Hall).
    exists (doc :: docs). cbn [fmap list_fmap Document.map_slots]. run.
    rewrite Hdoc. cbn [fmap list_fmap] in Hdocs. rewrite Hdocs.
    split; [done|]. by constructor.
Qed.

Lemma answered_records client h v log top inner records :
  represents h (JObj top) v →
  json_field top "data" = Some (JObj inner) →
  json_field inner "data" = Some (JArr (JObj <$> records)) →
  ∃ docs pages,
    answered client v h log
    = (Ret (Document.Result (Some <$> docs) pages), World h log)
    ∧ Forall2 (λ record doc, from_record h record doc
                             ∧ Document.client doc = Some client)
        records docs
    ∧ match json_field inner "pagination" with
      | Some p =>
          if json_truthy p then ∃ x, pages = Some x ∧ represents h p x
          else pages = None
      | None => pages = None
      end.
Proof.
  intros Hv Htop Hin.
  pose proof (get_own_field _ top _ "data" Hv) as Hd.
  unfold field_is in Hd. rewrite Htop in Hd.
  pose proof (get_own_field _ inner _ "data" Hd) as Hr.
  unfold field_is in Hr. rewrite Hin in Hr.
  pose proof (get_own_field _ inner _ "pagination" Hd) as Hpg.
  unfold field_is in Hpg.
  destruct (represents_array _ _ _ Hr) as (vs & Harr & Hslots & Hall).
  destruct (map_slots_records _ (Some client) _ _ Hall) as (docs & Hdocs & HF).
  unfold answered.
  rewrite (represents_object_not_nullish _ _ _ Hv).
  rewrite (represents_object_not_nullish _ _ _ Hd).
  unfold Document.array_map. rewrite Harr, Hslots, Hdocs.
  assert (nullish (get_own h (get_own h v "data") "data") = false) as ->
    by (by destruct Hr as (l & vs' & -> & _)).
  eexists _, _. split_and!; [reflexivity|done|].
  destruct (json_field inner "pagination") as [p|].
  - rewrite (represents_truthy _ _ _ Hpg). destruct (json_truthy p); eauto.
  - by rewrite Hpg.
Qed.

(** X15.  On a 2xx answer [{data: {data: rows, pagination}}] whose rows
    are records, [where] returns one Document for each row, in the order
    of the rows, each with the fields of its row and bound to the class's
    client (a plain [Document], whose instance methods use that client);
    no rows give an empty list.  The result has [pagination] exactly when
    the answer's is truthy, and it is the parsed value. *)
Theorem where_documents rt coll client options w params st top inner records :
  nullish options = false →
  Document.where_params rt options (store w) = (Ret params, store w) →
  let req := outgoing (S5Client.axios client) GET
               ("/" +:+ to_string (store w) (S5Client.collection client)
                +:+ "?" +:+ params_toString params) None (store w) in
  let r := Document.where_ rt (Document.CollectionDocument coll client)
             options w in
  transport rt (sent w) req = NetResponse st (JObj top) →
  in_2xx st = true →
  json_field top "data" = Some (JObj inner) →
  json_field inner "data" = Some (JArr (JObj <$> records)) →
  ∃ docs pages h,
    r = (Ret (Document.Result (Some <$> docs) pages),
         World h (sent w ++ [req]))
    ∧ Forall2 (λ record doc, from_record h record doc
                             ∧ Document.client doc = Some client)
        records docs
    ∧ match json_field inner "pagination" with
      | Some p =>
          if json_truthy p then ∃ x, pages = Some x ∧ represents h p x
          else pages = None
      | None => pages = None
      end.
Proof.
  intros Hn Hp req r Hnet Hst Htop Hin.
  pose proof (where_run rt coll client options w params req _ Hn Hp
                eq_refl eq_refl) as Hrun.
  fold r in Hrun. clearbody r. rewrite Hnet in Hrun. cbn zeta in Hrun.
  rewrite Hst in Hrun. subst r.
  destruct (answered_records client _ _ (sent w ++ [req]) top inner records
              (parse_json_represents (JObj top) (store w)) Htop Hin)
    as (docs & pages & Hans & HF & Hpg).
  exists docs, pages, (parse_json (JObj top) (store w)).2. by rewrite Hans.
Qed.

(** Two rows give two Documents, and no pagination. *)
Lemma where_documents_witness :
  nullish (VRef 1%positive) = false
  ∧ Document.where_params (Sample.answering 200 Sample.two_rows)
      (VRef 1%positive) Sample.store_limit0 = (Ret [], Sample.store_limit0)
  ∧ in_2xx 200 = true
  ∧ ∃ a b pages w',
      Document.where_ (Sample.answering 200 Sample.two_rows) Sample.Users
        (VRef 1%positive) (World Sample.store_limit0 [])
      = (Ret (Document.Result [Some a; Some b] pages), w')
      ∧ Document.id a = VStr "a" ∧ Document.id b = VStr "b"
      ∧ pages = None.
Proof.
  split_and!; [done|reflexivity|done|].
  destruct (where_documents (Sample.answering 200 Sample.two_rows)
              (VStr "users") Sample.client (VRef 1%positive)
              (World Sample.store_limit0 []) [] 200
              [("data", JObj [("data", JArr [JObj [("id", JStr "a")];
                                             JObj [("id", JStr "b")]])])]
              [("data", JArr [JObj [("id", JStr "a")];
                              JObj [("id", JStr "b")]])]
              [[("id", JStr "a")]; [("id", JStr "b")]]
              eq_refl eq_refl eq_refl eq_refl eq_refl eq_refl)
    as (docs & pages & h & Hr & HF & Hpg).
  destruct docs as [|a [|b [|c docs]]];
    try (exfalso; by repeat (apply Forall2_cons_inv in HF as [_ HF]
                             || apply Forall2_nil_cons_inv in HF
                             || apply Forall2_cons_nil_inv in HF)).
  apply Forall2_cons in HF as [[(Ha & _) _] HF].
  apply Forall2_cons in HF as [[(Hb & _) _] _].
  exists a, b, pages, (World h ([] ++ [outgoing (S5Client.axios Sample.client)
                                         GET "/users?" None
                                         Sample.store_limit0])).
  split_and!; [exact Hr|exact Ha|exact Hb|exact Hpg].
Defined.

(** ** all *)

(** X16.  [all()] is [where] with no options: it sends one GET for
    [/{collection}?] with an empty query string, and on a 2xx answer
    [{data: {data: rows, pagination}}] whose rows are records it returns
    one Document for each row the server reports, in order, with the
    pagination when that is truthy. *)
Theorem all_documents rt coll client w st top inner records :
  let h := <[fresh (dom (store w)) := empty_object]> (store w) in
  let req := outgoing (S5Client.axios client) GET
               ("/" +:+ to_string h (S5Client.collection client) +:+ "?")
               None h in
  let r := Document.all rt (Document.CollectionDocument coll client) w in
  sent r.2 = (sent w ++ [req])%list
  ∧ (transport rt (sent w) req = NetResponse st (JObj top) →
     in_2xx st = true →
     json_field top "data" = Some (JObj inner) →
     json_field inner "data" = Some (JArr (JObj <$> records)) →
     ∃ docs pages h',
       r = (Ret (Document.Result (Some <$> docs) pages),
            World h' (sent w ++ [req]))
       ∧ Forall2 (λ record doc, from_record h' record doc
                                ∧ Document.client doc = Some client)
           records docs
       ∧ match json_field inner "pagination" with
         | Some p =>
             if json_truthy p then ∃ x, pages = Some x ∧ represents h' p x
             else pages = None
         | None => pages = None
         end).
Proof.
  intros h req r.
  assert (Document.where_params rt (VRef (fresh (dom (store w)))) h
          = (Ret [], h)) as Hp.
  { rewrite where_params_run by done. cbn zeta. subst h.
    by rewrite !get_own_empty. }
  assert (r = Document.where_ rt (Document.CollectionDocument coll client)
                (VRef (fresh (dom (store w)))) (World h (sent w))) as ->
    by done.
  split.
  - by rewrite (where_sent _ _ _ _ _ []).
  - intros Hnet Hst Htop Hin.
    rewrite (where_run rt coll client (VRef (fresh (dom (store w))))
               (World h (sent w)) [] req _ eq_refl Hp eq_refl eq_refl).
    cbn [store sent]. rewrite Hnet. cbn zeta. rewrite Hst.
    destruct (answered_records client _ _ (sent w ++ [req]) top inner records
                (parse_json_represents (JObj top) h) Htop Hin)
      as (docs & pages & Hans & HF & Hpg).
    exists docs, pages, (parse_json (JObj top) h).2. by rewrite Hans.
Qed.

(** One row and a page count. *)
Lemma all_documents_witness :
  in_2xx 200 = true
  ∧ ∃ docs pages w',
      Document.all (Sample.answering 200 Sample.one_page) Sample.Users
        Sample.world_a1
      = (Ret (Document.Result (Some <$> docs) (Some pages)), w')
      ∧ length docs = 1%nat.
Proof.
  split; [done|].
  destruct (proj2 (all_documents (Sample.answering 200 Sample.one_page)
                     (VStr "users") Sample.client Sample.world_a1 200
                     [("data", JObj [("data", JArr [JObj [("id", JStr "a")]]);
                                     ("pagination",
                                      JObj [("total", JNum 1)])])]
                     [("data", JArr [JObj [("id", JStr "a")]]);
                      ("pagination", JObj [("total", JNum 1)])]
                     [[("id", JStr "a")]])
              eq_refl eq_refl eq_refl eq_refl)
    as (docs & pages & h' & Hr & HF & (x & -> & _)).
  exists docs, x. eexists. split; [exact Hr|].
  by rewrite <- (Forall2_length _ _ _ HF).
Defined.

(** ** where: before the request *)

(** X17.  What goes wrong while [where] builds its query is thrown as it
    is, with no ["Query failed: "] label, and before anything is sent:
    [where(null)] throws the [TypeError] of reading [q] of [null] (the
    default [{}] stands in for [undefined] only), and a [filter] that
    [JSON.stringify] refuses makes [where] throw that very error. *)
Theorem where_before_request rt cls w :
  Document.where_ rt cls VNull w
  = (Throw (TypeError "Cannot read properties of null (reading 'q')"), w)
  ∧ (∀ options e,
       nullish options = false →
       truthy (get_own (store w) options "filter") = true →
       JSON_stringify rt (store w) (get_own (store w) options "filter")
         = Throw e →
       Document.where_ rt cls options w = (Throw e, w)).
Proof.
  split.
  - unfold Document.where_, Document.where_params. run. cbn [default_object].
    run. rewrite member_run. cbn [nullish]. by destruct w.
  - intros options e Hn Ht He. unfold Document.where_.
    assert (default_object options = mret options) as -> by by destruct options.
    run. rewrite where_params_run by done. cbn zeta. rewrite Ht, He.
    by destruct w.
Qed.

(** A filter that refers to itself. *)
Lemma where_before_request_witness :
  nullish (VRef 1%positive) = false
  ∧ truthy (get_own Sample.store_circular (VRef 1%positive) "filter") = true
  ∧ Document.where_ Sample.refusing Sample.Users (VRef 1%positive)
      (World Sample.store_circular [])
    = (Throw (TypeError "Converting circular structure to JSON"),
       World Sample.store_circular []).
Proof.
  split_and!; [done|done|].
  exact (proj2 (where_before_request Sample.refusing Sample.Users
                  (World Sample.store_circular []))
           (VRef 1%positive) _ eq_refl eq_refl eq_refl).
Defined.

(** X18.  A [q] that is one string and not a list is sent as one [q]
    parameter, like the list with that string alone: with no other
    option the request is a GET for [/{collection}?q=] followed by the
    encoded string. *)
Theorem where_single_q rt coll client options w s :
  nullish options = false →
  get_own (store w) options "q" = VStr s → s ≠ EmptyString →
  get_own (store w) options "order" = VUndef →
  get_own (store w) options "limit" = VUndef →
  get_own (store w) options "page" = VUndef →
  get_own (store w) options "filter" = VUndef →
  Document.where_params rt options (store w) = (Ret [("q", s)], store w)
  ∧ sent (Document.where_ rt (Document.CollectionDocument coll client)
            options w).2
    = (sent w ++ [outgoing (S5Client.axios client) GET
                    ("/" +:+ to_string (store w) (S5Client.collection client)
                     +:+ "?q=" +:+ form_encode s) None (store w)])%list.
Proof.
  intros Hn Hq Hs Ho Hl Hpg Hf.
  assert (Document.where_params rt options (store w)
          = (Ret [("q", s)], store w)) as Hp.
  { rewrite where_params_run by done. cbn zeta. rewrite Hq, Ho, Hl, Hpg, Hf.
    cbn [truthy]. unfold Document.append_if, Document.append_all.
    cbn [truthy]. rewrite bool_decide_eq_false_2 by done. done. }
  split; [done|]. rewrite (where_sent _ _ _ _ _ _ Hn Hp). done.
Qed.

Lemma where_single_q_witness :
  nullish (VRef 1%positive) = false
  ∧ get_own Sample.store_single_q (VRef 1%positive) "q" = VStr "eq(a,1)"
  ∧ "eq(a,1)" ≠ EmptyString
  ∧ req_url ∘ wire_request <$>
      sent (Document.where_ Sample.unreachable Sample.Users
              (VRef 1%positive) (World Sample.store_single_q [])).2
    = ["/users?q=eq%28a%2C1%29"].
Proof.
  split_and!; [done|done|done|].
  unfold Sample.Users, Document.createCollection.
  rewrite (proj2 (where_single_q Sample.unreachable (VStr "users")
                    Sample.client (VRef 1%positive)
                    (World Sample.store_single_q []) "eq(a,1)"
                    eq_refl eq_refl ltac:(done)
                    eq_refl eq_refl eq_refl eq_refl)).
  reflexivity.
Defined.

(** ** The query string read back *)

Lemma form_decode_byte a t :
  form_decode (form_encode_byte a +:+ t) = String a (form_decode t).
Proof.
  destruct a as [[] [] [] [] [] [] [] []]; reflexivity.
Qed.

Lemma form_decode_encode s : form_decode (form_encode s) = s.
Proof.
  induction s as [|a r IH]; [done|].
  cbn [form_encode]. by rewrite form_decode_byte, IH.
Qed.

Lemma lacks_app sep s t :
  lacks sep (s +:+ t) = lacks sep s && lacks sep t.
Proof.
  induction s as [|a r IH]; [done|].
  change (String a r +:+ t) with (String a (r +:+ t)). cbn [lacks].
  by rewrite IH, andb_assoc.
Qed.

Lemma lacks_encode_byte a :
  lacks "&" (form_encode_byte a) = true ∧ lacks "=" (form_encode_byte a) = true.
Proof. destruct a as [[] [] [] [] [] [] [] []]; split; reflexivity. Qed.

Lemma lacks_encode s :
  lacks "&" (form_encode s) = true ∧ lacks "=" (form_encode s) = true.
Proof.
  induction s as [|a r [IH1 IH2]]; [done|]. cbn [form_encode].
  rewrite !lacks_app, IH1, IH2.
  by destruct (lacks_encode_byte a) as [-> ->].
Qed.

Lemma split_on_nonempty sep s : split_on sep s ≠ [].
Proof.
  destruct s as [|a r]; [done|]. cbn. case_bool_decide; [done|].
  by destruct (split_on sep r).
Qed.

Lemma split_on_lacks sep k : lacks sep k = true → split_on sep k = [k].
Proof.
  induction k as [|a r IH]; [done|]. cbn.
  intros [Ha Hr]%andb_true_iff. apply negb_true_iff in Ha. rewrite Ha.
  by rewrite (IH Hr).
Qed.

Lemma split_on_cons sep k p :
  lacks sep k = true →
  split_on sep (k +:+ String sep p) = k :: split_on sep p.
Proof.
  intros Hk. induction k as [|a r IH].
  - change (EmptyString +:+ String sep p) with (String sep p).
    cbn [split_on]. by rewrite bool_decide_eq_true_2.
  - cbn in Hk. apply andb_true_iff in Hk as [Ha Hr]. apply negb_true_iff in Ha.
    change (String a r +:+ String sep p) with (String a (r +:+ String sep p)).
    cbn [split_on]. by rewrite Ha, (IH Hr).
Qed.

Lemma split_on_concat sep parts :
  parts ≠ [] → Forall (λ p, lacks sep p = true) parts →
  split_on sep (String.concat (String sep EmptyString) parts) = parts.
Proof.
  induction parts as [|p [|p' ps] IH]; [done| |]; intros _ Hl.
  - apply Forall_cons in Hl as [Hp _]. cbn. by apply split_on_lacks.
  - apply Forall_cons in Hl as [Hp Hl].
    change (String.concat (String sep EmptyString) (p :: p' :: ps))
      with (p +:+ String sep (String.concat (String sep EmptyString)
                                (p' :: ps))).
    rewrite split_on_cons by done. by rewrite IH.
Qed.

Lemma split_pair_app n v :
  lacks "=" n = true → split_pair (n +:+ "=" +:+ v) = (n, v).
Proof.
  intros Hn. induction n as [|a r IH]; [done|].
  cbn in Hn. apply andb_true_iff in Hn as [Ha Hr]. apply negb_true_iff in Ha.
  change (String a r +:+ "=" +:+ v) with (String a (r +:+ "=" +:+ v)).
  cbn [split_pair]. by rewrite Ha, (IH Hr).
Qed.

Lemma concat_not_empty sep (p : string) ps :
  p ≠ EmptyString → String.concat sep (p :: ps) ≠ EmptyString.
Proof.
  intros Hp. destruct ps as [|p' ps]; [done|].
  change (String.concat sep (p :: p' :: ps))
    with (p +:+ sep +:+ String.concat sep (p' :: ps)).
  by destruct p.
Qed.

Lemma append_not_empty (s t : string) :
  t ≠ EmptyString → s +:+ t ≠ EmptyString.
Proof. by destruct s. Qed.

(** Decoding the text of a parameter list gives the list back. *)
Lemma query_round_trip params :
  parse_query (params_toString params) = params.
Proof.
  unfold parse_query, params_toString.
  destruct params as [|p ps]; [done|].
  rewrite bool_decide_eq_false_2.
  2:{ rewrite fmap_cons. apply concat_not_empty.
      by apply append_not_empty. }
  rewrite split_on_concat; [|done|].
  - rewrite <- list_fmap_compose. rewrite <- (list_fmap_id (p :: ps)) at 2.
    apply list_fmap_ext. intros i [n v] _. cbn [compose fst snd].
    rewrite split_pair_app by apply lacks_encode. cbn [fst snd].
    by rewrite !form_decode_encode.
  - apply Forall_fmap, Forall_forall. intros [n v] _. unfold compose.
    cbn [fst snd]. rewrite !lacks_app.
    destruct (lacks_encode n) as [-> _], (lacks_encode v) as [-> _]. done.
Qed.

(** X19.  Nothing of the parameters is lost or changed on the way: the
    query string of the request [where] sends, split at [&] and [=] and
    decoded as a server decodes it, is exactly the list of parameters
    [where] built, names, values and order.  So every [q] string arrives
    as the literal string the caller gave, whatever characters it has. *)
Theorem where_query_decodes rt coll client options w params :
  nullish options = false →
  Document.where_params rt options (store w) = (Ret params, store w) →
  ∃ query,
    sent (Document.where_ rt (Document.CollectionDocument coll client)
            options w).2
    = (sent w ++ [outgoing (S5Client.axios client) GET
                    ("/" +:+ to_string (store w) (S5Client.collection client)
                     +:+ "?" +:+ query) None (store w)])%list
    ∧ parse_query query = params.
Proof.
  intros Hn Hp. exists (params_toString params).
  split; [by apply where_sent|apply query_round_trip].
Qed.

Lemma where_query_decodes_witness :
  nullish (VRef 1%positive) = false
  ∧ Document.where_params Sample.unreachable (VRef 1%positive)
      Sample.store_query
    = (Ret [("q", Sample.active); ("order", "-name"); ("limit", "10")],
       Sample.store_query)
  ∧ parse_query "q=eq%28status%2C%22active%22%29&order=-name&limit=10"
    = [("q", Sample.active); ("order", "-name"); ("limit", "10")]
  ∧ ∃ query,
      req_url ∘ wire_request <$>
        sent (Document.where_ Sample.unreachable Sample.Users
                (VRef 1%positive) (World Sample.store_query [])).2
      = ["/users?" +:+ query]
      ∧ parse_query query
        = [("q", Sample.active); ("order", "-name"); ("limit", "10")].
Proof.
  split_and!; [done|reflexivity|reflexivity|].
  destruct (where_query_decodes Sample.unreachable (VStr "users")
              Sample.client (VRef 1%positive) (World Sample.store_query [])
              _ eq_refl eq_refl) as (query & Hsent & Hq).
  exists query. split; [|exact Hq].
  unfold Sample.Users, Document.createCollection. rewrite Hsent. reflexivity.
Defined.

(** ** first and count together *)

(** X20.  [first(options)] and [count(options)] make the same single
    request and leave the same state; [first] returns [null] exactly when
    [count] returns 0, and one throws exactly when the other does, with
    the same error. *)
Theorem first_null_iff_count_zero rt cls options w :
  (Document.first rt cls options w).2 = (Document.count rt cls options w).2
  ∧ ((Document.first rt cls options w).1 = Ret Null
     ↔ (Document.count rt cls options w).1 = Ret 0%nat)
  ∧ (∀ e, (Document.first rt cls options w).1 = Throw e
          ↔ (Document.count rt cls options w).1 = Throw e).
Proof.
  rewrite first_run, count_run. cbn zeta. cbn [fst snd].
  destruct (Document.where_ _ _ _ _) as [[res|e] w']; cbn [fst snd].
  - split_and!; [done| |naive_solver].
    destruct (Document.documents res) as [|[d|] ds]; cbn; naive_solver.
  - split_and!; [done|naive_solver|naive_solver].
Qed.

(** An answer with no rows. *)
Lemma first_null_iff_count_zero_witness :
  (Document.count (Sample.answering 200 Sample.no_rows) Sample.Users VUndef
     Sample.world_a1).1 = Ret 0%nat
  ∧ (Document.first (Sample.answering 200 Sample.no_rows) Sample.Users VUndef
       Sample.world_a1).1 = Ret Null.
Proof.
  assert ((Document.count (Sample.answering 200 Sample.no_rows) Sample.Users
             VUndef Sample.world_a1).1 = Ret 0%nat) as Hc
    by (vm_compute; reflexivity).
  split; [exact Hc|].
  exact (proj2 (proj1 (proj2
           (first_null_iff_count_zero (Sample.answering 200 Sample.no_rows)
              Sample.Users VUndef Sample.world_a1))) Hc).
Defined.

(** ** The static create *)

Lemma create_static_run rt coll client data options w req log :
  let h := (defaulted options (store w)).2 in
  let given := own_props h (defaulted options (store w)).1 in
  req = outgoing (S5Client.axios client) POST
          ("/" +:+ to_string h (S5Client.collection client))
          (Some (map_to_list (given ∪ {["data" := data]}))) h →
  log = (sent w ++ [req])%list →
  Document.create_static rt (Document.CollectionDocument coll client)
    data options w
  = created client h log (transport rt (sent w) req).
Proof.
  intros h given -> ->. subst h given. unfold Document.create_static, created.
  cbn [Document.static_client Document.axios_of Document.collection_of].
  run. rewrite default_object_run.
  destruct (defaulted options (store w)) as [o h0]. cbn [fst snd store sent].
  rewrite axios_request_run. cbn [fst snd store sent].
  destruct (transport _ _ _) as [st body|msg]; [|done].
  cbn zeta. destruct (in_2xx st); cbn [fst snd store sent resp_data]; [|done].
  destruct (member _ "data" _) as [[record|e] h1] eqn:Hm;
    cbn [fst snd store sent].
  - destruct (Document.new _ _ _) as [[fresh|e] h2] eqn:Hn; [done|].
    apply new_throws in Hn. cbn [fst snd store sent].
    unfold failure_text, js_or. by rewrite Hn.
  - apply member_throws in Hm as [Hr ->].
    unfold failure_text, js_or. by rewrite Hr.
Qed.

(** X21.  The static [create(data, options)] sends one POST to
    [/{collection}] whose body holds the own keys of [options] and, under
    [data], the [data] argument, unless [options] has a [data] key of its
    own, which then wins (the body is [{data, ...options}]).  On a 2xx
    answer [{data: record}] it returns a Document with the fields of the
    record, bound to the class's client; when the transport fails or the
    server refuses, it throws an [Error] labelled ["Create failed: "]. *)
Theorem create_static_outcome rt coll client data options w :
  let cls := Document.CollectionDocument coll client in
  let h := (defaulted options (store w)).2 in
  let given := own_props h (defaulted options (store w)).1 in
  let body := map_to_list (given ∪ {["data" := data]}) in
  let req := outgoing (S5Client.axios client) POST
               ("/" +:+ to_string h (S5Client.collection client))
               (Some body) h in
  let r := Document.create_static rt cls data options w in
  sent r.2 = (sent w ++ [req])%list
  ∧ (∀ k, (list_to_map body : gmap string value) !! k
          = match given !! k with
            | Some x => Some x
            | None => if bool_decide (k = "data") then Some data else None
            end)
  ∧ (∀ st top record,
       transport rt (sent w) req = NetResponse st (JObj top) →
       in_2xx st = true →
       json_field top "data" = Some (JObj record) →
       ∃ doc h', r = (Ret doc, World h' (sent w ++ [req]))
               ∧ from_record h' record doc
               ∧ Document.client doc = Some client)
  ∧ (∀ msg, transport rt (sent w) req = NetFailure msg →
       r.1 = Throw (Error ("Create failed: " +:+ msg)))
  ∧ (∀ st top err s, transport rt (sent w) req = NetResponse st (JObj top) →
       in_2xx st = false →
       json_field top "error" = Some (JObj err) →
       json_field err "message" = Some (JStr s) → s ≠ EmptyString →
       r.1 = Throw (Error ("Create failed: " +:+ s))).
Proof.
  intros cls h given body req r.
  pose proof (create_static_run rt coll client data options w req _
                eq_refl eq_refl) as Hrun.
  fold cls r h in Hrun. clearbody r. subst r.
  split_and!.
  - unfold created. destruct (transport _ _ _) as [st b|msg]; [|done].
    cbn zeta. destruct (in_2xx st); [|done].
    destruct (member _ _ _) as [[record|e] h1]; [|done].
    by destruct (Document.new _ _ _) as [[fresh|e] h2].
  - intros k. subst body. rewrite list_to_map_to_list, lookup_union.
    destruct (given !! k) as [x|] eqn:Hk.
    + by destruct (({["data" := data]} : gmap string value) !! k).
    + case_bool_decide as Hd.
      * subst k. by rewrite lookup_singleton_eq.
      * by rewrite lookup_singleton_ne by (by intros <-).
  - intros st top record -> Hst Hrec. unfold created. cbn zeta. rewrite Hst.
    pose proof (parse_json_represents (JObj top) h) as Hv.
    destruct (answer_record _ _ _ _ Hv Hrec) as [Hm Hr]. rewrite Hm.
    destruct (new_from_record _ _ _ (Some client) Hr) as (doc & Hn & Hf & Hc).
    rewrite Hn. eauto.
  - by intros msg ->.
  - intros st top err s -> Hst Herr Hmsg Hs. unfold created. cbn zeta.
    rewrite Hst. cbn [fst]. rewrite failure_text_rejected.
    rewrite (server_message _ top _ err s); [|apply parse_json_represents|done..].
    cbn [truthy]. rewrite bool_decide_eq_false_2 by done. done.
Qed.

Lemma create_static_outcome_witness :
  transport Sample.unreachable []
    (outgoing (S5Client.axios Sample.client) POST "/users"
       (Some (map_to_list (own_props Sample.store_changes (VRef 2%positive)
                           ∪ {["data" := VRef 1%positive]})))
       Sample.store_changes)
  = NetFailure "Network Error"
  ∧ (Document.create_static Sample.unreachable Sample.Users
       (VRef 1%positive) (VRef 2%positive)
       (World Sample.store_changes [])).1
    = Throw (Error "Create failed: Network Error").
Proof.
  split; [done|].
  exact (proj1 (proj2 (proj2 (proj2
           (create_static_outcome Sample.unreachable (VStr "users")
              Sample.client (VRef 1%positive) (VRef 2%positive)
              (World Sample.store_changes [])))))
         "Network Error" eq_refl).
Defined.

(** ** The class Document itself *)

(** X22.  The class [Document] is not bound to a client (only the classes
    made by [createCollection] are), so its static methods never reach the
    server: [all], [where], [first], [count], [find] and [create] called
    on it throw, and nothing is sent. *)
Theorem unbound_class_never_sends rt w :
  let no_client label :=
    Error (label +:+ " failed: Cannot read properties of undefined (reading 'axios')") in
  (Document.all rt Document.Base w).1 = Throw (no_client "Query")
  ∧ sent (Document.all rt Document.Base w).2 = sent w
  ∧ (∀ options,
       (∃ e, (Document.where_ rt Document.Base options w).1 = Throw e)
       ∧ sent (Document.where_ rt Document.Base options w).2 = sent w)
  ∧ (∀ options,
       (∃ e, (Document.first rt Document.Base options w).1 = Throw e)
       ∧ sent (Document.first rt Document.Base options w).2 = sent w)
  ∧ (∀ options,
       (∃ e, (Document.count rt Document.Base options w).1 = Throw e)
       ∧ sent (Document.count rt Document.Base options w).2 = sent w)
  ∧ (∀ id, Document.find rt Document.Base id w
           = (Throw (no_client "Find"), w))
  ∧ (∀ data options,
       (Document.create_static rt Document.Base data options w).1
       = Throw (no_client "Create")
       ∧ sent (Document.create_static rt Document.Base data options w).2
         = sent w).
Proof.
  intros no_client.
  assert (∀ options w,
            (∃ e, (Document.where_ rt Document.Base options w).1 = Throw e)
            ∧ sent (Document.where_ rt Document.Base options w).2 = sent w)
    as Hwhere.
  { intros options w0. unfold Document.where_. run.
    destruct (default_object options (store w0)) as [[o|e] h0];
      cbn [fst snd store sent]; [|eauto].
    destruct (Document.where_params rt o h0) as [[params|e] h1];
      cbn [fst snd store sent]; eauto. }
  split_and!.
  - unfold Document.all, Document.where_, Document.where_params. run.
    cbn [default_object]. unfold new_object, alloc. cbn [fst snd store sent].
    repeat (rewrite member_run; cbn [nullish fst snd]).
    by rewrite !get_own_empty.
  - apply Hwhere.
  - intros options. apply Hwhere.
  - intros options. rewrite first_run. cbn zeta. cbn [fst snd].
    destruct (Hwhere (VRef (limited options (store w)).1)
                (World (limited options (store w)).2 (sent w)))
      as [[e He] Hs].
    rewrite He. eauto.
  - intros options. rewrite count_run. cbn zeta. cbn [fst snd].
    destruct (Hwhere (VRef (limited options (store w)).1)
                (World (limited options (store w)).2 (sent w)))
      as [[e He] Hs].
    rewrite He. eauto.
  - intros id. apply find_on_Document.
  - intros data options. unfold Document.create_static. run.
    destruct (default_object options (store w)) as [[o|e] h0] eqn:Hd;
      cbn [fst snd store sent]; [done|].
    by destruct options.
Qed.

(** ** The store only grows *)

Lemma map_slots_extends client ss : ∀ h r h',
  Document.map_slots (λ d, Document.new d client) ss h = (r, h') →
  extends h h'.
Proof.
  induction ss as [|[v|] ss IH]; intros h r h'; cbn; run.
  - intros [= _ <-]. apply extends_refl.
  - destruct (Document.new v client h) as [[a|e] h1] eqn:Hn;
      apply new_extends in Hn.
    + destruct (Document.map_slots _ ss h1) as [[rs|e] h2] eqn:Hr;
        apply IH in Hr; intros [= _ <-]; by eapply extends_trans.
    + by intros [= _ <-].
  - destruct (Document.map_slots _ ss h) as [[rs|e] h2] eqn:Hr;
      apply IH in Hr; by intros [= _ <-].
Qed.

Lemma array_map_extends client rows h r h' :
  Document.array_map rows (λ d, Document.new d client) h = (r, h') →
  extends h h'.
Proof.
  unfold Document.array_map.
  destruct (nullish rows); [intros [= _ <-]; apply extends_refl|].
  destruct (is_array h rows); [|intros [= _ <-]; apply extends_refl].
  apply map_slots_extends.
Qed.

Lemma default_object_extends v h : extends h (default_object v h).2.
Proof.
  destruct v; try apply extends_refl. apply (alloc_extends empty_object h).
Qed.

Lemma member_store v k h : (member v k h).2 = h.
Proof. rewrite member_run. by destruct (nullish v). Qed.

Lemma where_extends rt cls options w :
  extends (store w) (store (Document.where_ rt cls options w).2).
Proof.
  unfold Document.where_. run.
  pose proof (default_object_extends options (store w)) as H0.
  destruct (default_object options (store w)) as [[o|e] h0];
    cbn [fst snd store sent] in *; [|done].
  destruct (Document.where_params rt o h0) as [[params|e] h1] eqn:Hp;
    apply where_params_store in Hp as ->; cbn [fst snd store sent]; [|done].
  destruct cls as [|coll client];
    cbn [Document.static_client Document.axios_of Document.collection_of];
    run; [done|].
  rewrite axios_request_run.
  destruct (transport _ _ _) as [st body|msg]; [|done].
  pose proof (parse_json_extends body h0) as H1.
  destruct (in_2xx st); cbn [fst snd store sent resp_data];
    [|by eapply extends_trans].
  rewrite !member_run.
  destruct (nullish (parse_json body h0).1); cbn [fst snd store sent];
    [by eapply extends_trans|].
  rewrite member_run.
  destruct (nullish (get_own _ _ "data")); cbn [fst snd store sent];
    [by eapply extends_trans|].
  destruct (Document.array_map _ _ _) as [[docs|e] h2] eqn:Hmap;
    apply array_map_extends in Hmap; cbn [fst snd store sent].
  - rewrite member_run.
    destruct (nullish (get_own _ _ "data")); cbn [fst snd store sent];
      eapply extends_trans; [done| |done|]; by eapply extends_trans.
  - eapply extends_trans; [done|]. by eapply extends_trans.
Qed.

Lemma find_extends rt cls id w :
  extends (store w) (store (Document.find rt cls id w).2).
Proof.
  unfold Document.find.
  destruct cls as [|coll client];
    cbn [Document.static_client Document.axios_of Document.collection_of];
    run; [apply extends_refl|].
  rewrite axios_request_run.
  destruct (transport _ _ _) as [st body|msg];
    [|exact (extends_refl (store w))].
  pose proof (parse_json_extends body (store w)) as H1.
  destruct (in_2xx st); cbn [fst snd store sent resp_data].
  - rewrite member_run.
    destruct (nullish (parse_json body (store w)).1);
      cbn [fst snd store sent];
      [by destruct (Document.status_is _ _)|].
    destruct (Document.new _ _ _) as [[doc|e] h2] eqn:Hn;
      apply new_extends in Hn; cbn [fst snd store sent];
      [by eapply extends_trans|].
    destruct (Document.status_is _ _); by eapply extends_trans.
  - by destruct (Document.status_is _ _).
Qed.

Lemma create_static_extends rt cls data options w :
  extends (store w) (store (Document.create_static rt cls data options w).2).
Proof.
  unfold Document.create_static. run.
  pose proof (default_object_extends options (store w)) as H0.
  destruct (default_object options (store w)) as [[o|e] h0];
    cbn [fst snd store sent] in *; [|done].
  destruct cls as [|coll client];
    cbn [Document.static_client Document.axios_of Document.collection_of];
    run; [done|].
  rewrite axios_request_run.
  destruct (transport _ _ _) as [st body|msg]; [|done].
  pose proof (parse_json_extends body h0) as H1.
  destruct (in_2xx st); cbn [fst snd store sent resp_data];
    [|by eapply extends_trans].
  rewrite member_run.
  destruct (nullish (parse_json body h0).1); cbn [fst snd store sent];
    [by eapply extends_trans|].
  destruct (Document.new _ _ _) as [[doc|e] h2] eqn:Hn;
    apply new_extends in Hn; cbn [fst snd store sent];
    (eapply extends_trans; [done|]; by eapply extends_trans).
Qed.

Lemma limited_extends options h : extends h (limited options h).2.
Proof.
  unfold limited.
  pose proof (default_object_extends options h) as H0.
  rewrite default_object_run in H0. cbn [snd] in H0.
  destruct (defaulted options h) as [o h0]. cbn [snd] in *.
  eapply extends_trans; [done|]. apply (alloc_extends _ h0).
Qed.

(** X23.  The static methods only add objects to the store (the parsed
    answer, and a copy of the options for [first] and [count]): every
    object that was there before the call, the caller's [options] among
    them, is there after it and unchanged, whatever the call returns or
    throws. *)
Theorem static_methods_only_add rt cls w :
  (∀ options, extends (store w)
                (store (Document.where_ rt cls options w).2))
  ∧ extends (store w) (store (Document.all rt cls w).2)
  ∧ (∀ id, extends (store w) (store (Document.find rt cls id w).2))
  ∧ (∀ options, extends (store w)
                  (store (Document.first rt cls options w).2))
  ∧ (∀ options, extends (store w)
                  (store (Document.count rt cls options w).2))
  ∧ (∀ data options,
       extends (store w)
         (store (Document.create_static rt cls data options w).2)).
Proof.
  split_and!.
  - intros options. apply where_extends.
  - apply where_extends.
  - intros id. apply find_extends.
  - intros options. rewrite first_run. cbn zeta. cbn [snd].
    eapply extends_trans; [apply limited_extends|].
    apply (where_extends rt cls _ (World _ (sent w))).
  - intros options. rewrite count_run. cbn zeta. cbn [snd].
    eapply extends_trans; [apply limited_extends|].
    apply (where_extends rt cls _ (World _ (sent w))).
  - intros data options. apply create_static_extends.
Qed.

(** ** S5 *)

(** X24.  [new S5(config)] checks nothing and always succeeds; it is
    [collection(name)] that builds the client, from a copy of the
    configuration in which [collection] is [name].  So a configuration
    without a truthy [apiKey] is reported by [collection] (["API key is
    required"]), and a falsy [name] is refused (["Collection name is
    required"]) even when the configuration has a [collection] of its own;
    otherwise the class returned is bound to [name] and to a client with
    the configuration's key and base URL (the default one when there is
    none). *)
Theorem s5_collection self name h :
  let given := own_props h (S5.config self) in
  let place := fresh (dom h) in
  let h' := <[place := Obj None (<["collection" := name]> given)]> h in
  let key := default VUndef (given !! "apiKey") in
  let url := js_or (default VUndef (given !! "baseURL"))
                   (VStr "https://s5.host/api/v1") in
  let r := S5.collection self name h in
  (∀ config h0, ∃ s5 h1, S5.new config h0 = (Ret s5, h1))
  ∧ h !! place = None
  ∧ (truthy key = false → r = (Throw (Error "API key is required"), h'))
  ∧ (truthy key = true → truthy name = false →
     r = (Throw (Error "Collection name is required"), h'))
  ∧ (truthy key = true → truthy name = true →
     ∃ c, r = (Ret (Document.CollectionDocument name c), h')
        ∧ S5Client.collection c = name
        ∧ S5Client.apiKey c = key
        ∧ S5Client.baseURL c = url
        ∧ S5Client.axios c
          = Axios url [("Authorization", "Bearer " +:+ to_string h' key);
                       ("Content-Type", "application/json")]).
Proof.
  intros given place h' key url r.
  assert (h' !! place = Some (Obj None (<["collection" := name]> given)))
    as Hl by apply lookup_insert_eq.
  assert (r = if negb (truthy key)
              then (Throw (Error "API key is required"), h')
              else if negb (truthy name)
              then (Throw (Error "Collection name is required"), h')
              else
                (Ret (Document.CollectionDocument name
                        (S5Client.Make url key name
                           (Axios url
                              [("Authorization",
                                "Bearer " +:+ to_string h' key);
                               ("Content-Type", "application/json")]))),
                 h')) as ->.
  { subst r. unfold S5.collection. run. unfold new_object, alloc.
    cbn [fst snd]. fold given place h'. rewrite client_new_run.
    rewrite !(get_own_plain _ _ _ _ Hl eq_refl). cbn [props].
    rewrite lookup_insert_eq. rewrite !lookup_insert_ne by done.
    cbn [default from_option id]. fold key url.
    destruct (truthy key); cbn [negb]; [|done].
    by destruct (truthy name). }
  split_and!.
  - intros config h0. unfold S5.new. run.
    destruct (default_object config h0) as [[o|e] h1] eqn:Hd; [eauto|].
    by destruct config.
  - apply not_elem_of_dom, is_fresh.
  - by intros ->.
  - by intros -> ->.
  - intros -> ->. cbn [negb]. eexists. by split_and!.
Qed.

Lemma s5_collection_witness :
  truthy (default VUndef
            (own_props Sample.store_config (VRef 1%positive) !! "apiKey"))
  = true
  ∧ truthy VUndef = false
  ∧ (S5.collection (S5.Make (VRef 1%positive)) VUndef Sample.store_config).1
    = Throw (Error "Collection name is required")
  ∧ ∃ c h,
      S5.collection (S5.Make (VRef 1%positive)) (VStr "orders")
        Sample.store_config
      = (Ret (Document.CollectionDocument (VStr "orders") c), h)
      ∧ S5Client.collection c = VStr "orders".
Proof.
  split_and!; [done|done| |].
  - rewrite (proj1 (proj2 (proj2 (proj2
               (s5_collection (S5.Make (VRef 1%positive)) VUndef
                  Sample.store_config)))) eq_refl eq_refl).
    reflexivity.
  - destruct (proj2 (proj2 (proj2 (proj2
               (s5_collection (S5.Make (VRef 1%positive)) (VStr "orders")
                  Sample.store_config)))) eq_refl eq_refl)
      as (c & Hr & Hc & _).
    exists c. eexists. split; [exact Hr|exact Hc].
Defined.

(** ** One request for each call *)

Lemma created_sent c h log answer : sent (created c h log answer).2 = log.
Proof.
  unfold created. destruct answer as [st b|msg]; [|done].
  cbn zeta. destruct (in_2xx st); [|done].
  destruct (member _ _ _) as [[record|e] h1]; [|done].
  by destruct (Document.new _ _ _) as [[fresh|e] h2].
Qed.

Lemma find_sent rt coll client id w :
  ∃ wr, sent (Document.find rt (Document.CollectionDocument coll client)
                id w).2 = (sent w ++ [wr])%list.
Proof.
  eexists. erewrite find_run; [|done..].
  destruct (transport _ _ _) as [st body|msg]; [|done].
  cbn zeta. destruct (in_2xx st).
  - destruct (member _ _ _) as [[record|e] h1]; [|done].
    by destruct (Document.new _ _ _) as [[doc|e] h2].
  - by destruct (st =? 404).
Qed.

(** [where] sends its request unless building the query fails. *)
Lemma where_sent_any rt coll client options w :
  let r := Document.where_ rt (Document.CollectionDocument coll client)
             options w in
  (sent r.2 = sent w ∧ ∃ e, r.1 = Throw e)
  ∨ ∃ wr, sent r.2 = (sent w ++ [wr])%list.
Proof.
  intros r. subst r. unfold Document.where_. run.
  rewrite default_object_run. cbn [fst snd store sent].
  destruct (Document.where_params rt _ _) as [[params|e] h1] eqn:Hp;
    cbn [fst snd store sent]; [|left; eauto].
  right. cbn [Document.static_client Document.axios_of Document.collection_of].
  run. rewrite axios_request_run.
  destruct (transport _ _ _) as [st body|msg]; [|by eexists].
  destruct (in_2xx st); cbn [fst snd store sent resp_data]; [|by eexists].
  repeat (match goal with
          | |- context [member ?v ?k ?h] =>
              destruct (member v k h) as [[?|?] ?]
          | |- context [Document.array_map ?v ?f ?h] =>
              destruct (Document.array_map v f h) as [[?|?] ?]
          end; cbn [fst snd store sent]; try by eexists).
Qed.

(** X25.  No call sends more than one request, and none removes or
    rewrites an earlier one: on a collection class and on a Document that
    has a client, [find], [all], the static [create], [create], [update],
    [patch], [destroy] and [save] each add exactly one request to the log,
    whatever comes back (there is no retry); [where], [first] and [count]
    add one, or none when they throw before sending; [reload], [get],
    [set] and [toJSON] add none. *)
Theorem one_request_each rt coll client doc w :
  Document.client doc = Some client →
  let cls := Document.CollectionDocument coll client in
  let one (log : list wire) := ∃ wr, log = (sent w ++ [wr])%list in
  (∀ id, one (sent (Document.find rt cls id w).2))
  ∧ one (sent (Document.all rt cls w).2)
  ∧ (∀ data options,
       one (sent (Document.create_static rt cls data options w).2))
  ∧ one (sent (Document.create rt (doc, w)).2.2)
  ∧ (∀ changes, one (sent (Document.update rt changes (doc, w)).2.2))
  ∧ (∀ changes, one (sent (Document.patch rt changes (doc, w)).2.2))
  ∧ one (sent (Document.destroy rt (doc, w)).2.2)
  ∧ one (sent (Document.save rt (doc, w)).2.2)
  ∧ (∀ options,
       let r := Document.where_ rt cls options w in
       (sent r.2 = sent w ∧ ∃ e, r.1 = Throw e) ∨ one (sent r.2))
  ∧ (∀ options,
       let r := Document.first rt cls options w in
       (sent r.2 = sent w ∧ ∃ e, r.1 = Throw e) ∨ one (sent r.2))
  ∧ (∀ options,
       let r := Document.count rt cls options w in
       (sent r.2 = sent w ∧ ∃ e, r.1 = Throw e) ∨ one (sent r.2))
  ∧ sent (Document.reload rt (doc, w)).2.2 = sent w
  ∧ (∀ path, sent (Document.get path (doc, w)).2.2 = sent w)
  ∧ (∀ path x, sent (Document.set path x (doc, w)).2.2 = sent w)
  ∧ sent (Document.toJSON (doc, w)).2.2 = sent w.
Proof.
  intros Hc cls one. subst cls one. cbn beta.
  assert (∀ d w0, Document.client d = Some client →
            ∃ wr, sent (Document.update rt VNull (d, w0)).2.2
                  = (sent w0 ++ [wr])%list) as Hupdate.
  { intros d w0 Hd. eexists. erewrite update_path_run; [|done..].
    apply settled_sent. }
  split_and!.
  - intros id. apply find_sent.
  - eexists. unfold Document.all. rewrite where_without_options.
    rewrite (where_sent _ _ _ _ _ []); [done|done|].
    rewrite where_params_run by done. cbn [store].
    by rewrite !get_own_empty.
  - intros data options. eexists. erewrite create_static_run; [|done..].
    apply created_sent.
  - eexists. erewrite create_run; [|done..]. apply settled_sent.
  - intros changes. destruct (truthy changes) eqn:Ht.
    + rewrite update_merge_run by done.
      destruct (Hupdate (Document.with_data
                           (VRef (fresh (dom (store w)))) doc)
                  (World (<[fresh (dom (store w)) :=
                              Obj None (own_props (store w) changes
                                        ∪ own_props (store w)
                                            (Document.data doc))]>
                            (store w)) (sent w)) Hc) as [wr Hs].
      by exists wr.
    + assert (Document.update rt changes (doc, w)
              = Document.update rt VNull (doc, w)) as ->
        by (unfold Document.update; by rewrite Ht).
      by apply Hupdate.
  - intros changes. eexists. erewrite patch_run; [|done..].
    apply settled_sent.
  - eexists. erewrite destroy_run; [|done..].
    destruct (transport _ _ _) as [st body|msg]; [|done].
    cbn zeta. by destruct (in_2xx st).
  - unfold Document.save. run. destruct (truthy (Document.id doc)).
    + by apply Hupdate.
    + eexists. erewrite create_run; [|done..]. apply settled_sent.
  - intros options. apply where_sent_any.
  - intros options r. subst r. rewrite first_run. cbn zeta. cbn [fst snd].
    destruct (where_sent_any rt coll client
                (VRef (limited options (store w)).1)
                (World (limited options (store w)).2 (sent w)))
      as [[Hs [e He]]|Hs]; [left|by right].
    split; [done|]. rewrite He. eauto.
  - intros options r. subst r. rewrite count_run. cbn zeta. cbn [fst snd].
    destruct (where_sent_any rt coll client
                (VRef (limited options (store w)).1)
                (World (limited options (store w)).2 (sent w)))
      as [[Hs [e He]]|Hs]; [left|by right].
    split; [done|]. rewrite He. eauto.
  - rewrite reload_run. by destruct (truthy (Document.id doc)).
  - done.
  - intros path x. unfold Document.set. run.
    by destruct (Document.setNestedValue _ _ _ _).
  - done.
Qed.

(** A Document with a client, and a server that cannot be reached. *)
Lemma one_request_each_witness :
  Document.client Sample.user = Some Sample.client
  ∧ length (sent (Document.save Sample.unreachable
                    (Sample.user, Sample.world_a1)).2.2) = 1%nat.
Proof.
  split; [done|].
  destruct (proj1 (proj2 (proj2 (proj2 (proj2 (proj2 (proj2 (proj2
              (one_request_each Sample.unreachable (VStr "users")
                 Sample.client Sample.user Sample.world_a1 eq_refl)))))))))
    as [wr ->].
  reflexivity.
Defined.

(** ** The store only grows: the instance methods *)

(** X26.  Of the instance methods only [set] writes into an object that
    is already there.  [create], [update(d)], [patch(d)], [save],
    [destroy], [reload] and [toJSON] only add objects to the store (the
    parsed answer, the merged data of [update(d)], the object of
    [toJSON]): the old data object and the argument [d] are not touched,
    whatever the call returns or throws; [get] changes nothing at all. *)
Theorem instance_methods_only_add rt doc w :
  extends (store w) (store (Document.create rt (doc, w)).2.2)
  ∧ (∀ changes,
       extends (store w) (store (Document.update rt changes (doc, w)).2.2))
  ∧ (∀ changes,
       extends (store w) (store (Document.patch rt changes (doc, w)).2.2))
  ∧ extends (store w) (store (Document.save rt (doc, w)).2.2)
  ∧ extends (store w) (store (Document.destroy rt (doc, w)).2.2)
  ∧ extends (store w) (store (Document.reload rt (doc, w)).2.2)
  ∧ extends (store w) (store (Document.toJSON (doc, w)).2.2)
  ∧ (∀ path, (Document.get path (doc, w)).2 = (doc, w)).
Proof.
  assert (extends (store w) (store (Document.create rt (doc, w)).2.2))
    as Hcreate.
  { destruct (Document.client doc) as [c|] eqn:Hc.
    - erewrite create_run; [|done..]. apply settled_extends.
    - unfold Document.create. run. rewrite Hc. apply extends_refl. }
  assert (∀ d w0, extends (store w0)
                    (store (Document.update rt VNull (d, w0)).2.2))
    as Hupdate.
  { intros d w0. destruct (Document.client d) as [c|] eqn:Hc.
    - erewrite update_path_run; [|done..]. apply settled_extends.
    - unfold Document.update. cbn [truthy]. run. rewrite Hc.
      apply extends_refl. }
  split_and!.
  - done.
  - intros changes. destruct (truthy changes) eqn:Ht.
    + rewrite update_merge_run by done.
      eapply extends_trans; [|apply Hupdate]. cbn [store].
      apply (alloc_extends _ (store w)).
    + assert (Document.update rt changes (doc, w)
              = Document.update rt VNull (doc, w)) as ->
        by (unfold Document.update; by rewrite Ht).
      apply Hupdate.
  - intros changes. destruct (Document.client doc) as [c|] eqn:Hc.
    + erewrite patch_run; [|done..]. apply settled_extends.
    + unfold Document.patch. run. rewrite Hc. apply extends_refl.
  - unfold Document.save. run. destruct (truthy (Document.id doc)).
    + apply Hupdate.
    + done.
  - destruct (Document.client doc) as [c|] eqn:Hc.
    + erewrite destroy_run; [|done..].
      destruct (transport _ _ _) as [st body|msg]; [|apply extends_refl].
      cbn zeta. destruct (in_2xx st); apply parse_json_extends.
    + unfold Document.destroy. run. rewrite Hc. apply extends_refl.
  - rewrite reload_run. destruct (truthy (Document.id doc));
      apply extends_refl.
  - unfold Document.toJSON. run. apply (alloc_extends _ (store w)).
  - done.
Qed.
